(** * SSMiSS: scan waveform planning, acquisition buffer and approach control

    A shallow embedding of the numerical and control core of the SSMiSS
    instrument suite: [utils.stepData], [scanUI.dumpData],
    [ScanLineThread.run] and the approach loop of [approachUI] together with
    [ApproachThread].

    A Python float is represented by the rational it denotes ([Q]), and
    comparisons are the rational ones.  Sums, differences and quotients of
    floats are exact in the model; the code rounds each of them to binary64,
    a relative change of at most [2^-53].  Where a result is cut to a whole
    number, as the repeat count [settle * data_rate] of [stepData] is, the
    last bit decides, and the model rounds as the code does
    ([Py.float_round]).  Statements that depend on the values of computed
    floats in another way carry a condition under which the rounding cannot
    change what they say.  Arrays are lists; that numpy can run out of memory
    for a large array is outside the model, and statements that promise a
    result bound the sizes ([Py.modest]). *)

From Stdlib Require Import Ascii String DecimalString.
From Stdlib Require Import ZArith QArith Qround Qminmax Qabs List Bool Lia Lqa.
From Stdlib Require Import SetoidList Sorted.
Import ListNotations.

Local Open Scope Z_scope.

(** ** Python and numpy primitives used by the sources *)

Module Py.

(** The exceptions that the modelled code can raise. *)
Inductive exn : Type :=
| ValueError
| IndexError
| ZeroDivisionError
| AttributeError
| TypeError
| OverflowError
| DaqError.

Inductive result (A : Type) : Type :=
| Ok (a : A)
| Raise (e : exn).

Arguments Ok {A} a.
Arguments Raise {A} e.

Definition bind {A B : Type} (c : result A) (k : A -> result B) : result B :=
  match c with
  | Ok a => k a
  | Raise e => Raise e
  end.

Definition is_ok {A : Type} (c : result A) : bool :=
  match c with
  | Ok _ => true
  | Raise _ => false
  end.

(** [int(x)] on a float: truncation towards zero.  This is also the
    conversion that numpy applies to a Python float passed where an integer
    count is expected. *)
Definition py_int (x : Q) : Z := Z.quot (Qnum x) (Z.pos (Qden x)).

(** *** Rounding to binary64 *)

(** [floor(log2(n / d))] for positive [n] and [d]. *)
Definition floor_log2 (n d : Z) : Z :=
  let l := Z.log2 n - Z.log2 d in
  if (if 0 <=? l then d * 2 ^ l <=? n else d <=? n * 2 ^ (- l))
  then l else l - 1.

(** The whole number nearest to [n / d] for positive [d]; of two that are
    equally near, the even one. *)
Definition nearest_even (n d : Z) : Z :=
  let q := n / d in
  let r := n mod d in
  match 2 * r ?= d with
  | Lt => q
  | Gt => q + 1
  | Eq => if Z.even q then q else q + 1
  end.

(** The float nearest to the rational [x], ties to the even significand: a
    significand of 53 bits, and the spacing [2^-1074] of the subnormal
    numbers below [2^-1022].  Where the code would have [inf], above the
    largest float, [float_round] still rounds to 53 bits; the one use below
    rejects such a number as the code rejects [inf]. *)
Definition float_round (x : Q) : Q :=
  let n := Z.abs (Qnum x) in
  let d := Z.pos (Qden x) in
  if n =? 0 then 0%Q
  else
    let e := Z.max (floor_log2 n d - 52) (-1074) in
    let m := if 0 <=? e then nearest_even n (d * 2 ^ e)
             else nearest_even (n * 2 ^ (- e)) d in
    Qred (if 0 <=? e then inject_Z (Z.sgn (Qnum x) * m * 2 ^ e)
          else Qmake (Z.sgn (Qnum x) * m) (Z.to_pos (2 ^ (- e)))).

(** [a * b] on floats: the float nearest to the product.  The factors are
    floats, which [float_round] leaves as they are; a rational that is not
    a float stands for the float nearest to it, as a number written in
    decimal does in Python. *)
Definition float_mul (a b : Q) : Q :=
  float_round (float_round a * float_round b).

(** A Python float where numpy wants a count ([npy_intp]): [int(x)], which
    must fit a signed integer of 64 bits. *)
Definition as_intp (x : Q) : result Z :=
  let n := py_int x in
  if (n <? - 2 ^ 63) || (2 ^ 63 <=? n) then Raise OverflowError else Ok n.

(** A number of entries that numpy allocates wherever the program runs: a
    million.  Statements that promise an array are made for sizes up to
    this one. *)
Definition modest : Z := 1000000.

(** Normalisation of one bound of a slice over a sequence of length [len]:
    negative bounds count from the end, and the result is clamped. *)
Definition slice_bound (len i : Z) : Z :=
  if i <? 0 then Z.max 0 (i + len) else Z.min i len.

(** [l[lo:hi]] *)
Definition slice {A : Type} (l : list A) (lo hi : Z) : list A :=
  let len := Z.of_nat (length l) in
  let lo' := slice_bound len lo in
  let hi' := slice_bound len hi in
  firstn (Z.to_nat (hi' - lo')) (skipn (Z.to_nat lo') l).

(** [l[i]], with Python's negative indices. *)
Definition index {A : Type} (l : list A) (i : Z) : result A :=
  let len := Z.of_nat (length l) in
  let j := if i <? 0 then i + len else i in
  if (j <? 0) || (len <=? j) then Raise IndexError
  else match nth_error l (Z.to_nat j) with
       | Some x => Ok x
       | None => Raise IndexError
       end.

(** [l[i] = v] *)
Definition setitem {A : Type} (l : list A) (i : Z) (v : A) : result (list A) :=
  let len := Z.of_nat (length l) in
  let j := if i <? 0 then i + len else i in
  if (j <? 0) || (len <=? j) then Raise IndexError
  else Ok (firstn (Z.to_nat j) l ++ v :: skipn (S (Z.to_nat j)) l).

(** [range(start, stop, step)] for a non-zero [step]. *)
Definition range (start stop step : Z) : list Z :=
  let count :=
    if 0 <? step then (stop - start + step - 1) / step
    else (start - stop - step - 1) / (- step) in
  map (fun k => start + Z.of_nat k * step) (seq 0 (Z.to_nat count)).

(** [np.linspace(start, stop, num)] with the default [endpoint=True]:
    [num] evenly spaced samples, the last one being [stop] itself.  The
    first sample is [start] itself in the code as well; the samples between
    them are exact here, and in the code the result of four rounded
    operations. *)
Definition linspace (start stop : Q) (num : Z) : result (list Q) :=
  if num <? 0 then Raise ValueError
  else match Z.to_nat num with
       | O => Ok []
       | S O => Ok [start]
       | S m =>
           let step := ((stop - start) / inject_Z (num - 1))%Q in
           Ok (map (fun i => (inject_Z (Z.of_nat i) * step + start)%Q) (seq 0 m)
               ++ [stop])
       end.

(** [np.repeat(a, repeats)] for a scalar [repeats]: every element is
    repeated [repeats] times; a negative total size is rejected. *)
Definition np_repeat {A : Type} (a : list A) (repeats : Z) : result (list A) :=
  if repeats * Z.of_nat (length a) <? 0 then Raise ValueError
  else Ok (flat_map (fun x => repeat x (Z.to_nat repeats)) a).

(** [np.flip] of a one-dimensional array. *)
Definition np_flip {A : Type} (a : list A) : list A := rev a.

(** [np.zeros(n)] *)
Definition np_zeros (n : nat) : list Q := repeat 0%Q n.

(** [np.ones(n)] *)
Definition np_ones (n : nat) : list Q := repeat 1%Q n.

(** Two-dimensional arrays are lists of rows.  [np.empty((rows, 0))] *)
Definition np_empty (rows : nat) : list (list Q) := repeat [] rows.

(** [np.size] of a two-dimensional array. *)
Definition np_size (a : list (list Q)) : nat :=
  fold_right (fun row n => (length row + n)%nat) 0%nat a.

(** [np.shape(a)[1]]: the number of columns. *)
Definition ncols (a : list (list Q)) : nat :=
  match a with
  | [] => 0%nat
  | row :: _ => length row
  end.

(** [np.append(a, b, 1)]: the columns of [b] are put after those of [a]. *)
Fixpoint np_append1 (a b : list (list Q)) : list (list Q) :=
  match a, b with
  | ra :: a', rb :: b' => (ra ++ rb) :: np_append1 a' b'
  | _, _ => []
  end.

(** [a[:, lo:hi]] *)
Definition slice_cols (a : list (list Q)) (lo hi : Z) : list (list Q) :=
  map (fun row => slice row lo hi) a.

(** [a[r, c]] *)
Definition index2 (a : list (list Q)) (r c : Z) : result Q :=
  bind (index a r) (fun row => index row c).



(** [np.unique]: the distinct values in ascending order. *)
Fixpoint insert_unique (x : Q) (l : list Q) : list Q :=
  match l with
  | [] => [x]
  | y :: t =>
      match (x ?= y)%Q with
      | Lt => x :: l
      | Eq => l
      | Gt => y :: insert_unique x t
      end
  end.

Definition np_unique (a : list Q) : list Q := fold_right insert_unique [] a.

End Py.

Declare Scope py_scope.
Notation "x <- c ;; k" := (Py.bind c (fun x => k))
  (at level 61, c at next level, right associativity) : py_scope.
Notation "c ;;; k" := (Py.bind c (fun _ => k))
  (at level 61, right associativity) : py_scope.
Local Open Scope py_scope.

(** ** utils.py *)

Module Utils.
Import Py.

(** [stepData]: the forward-and-back x waveform of one row and the y value
    of every row.  The repeat count handed to [np.repeat] is the float
    product [settle * data_rate]. *)
Definition stepData (lowervx uppervx : Q) (xsteps : Z)
                    (lowervy uppervy : Q) (ysteps : Z)
                    (settle data_rate : Q) : result (list Q * list Q) :=
  lin <- linspace lowervx uppervx xsteps ;;
  repeats <- as_intp (float_mul settle data_rate) ;;
  linx <- np_repeat lin repeats ;;
  let linx := linx ++ np_flip linx in
  liny <- linspace lowervy uppervy ysteps ;;
  Ok (linx, liny).

(** The repeat count of [stepData] before numpy looks at it:
    [int(settle * data_rate)]. *)
Definition repeat_count (settle data_rate : Q) : Z :=
  py_int (float_mul settle data_rate).


End Utils.


(** ** Instruments/NIpci6036E.py: the acquisition card *)

Module NIpci6036E.
Import Py.

(** Driver requests issued through nidaqmx. *)
Inductive daq_call : Type :=
| NewTask (name : string)
| AddAiVoltageChan (task chan : string)
| AddAoVoltageChan (task chan : string) (min_val max_val : Q)
| DontAllowRegeneration (task : string)
| CfgSampClkTiming (task : string) (freq : Q) (finite : bool) (samps_per_chan : Z)
| CfgDigEdgeStartTrig (task source : string)
| Commit (task : string)
| ConfigureLogging (task : string)
| WriteManySample (task : string) (samples : list (list Q))
| WriteSample (task : string) (sample : list Q)
| StartTask (task : string)
| IsTaskDone (task : string)
| ReadAllAvailable (task : string)
| CloseTask (task : string).

(** A task object: its name and the devices of the channels added to it. *)
Record task : Type := mkTask {
  task_name : string;
  devices : list string
}.

(** The driver decides, from the requests served so far, whether the next
    one succeeds; a refused request raises [DaqError]. *)
Definition driver : Type := list daq_call -> daq_call -> bool.

(** Computations that talk to the card: the served requests are threaded
    through, and kept when an exception is raised. *)
Definition Hw (A : Type) : Type := list daq_call -> list daq_call * result A.

Definition hret {A : Type} (a : A) : Hw A := fun tr => (tr, Ok a).

Definition hraise {A : Type} (e : exn) : Hw A := fun tr => (tr, Raise e).

Definition hbind {A B : Type} (c : Hw A) (k : A -> Hw B) : Hw B :=
  fun tr =>
    match c tr with
    | (tr', Ok a) => k a tr'
    | (tr', Raise e) => (tr', Raise e)
    end.

Definition lift {A : Type} (r : result A) : Hw A := fun tr => (tr, r).

Definition request (drv : driver) (c : daq_call) : Hw unit :=
  fun tr => if drv tr c then (tr ++ [c], Ok tt) else (tr, Raise DaqError).

(** Requests other than the start of a task. *)
Definition starts_no_task (c : daq_call) : Prop :=
  match c with
  | StartTask _ => False
  | _ => True
  end.

(** The served requests of a scan, as far as starting tasks goes: no task
    was started; or task [w] was started, after its start trigger had been
    set to [src], and no other; or task [w] was started in this way,
    task [r] right after it, and no other. *)
Inductive start_shape (w r src : string) : list daq_call -> Prop :=
| NoneStarted (tr : list daq_call) :
    Forall starts_no_task tr -> start_shape w r src tr
| FirstStarted (tr1 rest : list daq_call) :
    Forall starts_no_task tr1 -> Forall starts_no_task rest ->
    In (CfgDigEdgeStartTrig w src) tr1 ->
    start_shape w r src (tr1 ++ StartTask w :: rest)
| BothStarted (tr1 rest : list daq_call) :
    Forall starts_no_task tr1 -> Forall starts_no_task rest ->
    In (CfgDigEdgeStartTrig w src) tr1 ->
    start_shape w r src (tr1 ++ StartTask w :: StartTask r :: rest).

(** A computation that adds to the served requests, and starts no task. *)
Definition quiet {A : Type} (c : Hw A) : Prop :=
  forall tr, exists ext, fst (c tr) = tr ++ ext /\ Forall starts_no_task ext.


End NIpci6036E.

Declare Scope hw_scope.
Delimit Scope hw_scope with hw.
Notation "x <- c ;; k" := (NIpci6036E.hbind c (fun x => k))
  (at level 61, c at next level, right associativity) : hw_scope.
Notation "c ;;; k" := (NIpci6036E.hbind c (fun _ => k))
  (at level 61, right associativity) : hw_scope.

Module Daq.
Import Py NIpci6036E.
Local Open Scope hw_scope.

Section WithDriver.
Variable drv : driver.
Variable DEVname : string.

(** [for x in l: body(x)] *)
Fixpoint for_each {A : Type} (l : list A) (body : A -> Hw unit) : Hw unit :=
  match l with
  | [] => hret tt
  | x :: t => body x ;;; for_each t body
  end.

(** [make_read_task]: a new task with one analog input channel per entry
    of [channels].  The task object lists the device of its channels. *)
Definition make_read_task (name : string) (channels : list string) : Hw task :=
  request drv (NewTask name) ;;;
  for_each channels
    (fun channel => request drv (AddAiVoltageChan name (DEVname ++ "/" ++ channel))) ;;;
  hret (mkTask name (map (fun _ => DEVname) (firstn 1 channels))).

(** [make_write_task]: a new task with one analog output channel per entry
    of [channels], which refuses to regenerate old samples. *)
Definition make_write_task (name : string) (channels : list string)
                           (lowerV upperV : Q) : Hw task :=
  request drv (NewTask name) ;;;
  for_each channels
    (fun channel =>
       request drv (AddAoVoltageChan name (DEVname ++ "/" ++ channel) lowerV upperV)) ;;;
  request drv (DontAllowRegeneration name) ;;;
  hret (mkTask name (map (fun _ => DEVname) (firstn 1 channels))).

(** [set_continuous_hardware_clock] with its default buffer size. *)
Definition set_continuous_hardware_clock (t : task) (freq : Q) : Hw unit :=
  request drv (CfgSampClkTiming (task_name t) freq false 1000).

(** [set_finite_hardware_clock] *)
Definition set_finite_hardware_clock (t : task) (freq : Q) (samps_per_chan : Z)
  : Hw unit :=
  request drv (CfgSampClkTiming (task_name t) freq true samps_per_chan).

(** The start of [target_task] is tied to the start trigger of the analog
    input of the first device of [origin_task]. *)
Definition set_start_trigger (target_task origin_task : task) : Hw unit :=
  dev <- lift (index (devices origin_task) 0) ;;
  request drv (CfgDigEdgeStartTrig (task_name target_task)
                 ("/" ++ dev ++ "/ai/StartTrigger")).

(** [commit] *)
Definition commit (t : task) : Hw unit := request drv (Commit (task_name t)).

(** [set_log]; the file and group names are left out. *)
Definition set_log (t : task) : Hw unit :=
  request drv (ConfigureLogging (task_name t)).

(** [task.start()] *)
Definition start (t : task) : Hw unit := request drv (StartTask (task_name t)).

(** [with ... as task:] the task is closed when the block is left, also
    by an exception.  A body that answers [None] has not left the block
    yet. *)
Definition with_task {A : Type} (t : task) (body : Hw (option A))
  : Hw (option A) :=
  fun tr =>
    match body tr with
    | (tr1, Ok None) => (tr1, Ok None)
    | (tr1, r) =>
        let (tr2, rc) := request drv (CloseTask (task_name t)) tr1 in
        (tr2, match rc with
              | Raise e => Raise e
              | Ok _ => r
              end)
    end.

End WithDriver.
End Daq.

(** ** Modules/scanUI.py *)

Module Scan.
Import Py NIpci6036E.

(** The fields of [scanVars] used by the scan itself. *)
Record scanVars : Type := mkScanVars {
  lowervx : Q;
  uppervx : Q;
  lowervy : Q;
  uppervy : Q;
  xsteps : Z;
  ysteps : Z;
  settle : Q;
  data_rate : Q;
  log : bool;
  lowerV : Q;
  upperV : Q;
  linx : list Q;
  liny : list Q
}.


(** [scanVars.stepdata] *)
Definition stepdata (sv : scanVars) : result scanVars :=
  Py.bind
    (Utils.stepData (lowervx sv) (uppervx sv) (xsteps sv)
                    (lowervy sv) (uppervy sv) (ysteps sv)
                    (settle sv) (data_rate sv))
    (fun '(lx, ly) =>
       Ok (mkScanVars (lowervx sv) (uppervx sv) (lowervy sv) (uppervy sv)
                      (xsteps sv) (ysteps sv) (settle sv) (data_rate sv)
                      (log sv) (lowerV sv) (upperV sv) lx ly)).

(** The part of the [scanUI] object that the buffer operations touch:
    the measured channels, the buffer (one row per channel, one column per
    sample time) and the read task. *)
Record scanUI : Type := mkScanUI {
  meas_list : list string;
  data : list (list Q);
  read_task : option task   (* absent until the first scan is started *)
}.

(** [scanUI.dumpData(chunk)]: the new object and the returned value
    ([None] when the method falls off its end). *)
Definition dumpData (chunk : Z) (self : scanUI)
  : scanUI * option (list (list Q)) :=
  if chunk =? 0 then
    (mkScanUI (meas_list self) (np_empty (length (meas_list self)))
              (read_task self),
     None)
  else
    let temp := slice_cols (data self) 0 chunk in
    (mkScanUI (meas_list self)
              (slice_cols (data self) chunk (Z.of_nat (ncols (data self))))
              (read_task self),
     Some temp).

(** [dumpData()] with the default argument [chunk=0]. *)
Definition dumpData_default (self : scanUI) : scanUI * option (list (list Q)) :=
  dumpData 0 self.

(** [scanUI.__acquire_data], given what the read task delivers. *)
Definition acquire_data (samples : list (list Q)) (self : scanUI) : scanUI :=
  mkScanUI (meas_list self) (np_append1 (data self) samples) (read_task self).

(** *** ScanLineThread *)

(** [ScanLineThread.__generateInput] *)
Definition generateInput (xdata ydata : list Q) (i : Z) : result (list (list Q)) :=
  Py.bind (index ydata i)
    (fun y => Ok [map (fun one => (one * y)%Q) (np_ones (length xdata)); xdata]).

(** What the Qt event loop of the thread delivers while [exec()] runs. *)
Inductive loop_event : Type :=
| WriteTimeout                    (* write_timer fires *)
| WaitTimeout (task_done : bool)  (* wait_timer fires; the card's answer *)
| ExitRequest (code : Z).         (* line_scan.exit(code) from stopAll *)

(** Outcome of [run]: still inside the event loop when the delivered events
    end, or returned with the final value of [done]. *)
Inductive run_status : Type :=
| InEventLoop
| Returned (done : bool).

Section WithDriver.
Variable drv : driver.
Variable DEVname : string.
Local Open Scope hw_scope.

(** [ScanLineThread.__write] on line counter [i]; returns the new counter
    and whether [write_timer] is still active. *)
Definition write (sv : scanVars) (write_task : task) (i : Z) : Hw (Z * bool) :=
  if i =? Z.of_nat (length (liny sv)) then
    request drv (WriteSample (task_name write_task) [0%Q; 0%Q]) ;;;
    hret (i, false)
  else
    row <- lift (generateInput (linx sv) (liny sv) i) ;;
    request drv (WriteManySample (task_name write_task) row) ;;;
    hret (i + 1, true).

(** [self.exec()]: the events are served until [quit()] or [exit(code)];
    the exit code is returned.  An exception raised by a handler ends the
    loop and leaves [run] through its [with] block. *)
Fixpoint exec (sv : scanVars) (write_task : task) (events : list loop_event)
              (i : Z) (write_timer : bool) : Hw (option Z) :=
  match events with
  | [] => hret None
  | WriteTimeout :: rest =>
      if write_timer then
        st <- write sv write_task i ;;
        exec sv write_task rest (fst st) (snd st)
      else exec sv write_task rest i write_timer
  | WaitTimeout task_done :: rest =>
      request drv (IsTaskDone (task_name write_task)) ;;;
      if task_done then hret (Some 0)
      else exec sv write_task rest i write_timer
  | ExitRequest code :: _ => hret (Some code)
  end.

(** [self.win.read_task]: the window has no such task before its first
    scan. *)
Definition the_read_task (read : option task) : Hw task :=
  match read with
  | Some t => hret t
  | None => hraise AttributeError
  end.

(** The statements of [ScanLineThread.run] that prepare the write task
    before any task is started: its clock, its start trigger, and the first
    two lines of output. *)
Definition arm (sv : scanVars) (write_task : task) (read : option task)
  : Hw unit :=
  Daq.set_finite_hardware_clock drv write_task (data_rate sv)
    (Z.of_nat (length (linx sv)) * Z.of_nat (length (liny sv)) + 1) ;;;
  origin <- the_read_task read ;;
  Daq.set_start_trigger drv write_task origin ;;;
  first <- lift (generateInput (linx sv) (liny sv) 0) ;;
  second <- lift (generateInput (linx sv) (liny sv) 1) ;;
  request drv (WriteManySample (task_name write_task)
                 (np_append1 first second)).

(** [int(len(self.sv.linx) / self.sv.data_rate * 1000)], the interval in
    milliseconds that is handed to [write_timer.setInterval]; the division
    fails for a rate of zero.  The number itself is not used: when the
    timers fire is given by the events, and what Qt makes of an interval
    is outside the model. *)
Definition write_interval (sv : scanVars) : result Z :=
  if Qeq_bool (data_rate sv) 0 then Raise ZeroDivisionError
  else Ok (py_int (inject_Z (Z.of_nat (length (linx sv))) / data_rate sv
                   * 1000)%Q).

(** The body of [ScanLineThread.run] after the buffer has been emptied,
    for the read task [read] of the window. *)
Definition run_line (sv : scanVars) (write_list : list string)
                    (read : option task) (events : list loop_event)
  : Hw run_status :=
  write_task <- Daq.make_write_task drv DEVname "write" write_list
                  (lowerV sv) (upperV sv) ;;
  code <- Daq.with_task drv write_task
    (arm sv write_task read ;;;
     Daq.start drv write_task ;;;
     (t <- the_read_task read ;; Daq.start drv t) ;;;
     lift (write_interval sv) ;;;
     exec sv write_task events 2 true) ;;
  hret (match code with
        | None => InEventLoop
        | Some c => Returned (c =? 0)
        end).

(** [ScanLineThread.run]: the window, and the thread's requests to the card
    after those already [served]. *)
Definition run (sv : scanVars) (write_list : list string) (win : scanUI)
               (events : list loop_event) (served : list daq_call)
  : scanUI * (list daq_call * result run_status) :=
  let win := fst (dumpData_default win) in
  (win, run_line sv write_list (read_task win) events served).

(** [scanUI.__startLineScan] for an idle scan thread, followed by the thread
    it starts: the waveform is computed, the read task is made, kept in the
    window and configured but not started, and the thread runs. *)
Definition startLineScan (sv : scanVars) (write_list : list string)
                         (self : scanUI) (events : list loop_event)
  : scanUI * (list daq_call * result run_status) :=
  match stepdata sv with
  | Raise e => (self, ([], Raise e))
  | Ok sv =>
      match Daq.make_read_task drv DEVname "read" (meas_list self) [] with
      | (served, Raise e) => (self, (served, Raise e))
      | (served, Ok t) =>
          let self := mkScanUI (meas_list self) (data self) (Some t) in
          match (Daq.set_continuous_hardware_clock drv t (data_rate sv) ;;;
                 Daq.commit drv t ;;;
                 (if log sv then Daq.set_log drv t else hret tt)) served with
          | (served, Raise e) => (self, (served, Raise e))
          | (served, Ok _) => run sv write_list self events served
          end
      end
  end.

End WithDriver.
End Scan.

(** ** Instruments/ANC150.py: the piezo step controller *)

Module ANC150.
Import Py.

(** A step count: a number, or ['c'] for continuous stepping. *)
Inductive steps_arg : Type :=
| Count (n : Z)
| Continuous.

(** The commands sent over the serial line by [query]. *)
Inductive anc_cmd : Type :=
| Setm (axis : Z) (mode : string)
| Setv (axis voltage : Z)
| Setf (axis frequency : Z)
| Stop (axis : Z)
| Stepu (axis : Z) (steps : steps_arg)
| Stepd (axis : Z) (steps : steps_arg).

Definition check (b : bool) : result unit :=
  if b then Ok tt else Raise ValueError.

Definition is_axis (axis : Z) : result unit :=
  check ((1 <=? axis) && (axis <=? 3)).

Definition is_mode (mode : string) : result unit :=
  check (existsb (String.eqb mode) ["ext"; "stp"; "gnd"; "cap"]%string).

(** [str(step)] must be numeric (which excludes a sign) or ['c'], and must
    not be ['0']. *)
Definition is_step (steps : steps_arg) : result unit :=
  match steps with
  | Continuous => Ok tt
  | Count n => check (0 <? n)
  end.

Definition is_freq (freq : Z) : result unit :=
  check ((0 <=? freq) && (freq <=? 8000)).

Definition is_volt (volt : Z) : result unit :=
  check ((0 <=? volt) && (volt <=? 70)).

End ANC150.

(** ** Modules/approachUI.py *)

Declare Scope approach_scope.
Delimit Scope approach_scope with approach.

Module Approach.
Import Py NIpci6036E ANC150.

Record approachVars : Type := mkVars {
  threshold : list Q;
  stepcounts : list Z;
  approach_stages : Z;
  voltages : list Z;
  frequencies : list Z;
  rate : Q;
  consec_req : Z
}.

(** [approachVars.__init__] *)
Definition default_approachVars : approachVars :=
  mkVars [(-5 # 10000000)%Q; (-5 # 10000000)%Q] [1000; 200] 2
         [12; 12] [200; 50] 10 3.

(** The values shown by the widgets that [__snapshot] reads. *)
Record widgets : Type := mkWidgets {
  stagebox : bool;
  threshold1box : Q;
  threshold2box : Q;
  step1box : Z;
  step2box : Z;
  volt1box : Z;
  volt2box : Z;
  freq1box : Z;
  freq2box : Z;
  ratebox : Q;
  consecbox : Z
}.

(** Where the stage-changing thread is: not running, started but not yet
    scheduled, asleep inside [step_down_and_wait], asleep in the
    stabilisation [sleep(5)], or past [self.win.consec = 0] and about to
    resume stepping. *)
Inductive thread_pc : Type :=
| NotRunning
| Started
| BackingOff
| Stabilising
| Resuming.

(** Everything the approach does to the outside, in order. *)
Inductive effect : Type :=
| Anc (c : anc_cmd)
| SrWriteOffset (value : string)
| Daq (c : daq_call)
| TimerStart
| TimerStop
| ThreadStart
| ThreadTerminate
| Sleep (seconds : Q).

(** The attributes of [approachUI] and of its [ApproachThread], the
    frequency memory of the step controller, and the effects so far. *)
Record state : Type := mkState {
  av : approachVars;
  z : Z;
  daq_dev : string;                   (* DEVname of the daq object *)
  chan : list string;
  data : list (list Q);
  der_arr : list Q;
  consec : Z;
  stage : Z;
  steps : option Z;
  anc_freq : list (option Z);
  read_task : option (task * bool);   (* the task, and whether it is open *)
  timer_active : bool;
  start_enabled : bool;
  thread : thread_pc;
  doc : string;
  trace : list effect
}.

Definition set_av v s := mkState v (z s) (daq_dev s) (chan s) (data s) (der_arr s) (consec s) (stage s) (steps s) (anc_freq s) (read_task s) (timer_active s) (start_enabled s) (thread s) (doc s) (trace s).
Definition set_data v s := mkState (av s) (z s) (daq_dev s) (chan s) v (der_arr s) (consec s) (stage s) (steps s) (anc_freq s) (read_task s) (timer_active s) (start_enabled s) (thread s) (doc s) (trace s).
Definition set_der_arr v s := mkState (av s) (z s) (daq_dev s) (chan s) (data s) v (consec s) (stage s) (steps s) (anc_freq s) (read_task s) (timer_active s) (start_enabled s) (thread s) (doc s) (trace s).
Definition set_consec v s := mkState (av s) (z s) (daq_dev s) (chan s) (data s) (der_arr s) v (stage s) (steps s) (anc_freq s) (read_task s) (timer_active s) (start_enabled s) (thread s) (doc s) (trace s).
Definition set_stage v s := mkState (av s) (z s) (daq_dev s) (chan s) (data s) (der_arr s) (consec s) v (steps s) (anc_freq s) (read_task s) (timer_active s) (start_enabled s) (thread s) (doc s) (trace s).
Definition set_steps v s := mkState (av s) (z s) (daq_dev s) (chan s) (data s) (der_arr s) (consec s) (stage s) v (anc_freq s) (read_task s) (timer_active s) (start_enabled s) (thread s) (doc s) (trace s).
Definition set_anc_freq v s := mkState (av s) (z s) (daq_dev s) (chan s) (data s) (der_arr s) (consec s) (stage s) (steps s) v (read_task s) (timer_active s) (start_enabled s) (thread s) (doc s) (trace s).
Definition set_read_task v s := mkState (av s) (z s) (daq_dev s) (chan s) (data s) (der_arr s) (consec s) (stage s) (steps s) (anc_freq s) v (timer_active s) (start_enabled s) (thread s) (doc s) (trace s).
Definition set_timer_active v s := mkState (av s) (z s) (daq_dev s) (chan s) (data s) (der_arr s) (consec s) (stage s) (steps s) (anc_freq s) (read_task s) v (start_enabled s) (thread s) (doc s) (trace s).
Definition set_start_enabled v s := mkState (av s) (z s) (daq_dev s) (chan s) (data s) (der_arr s) (consec s) (stage s) (steps s) (anc_freq s) (read_task s) (timer_active s) v (thread s) (doc s) (trace s).
Definition set_thread v s := mkState (av s) (z s) (daq_dev s) (chan s) (data s) (der_arr s) (consec s) (stage s) (steps s) (anc_freq s) (read_task s) (timer_active s) (start_enabled s) v (doc s) (trace s).
Definition set_doc v s := mkState (av s) (z s) (daq_dev s) (chan s) (data s) (der_arr s) (consec s) (stage s) (steps s) (anc_freq s) (read_task s) (timer_active s) (start_enabled s) (thread s) v (trace s).
Definition set_trace v s := mkState (av s) (z s) (daq_dev s) (chan s) (data s) (der_arr s) (consec s) (stage s) (steps s) (anc_freq s) (read_task s) (timer_active s) (start_enabled s) (thread s) (doc s) v.

(** Methods: the object is threaded through, and keeps what was done to it
    when an exception is raised. *)
Definition M (A : Type) : Type := state -> state * result A.

Definition ret {A : Type} (a : A) : M A := fun s => (s, Ok a).

Definition raise {A : Type} (e : exn) : M A := fun s => (s, Raise e).

Definition mbind {A B : Type} (c : M A) (k : A -> M B) : M B :=
  fun s =>
    match c s with
    | (s', Ok a) => k a s'
    | (s', Raise e) => (s', Raise e)
    end.

Definition lift {A : Type} (r : result A) : M A := fun s => (s, r).

Definition gets {A : Type} (f : state -> A) : M A := fun s => (s, Ok (f s)).

Definition modify (f : state -> state) : M unit := fun s => (f s, Ok tt).

Definition emit (e : effect) : M unit :=
  modify (fun s => set_trace (trace s ++ [e]) s).

(** A request to the card made on behalf of the approach.  The card is
    taken to serve every such request. *)
Definition responsive : driver := fun _ _ => true.

Definition daq_do {A : Type} (c : Hw A) : M A :=
  fun s =>
    let (served, r) := c [] in
    (set_trace (trace s ++ map Daq served) s, r).

Notation "x <- c ;; k" := (mbind c (fun x => k))
  (at level 61, c at next level, right associativity) : approach_scope.
Notation "c ;;; k" := (mbind c (fun _ => k))
  (at level 61, right associativity) : approach_scope.
Local Open Scope approach_scope.

(** *** The step controller, as driven by the approach *)

Definition query (c : anc_cmd) : M unit := emit (Anc c).

Definition write_mode (axis : Z) (mode : string) : M unit :=
  lift (is_axis axis) ;;; lift (is_mode mode) ;;;
  query (Setm axis mode).

Definition write_volt (axis voltage : Z) : M unit :=
  lift (is_axis axis) ;;; lift (is_volt voltage) ;;;
  query (Setv axis voltage).

Definition write_freq (axis frequency : Z) : M unit :=
  lift (is_axis axis) ;;; lift (is_freq frequency) ;;;
  memo <- gets anc_freq ;;
  memo' <- lift (setitem memo (axis - 1) (Some frequency)) ;;
  modify (set_anc_freq memo') ;;;
  query (Setf axis frequency).

Definition stop_axis (axis : Z) : M unit :=
  lift (is_axis axis) ;;;
  query (Stop axis).

Definition step_up (axis : Z) (n : steps_arg) : M unit :=
  lift (is_axis axis) ;;; lift (is_step n) ;;;
  query (Stepu axis n).

Definition step_down (axis : Z) (n : steps_arg) : M unit :=
  lift (is_axis axis) ;;; lift (is_step n) ;;;
  query (Stepd axis n).

(** [step_down_and_wait] up to the moment it goes to sleep for
    [steps / freq] seconds; it returns when that sleep ends. *)
Definition step_down_and_wait (axis : Z) (n : steps_arg) : M unit :=
  lift (is_axis axis) ;;; lift (is_step n) ;;;
  match n with
  | Continuous => raise ValueError
  | Count k =>
      step_down axis n ;;;
      memo <- gets anc_freq ;;
      f <- lift (index memo (axis - 1)) ;;
      match f with
      | None => raise TypeError
      | Some f =>
          if f =? 0 then raise ZeroDivisionError
          else emit (Sleep (inject_Z k / inject_Z f))
      end
  end.

(** *** approachUI *)

(** [__dumpData] *)
Definition dumpData : M unit :=
  modify (set_data (np_empty 2)) ;;;
  modify (set_der_arr []).

(** [__snapshot] *)
Definition snapshot (w : widgets) : M unit :=
  modify (set_av
    (if stagebox w then
       mkVars [threshold1box w; threshold2box w] [step1box w; step2box w] 2
              [volt1box w; volt2box w] [freq1box w; freq2box w]
              (ratebox w) (consecbox w)
     else
       mkVars [threshold1box w] [step1box w] 1 [volt1box w] [freq1box w]
              (ratebox w) (consecbox w))).

(** [0.2 / self.av.rate] *)
Definition sample_period (r : Q) : result Q :=
  if Qeq_bool r 0 then Raise ZeroDivisionError else Ok ((2 # 10) / r)%Q.

(** The loop of [__acquireData] that fills in the derivatives inside one
    chunk, for [i] running over [range(-1, -n, -1)]. *)
Definition derivatives_within (data_n time_n der_arr_n : list Q)
  : result (list Q) :=
  fold_left
    (fun acc i =>
       Py.bind acc (fun der =>
       Py.bind (index data_n i) (fun a =>
       Py.bind (index data_n (i - 1)) (fun b =>
       Py.bind (index time_n i) (fun ta =>
       Py.bind (index time_n (i - 1)) (fun tb =>
       setitem der i ((a - b) / (ta - tb))%Q))))))
    (range (-1) (- Z.of_nat (length der_arr_n)) (-1))
    (Ok der_arr_n).

(** [__acquireData], given the samples [data_n] that the read task has
    available.  A task that has been closed cannot be read. *)
Definition acquireData (data_n : list Q) : M unit :=
  rt <- gets read_task ;;
  match rt with
  | None => raise AttributeError
  | Some t =>
      if snd t then emit (Daq (ReadAllAvailable (task_name (fst t))))
      else raise DaqError
  end ;;;
  let n := length data_n in
  let der_arr_n := np_zeros n in
  old <- gets data ;;
  r <- gets (fun s => rate (av s)) ;;
  td <- (if (np_size old =? 0)%nat then
           lin <- lift (linspace 0 (inject_Z (Z.of_nat n - 1)) (Z.of_nat n)) ;;
           dt <- lift (sample_period r) ;;
           ret (map (fun x => x * dt)%Q lin, der_arr_n)
         else
           lin <- lift (linspace 1 (inject_Z (Z.of_nat n)) (Z.of_nat n)) ;;
           dt <- lift (sample_period r) ;;
           last_t <- lift (index2 old 0 (-1)) ;;
           let time_n := map (fun x => x * dt + last_t)%Q lin in
           d0 <- lift (index data_n 0) ;;
           last_v <- lift (index2 old 1 (-1)) ;;
           t0 <- lift (index time_n 0) ;;
           last_t' <- lift (index2 old 0 (-1)) ;;
           der <- lift (setitem der_arr_n 0 ((d0 - last_v) / (t0 - last_t'))%Q) ;;
           ret (time_n, der)) ;;
  modify (set_data (np_append1 old [fst td; data_n])) ;;;
  der <- lift (derivatives_within data_n (fst td) (snd td)) ;;
  modify (fun s => set_der_arr (der_arr s ++ der) s).

(** [__updateApproachPlots]; the curves are not part of the state. *)
Definition updateApproachPlots (data_n : list Q) : M unit :=
  acquireData data_n.

(** *** ApproachThread *)

(** [QThread.start]: nothing happens if the thread is already running. *)
Definition thread_start : M unit :=
  pc <- gets thread ;;
  match pc with
  | NotRunning => emit ThreadStart ;;; modify (set_thread Started)
  | _ => ret tt
  end.

(** [QThread.terminate]; the thread is taken to have ended when the call
    returns. *)
Definition thread_terminate : M unit :=
  emit ThreadTerminate ;;; modify (set_thread NotRunning).

(** [NIpci6036E.close_task]: a task whose handle is gone is left alone. *)
Definition close_task (t : task * bool) : M unit :=
  if snd t then
    emit (Daq (CloseTask (task_name (fst t)))) ;;;
    modify (set_read_task (Some (fst t, false)))
  else ret tt.

(** [ApproachThread.endApproachStage] *)
Definition endApproachStage (end_all : bool) : M unit :=
  thread_terminate ;;;
  axis <- gets z ;;
  stop_axis axis ;;;
  st <- gets stage ;;
  stages <- gets (fun s => approach_stages (av s)) ;;
  if (st + 1 <? stages) && negb end_all then
    thread_start
  else
    emit TimerStop ;;; modify (set_timer_active false) ;;;
    rt <- gets read_task ;;
    match rt with
    | Some t => close_task t
    | None => ret tt
    end ;;;
    (if end_all then modify (set_doc "Approach stopped")
     else modify (set_doc "Approach complete")) ;;;
    modify (set_start_enabled true).

(** [ApproachThread.__nextStage] *)
Definition nextStage : M unit :=
  modify (fun s => set_stage (stage s + 1) s) ;;;
  axis <- gets z ;;
  st <- gets stage ;;
  v <- gets (fun s => index (voltages (av s)) st) ;;
  v <- lift v ;;
  write_volt axis v ;;;
  f <- gets (fun s => index (frequencies (av s)) st) ;;
  f <- lift f ;;
  write_freq axis f ;;;
  n <- gets (fun s => index (stepcounts (av s)) st) ;;
  n <- lift n ;;
  modify (set_steps (Some n)).

(** [ApproachThread.__writeSteps] *)
Definition writeSteps (n : steps_arg) : M unit :=
  axis <- gets z ;;
  match n with
  | Continuous => step_up axis n
  | Count k =>
      if 0 <? k then step_up axis n
      else if k <? 0 then step_down axis (Count (- k))
      else ret tt
  end.

Definition format_Z (n : Z) : string :=
  NilZero.string_of_int (Z.to_int n).

(** [ApproachThread.run] from the stabilisation sleep on. *)
Definition run_settle : M unit :=
  nextStage ;;;
  modify (set_doc "Stabilisation sleep...") ;;;
  emit (Sleep 5) ;;;
  modify (set_thread Stabilising).

(** [ApproachThread.run], cut where the main thread can get in between: at
    its two sleeps and after the assignment to [consec].  One call takes the
    thread from where it is to the next such point, or to the end of
    [run]. *)
Definition run_phase : M unit :=
  pc <- gets thread ;;
  match pc with
  | NotRunning => ret tt
  | Started =>
      st <- gets stage ;;
      modify (set_doc ("Changin to stage " ++ format_Z (st + 2))) ;;;
      if negb (st =? -1) then
        modify (set_doc "Backing off a bit...") ;;;
        axis <- gets z ;;
        n <- gets steps ;;
        match n with
        | None => raise AttributeError
        | Some n =>
            step_down_and_wait axis (Count n) ;;;
            modify (set_thread BackingOff)
        end
      else run_settle
  | BackingOff => run_settle
  | Stabilising =>
      modify (set_consec 0) ;;;
      modify (set_thread Resuming)
  | Resuming =>
      writeSteps Continuous ;;;
      st <- gets stage ;;
      modify (set_doc ("Approach stage " ++ format_Z (st + 1) ++ " in progress")) ;;;
      modify (set_thread NotRunning)
  end.

(** An exception that escapes [run] ends the thread. *)
Definition thread_step : M unit :=
  fun s =>
    match run_phase s with
    | (s', Raise e) => (set_thread NotRunning s', Raise e)
    | r => r
    end.

(** *** approachUI, continued *)

(** [__checkThreshold] *)
Definition checkThreshold : M unit :=
  der <- gets der_arr ;;
  d <- lift (index der (-1)) ;;
  st <- gets stage ;;
  thr <- gets (fun s => index (threshold (av s)) st) ;;
  thr <- lift thr ;;
  match (d ?= thr)%Q with
  | Lt =>
      modify (fun s => set_consec (consec s + 1) s) ;;;
      c <- gets consec ;;
      req <- gets (fun s => consec_req (av s)) ;;
      if c =? req then endApproachStage false else ret tt
  | _ => modify (set_consec 0)
  end.

(** [__dataLoop] *)
Definition dataLoop (data_n : list Q) : M unit :=
  updateApproachPlots data_n ;;;
  c <- gets consec ;;
  req <- gets (fun s => consec_req (av s)) ;;
  if negb (c =? req) then checkThreshold else ret tt.

(** [__startApproach] *)
Definition startApproach (w : widgets) : M unit :=
  modify (set_start_enabled false) ;;;
  modify (set_doc "Preaparing approach...") ;;;
  snapshot w ;;;
  axis <- gets z ;;
  write_mode axis "stp" ;;;
  emit (SrWriteOffset "1") ;;;
  dumpData ;;;
  modify (fun s => set_consec (consec_req (av s)) s) ;;;
  modify (set_stage (-1)) ;;;
  dev <- gets daq_dev ;;
  channels <- gets chan ;;
  t <- daq_do (Daq.make_read_task responsive dev "read" channels) ;;
  modify (set_read_task (Some (t, true))) ;;;
  r <- gets (fun s => rate (av s)) ;;
  daq_do (Daq.set_continuous_hardware_clock responsive t (5 * r)) ;;;
  daq_do (Daq.start responsive t) ;;;
  emit TimerStart ;;; modify (set_timer_active true) ;;;
  thread_start.

(** [approachUI.stopAll] *)
Definition stopAll : M unit :=
  axis <- gets z ;;
  write_mode axis "gnd" ;;;
  endApproachStage true.

(** *** The event loop *)

(** What can happen to a constructed [approachUI]: the data timer fires and
    the read task has [data_n] available, the stage thread runs on to its
    next stop, or one of the two buttons is released. *)
Inductive event : Type :=
| Tick (data_n : list Q)
| ThreadRuns
| StopButton
| StartButton (w : widgets).

(** A stopped timer does not fire and a disabled button cannot be
    released. *)
Definition handle (ev : event) : M unit :=
  match ev with
  | Tick data_n =>
      active <- gets timer_active ;;
      if active then dataLoop data_n else ret tt
  | ThreadRuns => thread_step
  | StopButton => endApproachStage true
  | StartButton w =>
      enabled <- gets start_enabled ;;
      if enabled then startApproach w else ret tt
  end.

(** The object after a sequence of events.  An exception raised by a
    handler is reported by Qt and the loop goes on with the object as the
    handler left it. *)
Definition deliver (s : state) (ev : event) : state := fst (handle ev s).

Definition run_events (evs : list event) (s : state) : state :=
  fold_left deliver evs s.

(** The object after [approachUI.__init__] for axis [axis], a card called
    [dev] and channel list [channels]; [consec] is assigned by [__startApproach] before it is ever
    read. *)
Definition init (axis : Z) (dev : string) (channels : list string) : state :=
  mkState default_approachVars axis dev channels (np_empty 2) [] 0 (-1) None
          [None; None; None] None false true NotRunning
          "No active approach." [].

(** [post c s Q]: the object and the outcome that method [c] leaves, when
    called on the object [s], satisfy [Q]. *)
Definition post {A : Type} (c : M A) (s : state)
                (Q : state -> result A -> Prop) : Prop :=
  Q (fst (c s)) (snd (c s)).

(** The sample store is well formed: a row of times and a row of values,
    with one derivative entry per sample. *)
Definition samples_ok (s : state) : Prop :=
  exists ts vs,
    data s = [ts; vs] /\
    length ts = length (der_arr s) /\ length vs = length (der_arr s).

(** The derivative entry of the first sample of the run, if there is one,
    is the [0] it was allocated with. *)
Definition first_derivative_zero (s : state) : Prop :=
  forall d rest, der_arr s = d :: rest -> d = 0%Q.

(** The thread is preparing a stage: started, backing off or waiting for
    the stage to stabilise. *)
Definition preparing (s : state) : Prop :=
  match thread s with
  | Started | BackingOff | Stabilising => True
  | NotRunning | Resuming => False
  end.

(** What an acquisition may change between [s] and [s']: the samples, the
    derivatives, and the trace, by requests to read. *)
Definition acquired (s s' : state) : Prop :=
  av s' = av s /\ z s' = z s /\ consec s' = consec s /\ stage s' = stage s /\
  thread s' = thread s /\ timer_active s' = timer_active s /\
  start_enabled s' = start_enabled s /\ read_task s' = read_task s /\
  doc s' = doc s /\
  exists reads,
    trace s' = trace s ++ reads /\
    forall e, In e reads -> exists t, e = Daq (ReadAllAvailable t).

(** What a method that acquires nothing leaves alone. *)
Definition kept (s s' : state) : Prop :=
  av s' = av s /\ z s' = z s /\ data s' = data s /\ der_arr s' = der_arr s.

(** The threshold check is gated off while a stage is being prepared, and
    the start button is only enabled while nothing runs. *)
Definition gated (s : state) : Prop :=
  (preparing s -> consec s = consec_req (av s)) /\
  (start_enabled s = true -> thread s = NotRunning /\ timer_active s = false).

(** The approach has been stopped: the data timer is off, the stage thread
    is gone and the read task, if there is one, is closed. *)
Definition stopped (s : state) : Prop :=
  timer_active s = false /\ thread s = NotRunning /\
  forall t o, read_task s = Some (t, o) -> o = false.

(** The effects of stopping the axis once more. *)
Definition stop_effect (axis : Z) (e : effect) : Prop :=
  e = ThreadTerminate \/ e = Anc (Stop axis) \/ e = TimerStop.

(** The effects that took the object from [s] to [s']. *)
Definition effects_since (s s' : state) : list effect :=
  skipn (length (trace s)) (trace s').

End Approach.

(** ** Sample objects *)

Module Samples.
Import Scan.

(** A scan of two lines of two steps, one sample per step. *)
Definition small_scan : scanVars :=
  mkScanVars 0 1 0 1 2 2 1 1 false 0 7 [] [].

(** A window on two channels that has never scanned. *)
Definition fresh_window : scanUI :=
  mkScanUI ["ai0"; "ai1"]%string (Py.np_empty 2) None.

(** A window whose buffer holds two samples of each channel. *)
Definition two_column_window : scanUI :=
  mkScanUI ["ai0"; "ai1"]%string [[1; 2]; [3; 4]]%Q None.

(** An approach in two stages with thresholds of -0.5 and three hits
    required, sampled at 10 Hz. *)
Definition two_stage_widgets : Approach.widgets :=
  Approach.mkWidgets true (-1 # 2) (-1 # 2) 1000 200 12 12 200 50 10 3.

(** The approach object on axis 3, once stage 1 is under way: the start
    button was released and the stage thread ran to its end. *)
Definition stage1_running : Approach.state :=
  Approach.run_events
    [Approach.StartButton two_stage_widgets; Approach.ThreadRuns;
     Approach.ThreadRuns; Approach.ThreadRuns]
    (Approach.init 3 "Dev1" ["ai0"%string]).

End Samples.

(** ** The specification's wording

    Definitions that follow the words of the specification rather than the
    sources, to be compared with the code. *)

Module SpecWords.

(** [round(x)]: the nearest integer, a tie going to the even one. *)
Definition round_half_even (x : Q) : Z :=
  let f := Qfloor x in
  match (x - inject_Z f ?= 1 # 2)%Q with
  | Lt => f
  | Gt => f + 1
  | Eq => if Z.even f then f else f + 1
  end.

(** The consecutive-hit counter as the specification words it: one update
    per derivative sample, up by one on a sample below the threshold and
    back to zero on any other. *)
Definition counter_per_sample (thr : Q) (c : Z) (ders : list Q) : Z :=
  fold_left
    (fun c d => match (d ?= thr)%Q with Lt => c + 1 | _ => 0 end)
    ders c.

End SpecWords.

(** ** What a line scan sends to the card *)

Module ScanTrace.
Import Py NIpci6036E Scan.

(** A computation that adds to the served requests, and only requests that
    satisfy [P]. *)
Definition emits_only (P : daq_call -> Prop) {A : Type} (c : Hw A) : Prop :=
  forall tr, exists ext, fst (c tr) = tr ++ ext /\ Forall P ext.

(** [v] lies between [a] and [b], whichever is the larger. *)
Definition between (a b v : Q) : Prop := (Qmin a b <= v <= Qmax a b)%Q.

(** The output samples of a request lie in the region of [sv]: the first
    row, for the y scanner, between the y bounds and the second row, for the
    x scanner, between the x bounds; a single sample is the final pair of
    zeros. *)
Definition in_region (sv : scanVars) (c : daq_call) : Prop :=
  match c with
  | WriteManySample _ rows =>
      exists ys xs,
        rows = [ys; xs] /\
        Forall (between (lowervy sv) (uppervy sv)) ys /\
        Forall (between (lowervx sv) (uppervx sv)) xs
  | WriteSample _ sample => sample = [0; 0]%Q
  | _ => True
  end.

(** The waveform of [sv] lies in the region of [sv]. *)
Definition planned (sv : scanVars) : Prop :=
  Forall (between (lowervx sv) (uppervx sv)) (linx sv) /\
  Forall (between (lowervy sv) (uppervy sv)) (liny sv).

(** Requests that write output samples. *)
Definition is_write (c : daq_call) : bool :=
  match c with
  | WriteManySample _ _ | WriteSample _ _ => true
  | _ => false
  end.




(** A computation whose writes are the first few of [plan]. *)
Definition writes_within (plan : list daq_call) {A : Type} (c : Hw A) : Prop :=
  forall tr, exists ext n,
    fst (c tr) = tr ++ ext /\ filter is_write ext = firstn n plan.

End ScanTrace.

(** ** Modules/scanUI.py: the plots of a running scan *)

Module ScanPlots.
Import Py NIpci6036E Scan.

(** A float that may be [nan]. *)
Inductive fl : Type :=
| Num (q : Q)
| NaN.

(** [np.sum] of a one-dimensional array. *)
Definition np_sum (a : list Q) : Q := fold_right Qplus 0%Q a.

(** [a.mean()]: the mean of no element is [nan] (with a warning, not an
    exception).  The mean of some elements is a number; it is the exact
    one here, from which the float of the code can differ in its last
    bits. *)
Definition np_mean (a : list Q) : fl :=
  match a with
  | [] => NaN
  | _ => Num (np_sum a / inject_Z (Z.of_nat (length a)))
  end.

(** [row[mask]] for a boolean array [mask]: the entries of [row] where
    [mask] holds; the two must have the same length. *)
Definition select (row : list Q) (mask : list bool) : result (list Q) :=
  if (length row =? length mask)%nat
  then Ok (map fst (filter snd (combine row mask)))
  else Raise IndexError.

(** [data[0]], for what [dumpData] returned. *)
Definition first_row (data : option (list (list Q))) : result (list Q) :=
  match data with
  | None => Raise TypeError
  | Some rows => index rows 0
  end.

(** The loop of [__average]: one mean per target voltage. *)
Fixpoint average_each (linx : list Q) (data : option (list (list Q)))
                      (voltages : list Q) : result (list fl) :=
  match voltages with
  | [] => Ok []
  | v :: rest =>
      row <- first_row data ;;
      sel <- select row (map (fun x => Qeq_bool x v) linx) ;;
      others <- average_each linx data rest ;;
      Ok (np_mean sel :: others)
  end.

(** [scanUI.__average]: the target voltages and, for each, the mean of the
    samples taken while it was the target. *)
Definition average (linx : list Q) (data : option (list (list Q)))
  : result (list Q * list fl) :=
  let voltages := np_unique linx in
  averages <- average_each linx data voltages ;;
  Ok (voltages, averages).

(** The smaller and the larger of two floats, as [np.min] and [np.max]
    combine them: [nan] wins. *)
Definition fl_min (a b : fl) : fl :=
  match a, b with
  | Num x, Num y => Num (Qmin x y)
  | _, _ => NaN
  end.

Definition fl_max (a b : fl) : fl :=
  match a, b with
  | Num x, Num y => Num (Qmax x y)
  | _, _ => NaN
  end.

(** [np.min] and [np.max] of a two-dimensional array; an array without
    entries is rejected. *)
Definition surface_min (a : list (list fl)) : result fl :=
  match concat a with
  | [] => Raise ValueError
  | x :: t => Ok (fold_left fl_min t x)
  end.

Definition surface_max (a : list (list fl)) : result fl :=
  match concat a with
  | [] => Raise ValueError
  | x :: t => Ok (fold_left fl_max t x)
  end.

(** [a.size] *)
Definition surface_size (a : list (list fl)) : nat := length (concat a).

(** [np.atleast_2d(averages).T]: one column. *)
Definition column (averages : list fl) : list (list fl) :=
  map (fun a => [a]) averages.

(** [np.append(a, b, 1)] with numpy's check that both have the same number
    of rows. *)
Definition append_columns (a b : list (list fl)) : result (list (list fl)) :=
  if (length a =? length b)%nat
  then Ok (map (fun rows => fst rows ++ snd rows) (combine a b))
  else Raise ValueError.

(** The attributes of [scanUI] that the plots of a running scan use: the
    window with its buffer, the line counter [i], the text of [doc], the
    heatmap [surface], the levels of its colour bar and what the two curves
    were last given. *)
Record view : Type := mkView {
  win : scanUI;
  line : Z;
  doc : string;
  surface : list (list fl);
  levels : option (fl * fl);
  curve1 : list Q * list Q;
  curve2 : list Q * list Q
}.

(** The placeholder [np.zeros((1,1))] that [__startLineScan] puts in
    [surface]. *)
Definition blank_surface : list (list fl) := [[Num 0]].

(** [ImageItem.setImage] followed by [colorbar.setLevels]; the image itself
    is not modelled. *)
Definition show_surface (s : list (list fl)) (self : view) : view * result unit :=
  let self := mkView (win self) (line self) (doc self) s (levels self)
                     (curve1 self) (curve2 self) in
  match surface_min s with
  | Raise e => (self, Raise e)
  | Ok lo =>
      match surface_max s with
      | Raise e => (self, Raise e)
      | Ok hi =>
          (mkView (win self) (line self) (doc self) s (Some (lo, hi))
                  (curve1 self) (curve2 self), Ok tt)
      end
  end.

(** [scanUI.__updateHeatmap] *)
Definition updateHeatmap (sv : scanVars) (make_heatmap : bool) (self : view)
  : view * result unit :=
  let (w, chunk) := dumpData (Z.of_nat (length (linx sv))) (win self) in
  let i := line self + 1 in
  let self := mkView w i
                ("Scanning " ++ Approach.format_Z i ++ "/"
                 ++ Approach.format_Z (Z.of_nat (length (liny sv))) ++ "...")
                (surface self) (levels self) (curve1 self) (curve2 self) in
  if make_heatmap then
    match average (linx sv) chunk with
    | Raise e => (self, Raise e)
    | Ok (_, averages) =>
        if (surface_size (surface self) =? 1)%nat then
          show_surface (column averages) self
        else
          match append_columns (surface self) (column averages) with
          | Raise e => (self, Raise e)
          | Ok s => show_surface s self
          end
    end
  else (self, Ok tt).

(** [scanUI.__acquire_data], given what the read task of two or more
    channels has available: one row of samples per channel.  [np.vstack]
    wants at least one row and rows of one length, and [np.append] as many
    rows as the buffer has. *)
Definition acquire (samples : list (list Q)) (self : view) : view * result unit :=
  match read_task (win self) with
  | None => (self, Raise AttributeError)
  | Some _ =>
      match samples with
      | [] => (self, Raise ValueError)
      | first :: _ =>
          if forallb (fun row => (length row =? length first)%nat) samples then
            if (length (data (win self)) =? length samples)%nat then
              (mkView (acquire_data samples (win self)) (line self) (doc self)
                      (surface self) (levels self) (curve1 self) (curve2 self),
               Ok tt)
            else (self, Raise ValueError)
          else (self, Raise ValueError)
      end
  end.

(** The end of [update_scan_plots]: the forward and the backward curve.
    The arrays are recorded as they are handed to [setData]; what the plot
    makes of them is outside the model. *)
Definition draw_curves (sv : scanVars) (self : view) : view * result unit :=
  let hlinxlen := Z.of_nat (length (linx sv)) / 2 in
  let n := Z.of_nat (ncols (data (win self))) in
  match index (data (win self)) 0 with
  | Raise e => (self, Raise e)
  | Ok row =>
      let len0 := Z.of_nat (length row) in
      if n <? hlinxlen then
        (mkView (win self) (line self) (doc self) (surface self) (levels self)
                (slice (linx sv) 0 len0, row) ([], []), Ok tt)
      else
        (mkView (win self) (line self) (doc self) (surface self) (levels self)
                (slice (linx sv) 0 hlinxlen, slice row 0 hlinxlen)
                (slice (linx sv) hlinxlen len0, slice row hlinxlen len0), Ok tt)
  end.

(** [scanUI.update_scan_plots], fired by the graph timer *)
Definition update_scan_plots (sv : scanVars) (make_heatmap : bool)
                             (samples : list (list Q)) (self : view)
  : view * result unit :=
  match acquire samples self with
  | (self, Raise e) => (self, Raise e)
  | (self, Ok _) =>
      let after :=
        if (length (linx sv) <? ncols (data (win self)))%nat
        then updateHeatmap sv make_heatmap self
        else (self, Ok tt) in
      match after with
      | (self, Raise e) => (self, Raise e)
      | (self, Ok _) => draw_curves sv self
      end
  end.

End ScanPlots.

(** ** What the approach sends and reads *)

Module ApproachTrace.
Import Py NIpci6036E ANC150 Approach.

(** The commands that an approach on axis [axis] sends to the step
    controller: step mode, a voltage of 0 to 70 V, a frequency of 0 to
    8000 Hz, a stop, continuous steps up and a counted number of steps down,
    all of them for [axis], which is one of the three axes. *)
Definition approach_effect (axis : Z) (e : effect) : Prop :=
  match e with
  | Anc c =>
      1 <= axis <= 3 /\
      match c with
      | Setm a m => a = axis /\ m = "stp"%string
      | Setv a v => a = axis /\ 0 <= v <= 70
      | Setf a f => a = axis /\ 0 <= f <= 8000
      | Stop a => a = axis
      | Stepu a n => a = axis /\ n = Continuous
      | Stepd a n => a = axis /\ exists k, n = Count k /\ 0 < k
      end
  | _ => True
  end.

(** While the data timer runs there is a read task, and it is open. *)
Definition reading_ok (s : state) : Prop :=
  timer_active s = true -> exists t, read_task s = Some (t, true).

(** From [s] to [s'] only effects that satisfy [P] were added. *)
Definition sends (P : effect -> Prop) (s s' : state) : Prop :=
  exists ext, trace s' = trace s ++ ext /\ Forall P ext.

End ApproachTrace.

(** ** Modules/stepUI.py: single steps and the live strain plot *)

Module StepUI.
Import Py NIpci6036E ANC150 Approach.
Local Open Scope approach_scope.

(** [for x in l: body(x)] for methods. *)
Fixpoint for_each {A : Type} (l : list A) (body : A -> M unit) : M unit :=
  match l with
  | [] => ret tt
  | x :: t => body x ;;; for_each t body
  end.

(** [ANC150.stop_axes] *)
Definition stop_axes : M unit := for_each (range 1 4 1) stop_axis.

(** [StepManager.step]: the settings are written, then the steps are made
    in the direction of their sign. *)
Definition step (axes : list Z) (axis steps volt freq : Z) : M unit :=
  a <- lift (index axes axis) ;;
  write_mode a "stp" ;;;
  a <- lift (index axes axis) ;;
  write_volt a volt ;;;
  a <- lift (index axes axis) ;;
  write_freq a freq ;;;
  if 0 <? steps then
    a <- lift (index axes axis) ;;
    step_up a (Count steps)
  else if steps <? 0 then
    a <- lift (index axes axis) ;;
    step_down a (Count (- steps))
  else ret tt.

(** [StepManager.stopAll] *)
Definition stopAll (axes : list Z) : M unit :=
  stop_axes ;;;
  for_each axes (fun i => write_mode i "gnd").

(** The loop of [stepUI.__acquireData] that forgets old samples: while the
    buffer holds more than [bound] samples, it is cut to its last [bound].
    [None] when [fuel] rounds of the loop do not end it. *)
Fixpoint forget (fuel : nat) (bound : Z) (data : list Q) : option (list Q) :=
  match fuel with
  | O => None
  | S fuel' =>
      let len := Z.of_nat (length data) in
      if bound <? len then forget fuel' bound (slice data (len - bound) len)
      else Some data
  end.

(** [stepUI.__acquireData], given the samples [data_n] that the read task
    has available; [np.append] without an axis flattens the buffer. *)
Definition acquireData (fuel : nat) (memory rate : Z) (data_n data : list Q)
  : option (list Q) :=
  forget fuel (memory * (10 * rate)) (data ++ data_n).

End StepUI.

(** ** Modules/TDMSplotUI.py and the group names of scanUI.py *)

Module TDMS.
Import Py.
Local Open Scope string_scope.

(** [s.split(sep)] for a separator of one character: the pieces between
    the occurrences of [sep], empty ones included. *)
Fixpoint split (sep : Ascii.ascii) (s : string) : list string :=
  match s with
  | EmptyString => [EmptyString]
  | String c rest =>
      if Ascii.eqb c sep then EmptyString :: split sep rest
      else match split sep rest with
           | [] => [String c EmptyString]
           | piece :: pieces => String c piece :: pieces
           end
  end.

(** [s[2:]] *)
Definition drop2 (s : string) : string :=
  match s with
  | String _ (String _ rest) => rest
  | _ => EmptyString
  end.

(** The numbers of a scan as [format] writes them into a group name, and
    as the analysis hands them to [float] and [int]. *)
Record texts : Type := mkTexts {
  t_lowervx : string;
  t_uppervx : string;
  t_xsteps : string;
  t_lowervy : string;
  t_uppervy : string;
  t_ysteps : string;
  t_settle : string
}.

(** [scanVars.createGroupName], for the texts of its seven numbers. *)
Definition createGroupName (t : texts) (groupname : string) : string :=
  "vx" ++ t_lowervx t ++ "-" ++ t_uppervx t ++ "-" ++ t_xsteps t
  ++ "_vy" ++ t_lowervy t ++ "-" ++ t_uppervy t ++ "-" ++ t_ysteps t
  ++ "_settle-" ++ t_settle t ++ "_" ++ groupname.

(** The statements of [MakeCSVThread.run] and [HeatmappifyThread.run] that
    take a group name apart, up to the calls of [float] and [int]: the
    seven texts that are handed to them when each of them is accepted.
    [read_measurement] below has the conversions in their places. *)
Definition read_group_name (name : string) : result texts :=
  let splitted := split "_"%char name in
  p0 <- index splitted 0 ;;
  lx <- index (split "-"%char p0) 0 ;;
  p0 <- index splitted 0 ;;
  ux <- index (split "-"%char p0) 1 ;;
  p0 <- index splitted 0 ;;
  xs <- index (split "-"%char p0) 2 ;;
  p1 <- index splitted 1 ;;
  ly <- index (split "-"%char p1) 0 ;;
  p1 <- index splitted 1 ;;
  uy <- index (split "-"%char p1) 1 ;;
  p1 <- index splitted 1 ;;
  ys <- index (split "-"%char p1) 2 ;;
  p2 <- index splitted 2 ;;
  st <- index (split "-"%char p2) 1 ;;
  Ok (mkTexts (drop2 lx) ux xs (drop2 ly) uy ys st).

(** The seven numbers of a scan as the analysis reads them. *)
Record numbers : Type := mkNumbers {
  n_lowervx : Q;
  n_uppervx : Q;
  n_xsteps : Z;
  n_lowervy : Q;
  n_uppervy : Q;
  n_ysteps : Z;
  n_settle : Q
}.

Section Conversions.

(** What [float(text)] and [int(text)] return or raise. *)
Variable to_float : string -> result Q.
Variable to_int : string -> result Z.

(** The same statements of [MakeCSVThread.run] and [HeatmappifyThread.run]
    with their conversions, in the order of the code: each text is handed
    to [float] or [int] as soon as it is taken out of the name, and the
    first text that is refused ends the analysis. *)
Definition read_measurement (name : string) : result numbers :=
  let splitted := split "_"%char name in
  p0 <- index splitted 0 ;;
  t <- index (split "-"%char p0) 0 ;;
  lowervx <- to_float (drop2 t) ;;
  p0 <- index splitted 0 ;;
  t <- index (split "-"%char p0) 1 ;;
  uppervx <- to_float t ;;
  p0 <- index splitted 0 ;;
  t <- index (split "-"%char p0) 2 ;;
  xsteps <- to_int t ;;
  p1 <- index splitted 1 ;;
  t <- index (split "-"%char p1) 0 ;;
  lowervy <- to_float (drop2 t) ;;
  p1 <- index splitted 1 ;;
  t <- index (split "-"%char p1) 1 ;;
  uppervy <- to_float t ;;
  p1 <- index splitted 1 ;;
  t <- index (split "-"%char p1) 2 ;;
  ysteps <- to_int t ;;
  p2 <- index splitted 2 ;;
  t <- index (split "-"%char p2) 1 ;;
  settle <- to_float t ;;
  Ok (mkNumbers lowervx uppervx xsteps lowervy uppervy ysteps settle).

End Conversions.

(** The character [c] does not occur in [s]. *)
Fixpoint lacks (c : Ascii.ascii) (s : string) : Prop :=
  match s with
  | EmptyString => True
  | String d rest => Ascii.eqb d c = false /\ lacks c rest
  end.

(** The texts are free of the two separators of a group name. *)
Definition plain (t : texts) : Prop :=
  (lacks "-" (t_lowervx t) /\ lacks "_" (t_lowervx t)) /\
  (lacks "-" (t_uppervx t) /\ lacks "_" (t_uppervx t)) /\
  (lacks "-" (t_xsteps t) /\ lacks "_" (t_xsteps t)) /\
  (lacks "-" (t_lowervy t) /\ lacks "_" (t_lowervy t)) /\
  (lacks "-" (t_uppervy t) /\ lacks "_" (t_uppervy t)) /\
  (lacks "-" (t_ysteps t) /\ lacks "_" (t_ysteps t)) /\
  (lacks "-" (t_settle t) /\ lacks "_" (t_settle t)).

(** [HeatmappifyThread.__timedelta64_to_str] for a span of [t] whole
    seconds: the days, hours, minutes and seconds that it prints.  A
    conversion to a coarser unit rounds down. *)
Definition timedelta64_parts (t : Z) : Z * Z * Z * Z :=
  let d := t / 86400 in
  let h := t / 3600 - 24 * d in
  let m := t / 60 - 60 * (24 * d + h) in
  let s := t - 60 * (60 * (24 * d + h) + m) in
  (d, h, m, s).

Definition timedelta64_to_str (t : Z) : string :=
  let '(d, h, m, s) := timedelta64_parts t in
  Approach.format_Z d ++ "T" ++ Approach.format_Z h ++ ":"
  ++ Approach.format_Z m ++ ":" ++ Approach.format_Z s.

End TDMS.

(** * Properties *)

(** ** Python and numpy primitives *)

Section PrimitiveFacts.
Import Py.

Lemma py_int_nonneg (x : Q) : (0 <= x)%Q -> 0 <= py_int x.
Proof.
  destruct x as [n d]; unfold Qle, py_int; simpl; intros H.
  apply Z.quot_pos; lia.
Qed.

Lemma py_int_ge_1 (x : Q) : (1 <= x)%Q -> 1 <= py_int x.
Proof.
  destruct x as [n d]; unfold Qle, py_int; simpl; intros H.
  apply Z.quot_le_lower_bound; lia.
Qed.

(** *** Floats and counts *)

Lemma nearest_even_nonneg (n d : Z) : 0 <= n -> 0 < d -> 0 <= nearest_even n d.
Proof.
  intros Hn Hd. unfold nearest_even.
  pose proof (Z.div_pos n d Hn Hd) as Hq.
  destruct (2 * (n mod d) ?= d); [destruct (Z.even (n / d))| |]; lia.
Qed.

(** Rounding keeps the sign. *)
Lemma float_round_nonneg (x : Q) : (0 <= x)%Q -> (0 <= float_round x)%Q.
Proof.
  intros Hx. unfold float_round.
  destruct (Z.abs (Qnum x) =? 0) eqn:Hz; [apply Qle_refl|].
  apply Z.eqb_neq in Hz.
  assert (Hn : 0 < Qnum x).
  { unfold Qle in Hx. cbn in Hx. lia. }
  rewrite Qred_correct.
  set (e := Z.max (floor_log2 (Z.abs (Qnum x)) (Z.pos (Qden x)) - 52) (-1074)).
  rewrite (Z.sgn_pos _ Hn), Z.abs_eq by lia.
  destruct (0 <=? e) eqn:He.
  - apply Z.leb_le in He.
    assert (Hm : 0 <= nearest_even (Qnum x) (Z.pos (Qden x) * 2 ^ e)).
    { apply nearest_even_nonneg; [lia|].
      apply Z.mul_pos_pos; [lia|]. apply Z.pow_pos_nonneg; lia. }
    assert (0 <= 2 ^ e) by (apply Z.pow_nonneg; lia).
    unfold Qle, inject_Z. cbn [Qnum Qden]. nia.
  - assert (Hm : 0 <= nearest_even (Qnum x * 2 ^ (- e)) (Z.pos (Qden x))).
    { apply nearest_even_nonneg; [|lia].
      apply Z.mul_nonneg_nonneg; [lia|]. apply Z.pow_nonneg; lia. }
    unfold Qle. cbn [Qnum Qden]. lia.
Qed.

Lemma float_mul_nonneg (a b : Q) :
  (0 <= a)%Q -> (0 <= b)%Q -> 0 <= py_int (float_mul a b).
Proof.
  intros Ha Hb. apply py_int_nonneg, float_round_nonneg.
  apply Qmult_le_0_compat; apply float_round_nonneg; assumption.
Qed.

Lemma as_intp_returns (x : Q) :
  - 2 ^ 63 <= py_int x < 2 ^ 63 -> as_intp x = Ok (py_int x).
Proof.
  intros H. unfold as_intp.
  destruct (py_int x <? - 2 ^ 63) eqn:H1; [apply Z.ltb_lt in H1; lia|].
  destruct (2 ^ 63 <=? py_int x) eqn:H2; [apply Z.leb_le in H2; lia|].
  reflexivity.
Qed.

Lemma as_intp_value (x : Q) (n : Z) :
  as_intp x = Ok n -> n = py_int x /\ - 2 ^ 63 <= n < 2 ^ 63.
Proof.
  unfold as_intp.
  destruct (py_int x <? - 2 ^ 63) eqn:H1; [discriminate|].
  destruct (2 ^ 63 <=? py_int x) eqn:H2; [discriminate|].
  apply Z.ltb_ge in H1. apply Z.leb_gt in H2. intros [= <-]. lia.
Qed.


(** The three shapes of a [linspace] result. *)
Lemma linspace_cases (a b : Q) (num : Z) (l : list Q) :
  linspace a b num = Ok l ->
  (num = 0 /\ l = []) \/
  (num = 1 /\ l = [a]) \/
  (2 <= num /\
   l = map (fun i => (inject_Z (Z.of_nat i) * ((b - a) / inject_Z (num - 1)) + a)%Q)
           (seq 0 (Z.to_nat (num - 1))) ++ [b]).
Proof.
  unfold linspace. destruct (num <? 0) eqn:Hneg; [discriminate|].
  apply Z.ltb_ge in Hneg.
  destruct (Z.to_nat num) as [|[|m]] eqn:Hn; intros H.
  - left. split; [lia|congruence].
  - right; left. split; [lia|congruence].
  - right; right. split; [lia|].
    replace (Z.to_nat (num - 1)) with (S m) by lia.
    injection H as <-. reflexivity.
Qed.

Lemma linspace_length (a b : Q) (num : Z) (l : list Q) :
  linspace a b num = Ok l -> Z.of_nat (length l) = num.
Proof.
  intros H. destruct (linspace_cases _ _ _ _ H) as [[-> ->]|[[-> ->]|[Hn ->]]];
    [reflexivity|reflexivity|].
  rewrite length_app, length_map, length_seq. simpl. lia.
Qed.

Lemma linspace_returns (a b : Q) (num : Z) :
  0 <= num -> exists l, linspace a b num = Ok l.
Proof.
  intros H. unfold linspace.
  destruct (num <? 0) eqn:Hneg; [apply Z.ltb_lt in Hneg; lia|].
  destruct (Z.to_nat num) as [|[|m]]; eauto.
Qed.


Lemma np_repeat_returns {A : Type} (a : list A) (k : Z) :
  0 <= k -> np_repeat a k = Ok (flat_map (fun x => repeat x (Z.to_nat k)) a).
Proof.
  intros H. unfold np_repeat.
  destruct (k * Z.of_nat (length a) <? 0) eqn:Hneg; [|reflexivity].
  apply Z.ltb_lt in Hneg. nia.
Qed.

Lemma np_repeat_value {A : Type} (a r : list A) (k : Z) :
  np_repeat a k = Ok r -> r = flat_map (fun x => repeat x (Z.to_nat k)) a.
Proof.
  unfold np_repeat. destruct (_ <? 0); [discriminate|]. now intros [= <-].
Qed.


Lemma length_repeat_each {A : Type} (a : list A) (k : nat) :
  length (flat_map (fun x => repeat x k) a) = (length a * k)%nat.
Proof.
  induction a as [|x a IH]; [reflexivity|].
  cbn [flat_map length]. rewrite length_app, repeat_length, IH. lia.
Qed.

(** Element [j] of an array whose entries were each repeated [k] times is
    entry [j / k] of the array. *)
Lemma nth_repeat_each {A : Type} (d : A) (k : nat) (a : list A) (j : nat) :
  (j < length a * k)%nat ->
  nth j (flat_map (fun x => repeat x k) a) d = nth (j / k) a d.
Proof.
  revert j. induction a as [|x a IH]; intros j Hj; simpl in *; [lia|].
  assert (Hk : (k <> 0)%nat) by (intros ->; lia).
  destruct (Nat.lt_ge_cases j k) as [Hlt|Hge].
  - rewrite app_nth1 by (rewrite repeat_length; exact Hlt).
    rewrite Nat.div_small by exact Hlt.
    apply nth_repeat_lt. exact Hlt.
  - rewrite app_nth2 by (rewrite repeat_length; exact Hge).
    rewrite repeat_length, IH by lia.
    replace j with ((j - k) + 1 * k)%nat at 2 by lia.
    rewrite Nat.div_add by exact Hk.
    rewrite Nat.add_1_r. reflexivity.
Qed.

Lemma linspace_nth (a b : Q) (num : Z) (l : list Q) (i : nat) :
  2 <= num -> linspace a b num = Ok l -> (i < length l)%nat ->
  (nth i l 0 == a + inject_Z (Z.of_nat i) * ((b - a) / inject_Z (num - 1)))%Q.
Proof.
  intros Hnum H Hi.
  destruct (linspace_cases _ _ _ _ H) as [[-> _]|[[-> _]|[_ ->]]]; [lia|lia|].
  rewrite length_app, length_map, length_seq in Hi. simpl in Hi.
  set (step := ((b - a) / inject_Z (num - 1))%Q).
  set (f := fun i : nat => (inject_Z (Z.of_nat i) * step + a)%Q).
  destruct (Nat.lt_ge_cases i (Z.to_nat (num - 1))) as [Hlt|Hge].
  - rewrite app_nth1 by (rewrite length_map, length_seq; exact Hlt).
    rewrite (nth_indep _ 0%Q (f 0%nat)) by (rewrite length_map, length_seq; exact Hlt).
    rewrite map_nth, seq_nth by exact Hlt.
    unfold f. simpl. ring.
  - assert (i = Z.to_nat (num - 1)) as -> by lia.
    rewrite app_nth2 by (rewrite length_map, length_seq; lia).
    rewrite length_map, length_seq, Nat.sub_diag. simpl.
    rewrite Z2Nat.id by lia. unfold step. field.
    change 0%Q with (inject_Z 0). rewrite inject_Z_injective. lia.
Qed.

(** *** Sorting and extrema *)

Lemma insert_unique_InA (x y : Q) (l : list Q) :
  InA Qeq x (insert_unique y l) <-> (x == y)%Q \/ InA Qeq x l.
Proof.
  induction l as [|a l IH]; cbn [insert_unique].
  - rewrite InA_cons, InA_nil. tauto.
  - destruct (y ?= a)%Q eqn:C.
    + apply Qeq_alt in C. split; [auto|].
      intros [Hxy|Hin]; [|exact Hin].
      apply InA_cons_hd. rewrite Hxy. exact C.
    + rewrite InA_cons. tauto.
    + rewrite !InA_cons, IH. tauto.
Qed.

Lemma insert_unique_HdRel (a y : Q) (l : list Q) :
  HdRel Qlt a l -> (a < y)%Q -> HdRel Qlt a (insert_unique y l).
Proof.
  intros Hhd Hay. destruct l as [|b l]; cbn [insert_unique].
  - constructor. exact Hay.
  - destruct (y ?= b)%Q; [exact Hhd|constructor; exact Hay|].
    inversion Hhd; subst. constructor. assumption.
Qed.

Lemma insert_unique_Sorted (y : Q) (l : list Q) :
  Sorted Qlt l -> Sorted Qlt (insert_unique y l).
Proof.
  induction 1 as [|a l Hs IH Hhd]; cbn [insert_unique].
  - repeat constructor.
  - destruct (y ?= a)%Q eqn:C.
    + constructor; assumption.
    + apply Qlt_alt in C. repeat constructor; assumption.
    + apply Qgt_alt in C. constructor; [exact IH|].
      apply insert_unique_HdRel; assumption.
Qed.

Lemma np_unique_Sorted (a : list Q) : Sorted Qlt (np_unique a).
Proof.
  induction a as [|x a IH]; cbn [np_unique fold_right].
  - constructor.
  - apply insert_unique_Sorted. exact IH.
Qed.

Lemma np_unique_InA (x : Q) (a : list Q) :
  InA Qeq x (np_unique a) <-> InA Qeq x a.
Proof.
  induction a as [|y a IH]; cbn [np_unique fold_right].
  - reflexivity.
  - fold (np_unique a). rewrite insert_unique_InA, InA_cons, IH. reflexivity.
Qed.










(** *** The points of [linspace] *)




End PrimitiveFacts.

(** ** utils.stepData *)

Section StepDataFacts.
Import Py Utils.

Variables lowervx uppervx : Q.
Variable xsteps : Z.
Variables lowervy uppervy : Q.
Variable ysteps : Z.
Variables settle data_rate : Q.

Let reps : Z := repeat_count settle data_rate.

Lemma stepData_returns :
  0 <= xsteps -> 0 <= ysteps -> 0 <= reps < 2 ^ 63 ->
  exists lin liny,
    linspace lowervx uppervx xsteps = Ok lin /\
    stepData lowervx uppervx xsteps lowervy uppervy ysteps settle data_rate
    = Ok (let fwd := flat_map (fun x => repeat x (Z.to_nat reps)) lin in
          fwd ++ rev fwd, liny).
Proof.
  intros Hx Hy Hr.
  destruct (linspace_returns lowervx uppervx xsteps Hx) as [lin Hlin].
  destruct (linspace_returns lowervy uppervy ysteps Hy) as [liny Hliny].
  exists lin, liny. split; [exact Hlin|].
  unfold stepData. rewrite Hlin. cbn [bind].
  rewrite (as_intp_returns (float_mul settle data_rate))
    by (fold (repeat_count settle data_rate); fold reps; lia).
  cbn [bind]. fold (repeat_count settle data_rate). fold reps.
  rewrite (np_repeat_returns lin reps) by lia. cbn [bind].
  rewrite Hliny. reflexivity.
Qed.

Lemma stepData_value (linx liny : list Q) :
  stepData lowervx uppervx xsteps lowervy uppervy ysteps settle data_rate
  = Ok (linx, liny) ->
  exists lin,
    linspace lowervx uppervx xsteps = Ok lin /\
    linspace lowervy uppervy ysteps = Ok liny /\
    0 <= reps * xsteps /\
    linx = (let fwd := flat_map (fun x => repeat x (Z.to_nat reps)) lin in
            fwd ++ rev fwd).
Proof.
  unfold stepData.
  destruct (linspace lowervx uppervx xsteps) as [lin|] eqn:Hlin; [|discriminate].
  cbn [bind].
  destruct (as_intp (float_mul settle data_rate)) as [n|] eqn:Hn; [|discriminate].
  apply as_intp_value in Hn. destruct Hn as [Hn _].
  fold (repeat_count settle data_rate) in Hn. fold reps in Hn. subst n.
  cbn [bind].
  destruct (np_repeat lin reps) as [fwd|] eqn:Hrep; [|discriminate].
  cbn [bind].
  destruct (linspace lowervy uppervy ysteps) as [ly|] eqn:Hliny; [|discriminate].
  cbn [bind]. intros [= <- <-].
  exists lin. repeat split.
  - unfold np_repeat in Hrep.
    destruct (reps * Z.of_nat (length lin) <? 0) eqn:Hneg; [discriminate|].
    apply Z.ltb_ge in Hneg. rewrite (linspace_length _ _ _ _ Hlin) in Hneg. exact Hneg.
  - rewrite (np_repeat_value _ _ _ Hrep). reflexivity.
Qed.



End StepDataFacts.

Section StepDataClaims.
Import Py Utils SpecWords.


(** C5 (as stated, refuted): with a settle time of 0.875 s at 2 Hz the
    product is 1.75, which rounds to 2, but every value is repeated once:
    the row has 42 entries, not 84. *)
Lemma stepData_repeat_count_not_rounded :
  round_half_even ((7 # 8) * 2) = 2 /\
  exists linx liny,
    stepData 0 7 21 0 7 21 (7 # 8) 2 = Ok (linx, liny) /\
    Z.of_nat (length linx) = 42 /\
    Z.of_nat (length linx) <> 2 * 21 * round_half_even ((7 # 8) * 2).
Proof.
  split; [reflexivity|].
  eexists; eexists; split; [vm_compute; reflexivity|].
  split; [reflexivity|vm_compute; discriminate].
Qed.

(** C5 (amended): for [xsteps >= 2] and positive settle time and rate, the
    repeat count [int(settle * data_rate)], the float product cut towards
    zero and not rounded, is not negative.  A row that [stepData] returns is
    a forward sweep followed by its exact reverse; the forward sweep holds
    the [xsteps] samples of [np.linspace] from [lowervx] to [uppervx], the
    first being [lowervx] and the last [uppervx], each repeated that many
    times, so that the row has [2 * xsteps * int(settle * data_rate)]
    entries.  [stepData] does return when the forward sweep has at most a
    million entries and there are at most a million rows.  For the default
    region the row has 2100 entries. *)
Theorem stepData_row_waveform :
  (forall (lowervx uppervx : Q) (xsteps : Z) (lowervy uppervy : Q) (ysteps : Z)
          (settle data_rate : Q),
     2 <= xsteps -> (0 < settle)%Q -> (0 < data_rate)%Q ->
     let reps := repeat_count settle data_rate in
     0 <= reps /\
     (xsteps <= modest -> xsteps * reps <= modest -> 0 <= ysteps <= modest ->
      is_ok (stepData lowervx uppervx xsteps lowervy uppervy ysteps settle data_rate)
      = true) /\
     forall linx liny,
       stepData lowervx uppervx xsteps lowervy uppervy ysteps settle data_rate
       = Ok (linx, liny) ->
       Z.of_nat (length linx) = 2 * xsteps * reps /\
       exists lin,
         linspace lowervx uppervx xsteps = Ok lin /\
         Z.of_nat (length lin) = xsteps /\
         (nth 0 lin 0 == lowervx)%Q /\
         (nth (Z.to_nat (xsteps - 1)) lin 0 == uppervx)%Q /\
         linx = flat_map (fun x => repeat x (Z.to_nat reps)) lin
                ++ rev (flat_map (fun x => repeat x (Z.to_nat reps)) lin)) /\
  (exists linx liny,
     stepData 0 7 21 0 7 21 (1 # 2) 100 = Ok (linx, liny) /\
     length linx = 2100%nat).
Proof.
  split.
  - intros lowervx uppervx xsteps lowervy uppervy ysteps settle data_rate
           Hx Hs Hr reps.
    assert (Hreps : 0 <= reps).
    { apply float_mul_nonneg; apply Qlt_le_weak; assumption. }
    split; [exact Hreps|]. split.
    + intros Hxm Hm Hy. unfold modest in *.
      destruct (stepData_returns lowervx uppervx xsteps lowervy uppervy ysteps
                  settle data_rate ltac:(lia) ltac:(lia))
        as (lin & liny & _ & ->); [|reflexivity].
      fold reps. split; [exact Hreps|]. nia.
    + intros linx liny Hstep.
      destruct (stepData_value _ _ _ _ _ _ _ _ _ _ Hstep)
        as (lin & Hlin & _ & _ & ->).
      pose proof (linspace_length _ _ _ _ Hlin) as Hlen.
      cbv zeta. fold reps.
      split.
      * rewrite length_app, length_rev, length_repeat_each. nia.
      * exists lin. split; [exact Hlin|]. split; [exact Hlen|].
        split; [|split; [|reflexivity]].
        -- rewrite (linspace_nth _ _ _ _ 0%nat Hx Hlin) by lia.
           cbn [Z.of_nat]. ring.
        -- rewrite (linspace_nth _ _ _ _ _ Hx Hlin) by lia.
           rewrite Z2Nat.id by lia. field.
           change 0%Q with (inject_Z 0). rewrite inject_Z_injective. lia.
  - eexists; eexists; split; [vm_compute; reflexivity|reflexivity].
Qed.

(** The default region: 21 steps, 0.5 s settle time, 100 Hz. *)
Lemma stepData_row_waveform_witness :
  2 <= 21 /\ (0 < 1 # 2)%Q /\ (0 < 100)%Q /\
  repeat_count (1 # 2) 100 = 50 /\
  is_ok (stepData 0 7 21 0 7 21 (1 # 2) 100) = true.
Proof.
  assert (H1 : 2 <= 21) by lia.
  assert (H2 : (0 < 1 # 2)%Q) by reflexivity.
  assert (H3 : (0 < 100)%Q) by reflexivity.
  assert (H4 : repeat_count (1 # 2) 100 = 50) by (vm_compute; reflexivity).
  split; [exact H1|split; [exact H2|split; [exact H3|split; [exact H4|]]]].
  pose proof (proj1 stepData_row_waveform) as general.
  apply (proj1 (proj2 (general 0%Q 7%Q 21 0%Q 7%Q 21 (1 # 2)%Q 100%Q H1 H2 H3)));
    rewrite ?H4; unfold modest; lia.
Defined.





End StepDataClaims.

(** ** The acquisition card *)

Section HwFacts.
Import Py NIpci6036E.
Local Open Scope hw_scope.

Lemma quiet_hret {A : Type} (a : A) : quiet (hret a).
Proof. intros tr. exists []. rewrite app_nil_r. auto. Qed.

Lemma quiet_lift {A : Type} (r : result A) : quiet (lift r).
Proof. intros tr. exists []. rewrite app_nil_r. auto. Qed.

Lemma quiet_request (drv : driver) (c : daq_call) :
  starts_no_task c -> quiet (request drv c).
Proof.
  intros Hc tr. unfold request. destruct (drv tr c).
  - exists [c]. auto.
  - exists []. rewrite app_nil_r. auto.
Qed.

Lemma quiet_hbind {A B : Type} (c : Hw A) (k : A -> Hw B) :
  quiet c -> (forall a, quiet (k a)) -> quiet (hbind c k).
Proof.
  intros Hc Hk tr. unfold hbind.
  destruct (Hc tr) as (ext1 & E1 & F1).
  destruct (c tr) as [tr1 [a|e]]; cbn [fst] in E1; subst tr1.
  - destruct (Hk a (tr ++ ext1)) as (ext2 & E2 & F2).
    exists (ext1 ++ ext2). rewrite app_assoc, <- E2. split; [reflexivity|].
    apply Forall_app; auto.
  - exists ext1. auto.
Qed.

Lemma quiet_for_each {A : Type} (l : list A) (body : A -> Hw unit) :
  (forall x, quiet (body x)) -> quiet (Daq.for_each l body).
Proof.
  intros Hbody. induction l as [|x l IH]; cbn [Daq.for_each].
  - apply quiet_hret.
  - apply quiet_hbind; [apply Hbody|intros _; exact IH].
Qed.

Lemma quiet_with_task {A : Type} (drv : driver) (t : task) (body : Hw (option A)) :
  quiet body -> quiet (Daq.with_task drv t body).
Proof.
  intros Hb tr. unfold Daq.with_task.
  destruct (Hb tr) as (ext1 & E1 & F1).
  destruct (body tr) as [tr1 r]; cbn [fst] in E1; subst tr1.
  assert (Hclose : exists ext,
             fst (let (tr2, rc) := request drv (CloseTask (task_name t)) (tr ++ ext1) in
                  (tr2, match rc with Raise e => Raise e | Ok _ => r end))
             = tr ++ ext /\ Forall starts_no_task ext).
  { destruct (quiet_request drv (CloseTask (task_name t)) I (tr ++ ext1))
      as (ext2 & E2 & F2).
    destruct (request drv (CloseTask (task_name t)) (tr ++ ext1)) as [tr2 rc].
    cbn [fst] in *. subst tr2. exists (ext1 ++ ext2).
    rewrite app_assoc. split; [reflexivity|apply Forall_app; auto]. }
  destruct r as [[a|]|e]; try exact Hclose.
  exists ext1. auto.
Qed.








End HwFacts.

(** ** The line scan *)

Section ScanFacts.
Import Py NIpci6036E Scan.
Local Open Scope hw_scope.

Variable drv : driver.
Variable DEVname : string.

Lemma quiet_make_write_task (name : string) (channels : list string) (lo hi : Q) :
  quiet (Daq.make_write_task drv DEVname name channels lo hi).
Proof.
  unfold Daq.make_write_task.
  repeat (apply quiet_hbind; [|intros ?]);
    try apply quiet_for_each; try intros ?;
    try apply quiet_request; try apply quiet_hret; exact I.
Qed.

Lemma quiet_make_read_task (name : string) (channels : list string) :
  quiet (Daq.make_read_task drv DEVname name channels).
Proof.
  unfold Daq.make_read_task.
  repeat (apply quiet_hbind; [|intros ?]);
    try apply quiet_for_each; try intros ?;
    try apply quiet_request; try apply quiet_hret; exact I.
Qed.

Lemma make_read_task_value (name : string) (channels : list string)
      (tr tr' : list daq_call) (t : task) :
  Daq.make_read_task drv DEVname name channels tr = (tr', Ok t) ->
  t = mkTask name (map (fun _ => DEVname) (firstn 1 channels)).
Proof.
  unfold Daq.make_read_task, hbind, hret.
  destruct (request drv (NewTask name) tr) as [tr1 [[]|e]]; [|discriminate].
  destruct (Daq.for_each channels _ tr1) as [tr2 [[]|e]]; [|discriminate].
  now intros [= _ <-].
Qed.

Lemma make_write_task_value (name : string) (channels : list string) (lo hi : Q)
      (tr tr' : list daq_call) (t : task) :
  Daq.make_write_task drv DEVname name channels lo hi tr = (tr', Ok t) ->
  task_name t = name.
Proof.
  unfold Daq.make_write_task, hbind, hret.
  destruct (request drv (NewTask name) tr) as [tr1 [[]|e]]; [|discriminate].
  destruct (Daq.for_each channels _ tr1) as [tr2 [[]|e]]; [|discriminate].
  destruct (request drv (DontAllowRegeneration name) tr2) as [tr3 [[]|e]];
    [|discriminate].
  now intros [= _ <-].
Qed.

Lemma quiet_write (sv : scanVars) (write_task : task) (i : Z) :
  quiet (write drv sv write_task i).
Proof.
  unfold write. destruct (i =? _).
  - apply quiet_hbind; [apply quiet_request; exact I|intros _; apply quiet_hret].
  - apply quiet_hbind; [apply quiet_lift|intros row].
    apply quiet_hbind; [apply quiet_request; exact I|intros _; apply quiet_hret].
Qed.

Lemma quiet_exec (sv : scanVars) (write_task : task) (events : list loop_event) :
  forall i write_timer, quiet (exec drv sv write_task events i write_timer).
Proof.
  induction events as [|ev rest IH]; intros i write_timer; cbn [exec].
  - apply quiet_hret.
  - destruct ev as [|task_done|code].
    + destruct write_timer; [|apply IH].
      apply quiet_hbind; [apply quiet_write|intros st; apply IH].
    + apply quiet_hbind; [apply quiet_request; exact I|intros _].
      destruct task_done; [apply quiet_hret|apply IH].
    + apply quiet_hret.
Qed.

Lemma quiet_the_read_task (read : option task) : quiet (the_read_task read).
Proof. destruct read; [apply quiet_hret|apply quiet_lift]. Qed.

Lemma quiet_arm (sv : scanVars) (write_task : task) (read : option task) :
  quiet (arm drv sv write_task read).
Proof.
  unfold arm, Daq.set_finite_hardware_clock, Daq.set_start_trigger.
  repeat (apply quiet_hbind; [|intros ?]);
    try apply quiet_the_read_task;
    try apply quiet_request; try apply quiet_lift; exact I.
Qed.








(** When the write task has been armed, its start trigger has been
    configured on the start trigger of the read task's device. *)
Lemma arm_configures_trigger (sv : scanVars) (write_task : task)
      (read : option task) (tr tr' : list daq_call) :
  arm drv sv write_task read tr = (tr', Ok tt) ->
  exists origin dev,
    read = Some origin /\
    index (devices origin) 0 = Ok dev /\
    In (CfgDigEdgeStartTrig (task_name write_task) ("/" ++ dev ++ "/ai/StartTrigger"))
       tr'.
Proof.
  unfold arm, Daq.set_finite_hardware_clock, Daq.set_start_trigger, hbind, lift, request.
  destruct (drv tr _); [|discriminate].
  destruct read as [origin|]; cbn [the_read_task hret hraise]; [|discriminate].
  destruct (index (devices origin) 0) as [dev|e] eqn:Hdev; [|discriminate].
  match goal with |- context [drv ?t ?c] => destruct (drv t c) end; [|discriminate].
  destruct (generateInput _ _ 0) as [first|e]; [|discriminate].
  destruct (generateInput _ _ 1) as [second|e]; [|discriminate].
  match goal with |- context [drv ?t ?c] => destruct (drv t c) end; [|discriminate].
  intros [= <-]. exists origin, dev. split; [reflexivity|]. split; [exact Hdev|].
  apply in_or_app. left. apply in_or_app. right. left. reflexivity.
Qed.

Lemma start_shape_app (w r src : string) (tr ext : list daq_call) :
  start_shape w r src tr -> Forall starts_no_task ext ->
  start_shape w r src (tr ++ ext).
Proof.
  intros [tr0 H|tr1 rest H1 H2 H3|tr1 rest H1 H2 H3] Hext.
  - apply NoneStarted. apply Forall_app; auto.
  - rewrite <- app_assoc. cbn [app].
    apply FirstStarted; auto. apply Forall_app; auto.
  - rewrite <- app_assoc. cbn [app].
    apply BothStarted; auto. apply Forall_app; auto.
Qed.

(** The served requests of the thread have the shape above. *)
Lemma run_line_shape (sv : scanVars) (write_list : list string)
      (read : option task) (events : list loop_event) (served : list daq_call)
      (r src : string) :
  Forall starts_no_task served ->
  (forall origin, read = Some origin -> task_name origin = r) ->
  (forall origin dev, read = Some origin -> index (devices origin) 0 = Ok dev ->
                      src = ("/" ++ dev ++ "/ai/StartTrigger")%string) ->
  start_shape "write" r src
              (fst (run_line drv DEVname sv write_list read events served)).
Proof.
  intros Hserved Hr Hsrc. unfold run_line, hbind at 1.
  destruct (quiet_make_write_task "write" write_list (lowerV sv) (upperV sv) served)
    as (ext0 & E0 & F0).
  destruct (Daq.make_write_task drv DEVname "write" write_list (lowerV sv) (upperV sv)
              served) as [tr0 [wt|e]] eqn:Hmake; cbn [fst] in E0; subst tr0;
    [|apply NoneStarted, Forall_app; auto].
  pose proof (make_write_task_value _ _ _ _ _ _ _ Hmake) as Hname.
  assert (Hpre : Forall starts_no_task (served ++ ext0)) by (apply Forall_app; auto).
  set (tr0 := served ++ ext0) in *.
  set (body := arm drv sv wt read ;;; Daq.start drv wt ;;;
               (t <- the_read_task read ;; Daq.start drv t) ;;;
               lift (write_interval sv) ;;;
               exec drv sv wt events 2 true).
  assert (Hbody : start_shape "write" r src (fst (body tr0))).
  { unfold body, hbind at 1.
    destruct (quiet_arm sv wt read tr0) as (extA & EA & FA).
    destruct (arm drv sv wt read tr0) as [trA [[]|e]] eqn:Harm; cbn [fst] in EA;
      [|subst trA; apply NoneStarted, Forall_app; auto].
    destruct (arm_configures_trigger _ _ _ _ _ Harm)
      as (origin & dev & Hread & Hdev & Hin).
    rewrite Hname, <- (Hsrc origin dev Hread Hdev) in Hin.
    pose proof (Hr origin Hread) as Horigin. subst read.
    assert (HA : Forall starts_no_task trA) by (subst trA; apply Forall_app; auto).
    unfold hbind at 1, Daq.start at 1, request at 1. rewrite Hname.
    destruct (drv trA (StartTask "write")); [|apply NoneStarted; exact HA].
    cbn [the_read_task].
    unfold hbind at 1, hbind at 1, hret at 1, Daq.start at 1, request at 1.
    rewrite Horigin.
    destruct (drv (trA ++ [StartTask "write"]) (StartTask r)).
    - unfold hbind at 1, lift at 1.
      destruct (write_interval sv) as [interval|e].
      + destruct (quiet_exec sv wt events 2 true
                    ((trA ++ [StartTask "write"]) ++ [StartTask r]))
          as (extE & EE & FE).
        rewrite EE, <- !app_assoc. cbn [app].
        apply BothStarted; auto.
      + cbn [fst]. rewrite <- !app_assoc. cbn [app].
        apply BothStarted; auto.
    - cbn [fst]. apply FirstStarted; auto. }
  unfold hbind, Daq.with_task.
  destruct (body tr0) as [trB res]; cbn [fst] in Hbody.
  assert (Hclosed : start_shape "write" r src
                      (fst (request drv (CloseTask (task_name wt)) trB))).
  { destruct (quiet_request drv (CloseTask (task_name wt)) I trB) as (ext & E & F).
    rewrite E. apply start_shape_app; assumption. }
  destruct res as [[c|]|e]; cbn [fst]; try exact Hbody;
    destruct (request drv (CloseTask (task_name wt)) trB) as [trC [[]|e']];
    cbn [fst hret] in *; exact Hclosed.
Qed.


(** In a trace of that shape, a start of [r] comes once, right after the
    start of [w], and the trigger of [w] was configured before both. *)
Lemma start_shape_order (w r src : string) (tr : list daq_call) (i : nat) :
  w <> r -> start_shape w r src tr ->
  nth_error tr i = Some (StartTask r) ->
  exists j k, (k < j)%nat /\ (j < i)%nat /\
    nth_error tr j = Some (StartTask w) /\
    nth_error tr k = Some (CfgDigEdgeStartTrig w src) /\
    forall i', nth_error tr i' = Some (StartTask r) -> i' = i.
Proof.
  intros Hwr Hshape Hi.
  assert (Hquiet : forall l n c, Forall starts_no_task l ->
                                 nth_error l n = Some (StartTask c) -> False).
  { intros l n c Hl Hn. apply nth_error_In in Hn.
    rewrite Forall_forall in Hl. exact (Hl _ Hn). }
  assert (Hpos : forall tr1 rest n,
             Forall starts_no_task tr1 -> Forall starts_no_task rest ->
             nth_error (tr1 ++ StartTask w :: StartTask r :: rest) n
             = Some (StartTask r) -> n = S (length tr1)).
  { intros tr1 rest n H1 H2 Hn.
    destruct (Nat.lt_ge_cases n (length tr1)) as [Hlt|Hge].
    - rewrite nth_error_app1 in Hn by exact Hlt. destruct (Hquiet _ _ _ H1 Hn).
    - rewrite nth_error_app2 in Hn by exact Hge.
      destruct (n - length tr1)%nat as [|[|m]] eqn:Hm; cbn in Hn.
      + injection Hn as Hn. congruence.
      + lia.
      + destruct (Hquiet _ _ _ H2 Hn). }
  destruct Hshape as [tr0 H|tr1 rest H1 H2 H3|tr1 rest H1 H2 H3].
  - destruct (Hquiet _ _ _ H Hi).
  - destruct (Nat.lt_ge_cases i (length tr1)) as [Hlt|Hge].
    + rewrite nth_error_app1 in Hi by exact Hlt. destruct (Hquiet _ _ _ H1 Hi).
    + rewrite nth_error_app2 in Hi by exact Hge.
      destruct (i - length tr1)%nat as [|m]; cbn in Hi.
      * injection Hi as Hi. congruence.
      * destruct (Hquiet _ _ _ H2 Hi).
  - pose proof (Hpos _ _ _ H1 H2 Hi) as ->.
    destruct (In_nth_error _ _ H3) as (k & Hk).
    assert (Hklt : (k < length tr1)%nat).
    { apply nth_error_Some. rewrite Hk. discriminate. }
    exists (length tr1), k. repeat split.
    + exact Hklt.
    + lia.
    + rewrite nth_error_app2, Nat.sub_diag by lia. reflexivity.
    + rewrite nth_error_app1 by exact Hklt. exact Hk.
    + intros i' Hi'. exact (Hpos _ _ _ H1 H2 Hi').
Qed.

(** C3: in every line scan, under every behaviour of the driver and every
    schedule of the thread's timers, a start of the read task is preceded by
    the start of the write task, which is preceded by the request that makes
    the write task wait for the start trigger of the read task's device; the
    read task is started at most once. *)
Theorem write_task_started_before_read_task
  (sv : scanVars) (write_list : list string) (self : scanUI)
  (events : list loop_event) (i : nat) :
  let served := fst (snd (startLineScan drv DEVname sv write_list self events)) in
  nth_error served i = Some (StartTask "read") ->
  exists j k, (k < j)%nat /\ (j < i)%nat /\
    nth_error served j = Some (StartTask "write") /\
    nth_error served k
    = Some (CfgDigEdgeStartTrig "write" ("/" ++ DEVname ++ "/ai/StartTrigger")) /\
    forall i', nth_error served i' = Some (StartTask "read") -> i' = i.
Proof.
  intros served. apply start_shape_order; [discriminate|].
  unfold served, startLineScan.
  destruct (stepdata sv) as [sv'|e]; [|apply NoneStarted; constructor].
  destruct (quiet_make_read_task "read" (meas_list self) []) as (ext1 & E1 & F1).
  cbn [app] in E1.
  destruct (Daq.make_read_task drv DEVname "read" (meas_list self) [])
    as [tr1 [t|e]] eqn:Hmake; cbn [fst] in E1; subst tr1;
    [|apply NoneStarted; exact F1].
  pose proof (make_read_task_value _ _ _ _ _ Hmake) as Ht.
  set (configure := Daq.set_continuous_hardware_clock drv t (data_rate sv') ;;;
                    Daq.commit drv t ;;;
                    (if log sv' then Daq.set_log drv t else hret tt)).
  assert (Hquiet : quiet configure).
  { unfold configure, Daq.set_continuous_hardware_clock, Daq.commit, Daq.set_log.
    repeat (apply quiet_hbind; [|intros ?]);
      try destruct (log sv');
      try apply quiet_request; try apply quiet_hret; exact I. }
  destruct (Hquiet ext1) as (ext2 & E2 & F2).
  destruct (configure ext1) as [tr2 [[]|e]]; cbn [fst] in E2; subst tr2;
    [|apply NoneStarted, Forall_app; auto].
  unfold run, dumpData_default, dumpData. change (0 =? 0) with true.
  cbn [snd fst read_task].
  apply run_line_shape; [apply Forall_app; auto| |].
  - intros origin [= <-]. rewrite Ht. reflexivity.
  - intros origin dev [= <-]. rewrite Ht. cbn [devices].
    destruct (meas_list self) as [|c l]; cbn; [discriminate|].
    now intros [= <-].
Qed.




End ScanFacts.

Section RegionClaims.
Import Py Utils NIpci6036E Scan.



End RegionClaims.

Section ScanClaims.
Import Py NIpci6036E Scan Samples.

(** A scan of two lines on a card that serves every request: the read task
    is the fourteenth request served. *)
Lemma write_task_started_before_read_task_witness :
  nth_error
    (fst (snd (startLineScan (fun _ _ => true) "Dev1" small_scan
                 ["ao0"; "ao1"]%string fresh_window
                 [WriteTimeout; WaitTimeout true])))
    13
  = Some (StartTask "read") /\
  exists j k, (k < j)%nat /\ (j < 13)%nat /\
    nth_error
      (fst (snd (startLineScan (fun _ _ => true) "Dev1" small_scan
                   ["ao0"; "ao1"]%string fresh_window
                   [WriteTimeout; WaitTimeout true])))
      j
    = Some (StartTask "write") /\
    nth_error
      (fst (snd (startLineScan (fun _ _ => true) "Dev1" small_scan
                   ["ao0"; "ao1"]%string fresh_window
                   [WriteTimeout; WaitTimeout true])))
      k
    = Some (CfgDigEdgeStartTrig "write" ("/" ++ "Dev1" ++ "/ai/StartTrigger")) /\
    forall i',
      nth_error
        (fst (snd (startLineScan (fun _ _ => true) "Dev1" small_scan
                     ["ao0"; "ao1"]%string fresh_window
                     [WriteTimeout; WaitTimeout true])))
        i'
      = Some (StartTask "read") -> i' = 13%nat.
Proof.
  assert (H : nth_error
                (fst (snd (startLineScan (fun _ _ => true) "Dev1" small_scan
                             ["ao0"; "ao1"]%string fresh_window
                             [WriteTimeout; WaitTimeout true])))
                13
              = Some (StartTask "read")) by (vm_compute; reflexivity).
  split; [exact H|].
  exact (write_task_started_before_read_task (fun _ _ => true) "Dev1" small_scan
           ["ao0"; "ao1"]%string fresh_window [WriteTimeout; WaitTimeout true]
           13 H).
Defined.

(** *** The acquisition buffer *)

Lemma slice_prefix {A : Type} (row : list A) (n : Z) :
  0 < n -> slice row 0 n = firstn (Z.to_nat n) row.
Proof.
  intros Hn. unfold slice, slice_bound.
  destruct (0 <? 0) eqn:H0; [discriminate|].
  destruct (n <? 0) eqn:Hneg; [apply Z.ltb_lt in Hneg; lia|].
  rewrite (Z.min_l 0) by lia. cbn [Z.to_nat skipn]. rewrite Z.sub_0_r.
  destruct (Z.le_ge_cases n (Z.of_nat (length row))) as [Hle|Hge].
  - rewrite Z.min_l by exact Hle. reflexivity.
  - rewrite Z.min_r by lia. rewrite Nat2Z.id.
    rewrite !firstn_all2 by lia. reflexivity.
Qed.

Lemma slice_suffix {A : Type} (row : list A) (n : Z) :
  0 < n -> slice row n (Z.of_nat (length row)) = skipn (Z.to_nat n) row.
Proof.
  intros Hn. unfold slice, slice_bound.
  destruct (n <? 0) eqn:Hneg; [apply Z.ltb_lt in Hneg; lia|].
  destruct (Z.of_nat (length row) <? 0) eqn:Hlen; [apply Z.ltb_lt in Hlen; lia|].
  rewrite (Z.min_l (Z.of_nat (length row))) by lia.
  destruct (Z.le_ge_cases n (Z.of_nat (length row))) as [Hle|Hge].
  - rewrite Z.min_l by exact Hle.
    apply firstn_all2. rewrite length_skipn. lia.
  - rewrite Z.min_r by lia. rewrite Nat2Z.id.
    rewrite !skipn_all2 by lia. apply firstn_nil.
Qed.

Lemma np_append1_firstn_skipn (k : nat) (a : list (list Q)) :
  np_append1 (map (firstn k) a) (map (skipn k) a) = a.
Proof.
  induction a as [|row a IH]; cbn [map np_append1]; [reflexivity|].
  rewrite firstn_skipn, IH. reflexivity.
Qed.

Lemma np_size_np_empty (rows : nat) : np_size (np_empty rows) = 0%nat.
Proof.
  induction rows as [|rows IH]; [reflexivity|exact IH].
Qed.

(** C7 (as stated, refuted): asked for three columns of a buffer that holds
    two, [dumpData] does not fail; it hands out the two columns and leaves
    the buffer empty. *)
Lemma dumpData_short_buffer_not_refused :
  ncols (data two_column_window) = 2%nat /\
  dumpData 3 two_column_window
  = (mkScanUI ["ai0"; "ai1"]%string [[]; []] None, Some [[1; 2]; [3; 4]]%Q).
Proof. split; reflexivity. Qed.

(** C7 (amended): for [chunk > 0] on a rectangular buffer, [dumpData] returns
    the first [chunk] columns, or all of them when there are fewer, and
    removes exactly the returned columns from the buffer; it never fails. *)
Theorem dumpData_returns_leading_columns (self : scanUI) (chunk : Z) :
  0 < chunk ->
  (forall row, In row (data self) -> length row = ncols (data self)) ->
  exists temp,
    snd (dumpData chunk self) = Some temp /\
    temp = map (firstn (Z.to_nat chunk)) (data self) /\
    data (fst (dumpData chunk self)) = map (skipn (Z.to_nat chunk)) (data self) /\
    np_append1 temp (data (fst (dumpData chunk self))) = data self /\
    (forall row, In row temp ->
       length row = Nat.min (Z.to_nat chunk) (ncols (data self))) /\
    meas_list (fst (dumpData chunk self)) = meas_list self.
Proof.
  intros Hchunk Hrect. unfold dumpData.
  destruct (chunk =? 0) eqn:H0; [apply Z.eqb_eq in H0; lia|].
  cbn [fst snd data meas_list].
  assert (Htemp : slice_cols (data self) 0 chunk
                  = map (firstn (Z.to_nat chunk)) (data self)).
  { unfold slice_cols. apply map_ext. intros row. apply slice_prefix. exact Hchunk. }
  assert (Hrest : slice_cols (data self) chunk (Z.of_nat (ncols (data self)))
                  = map (skipn (Z.to_nat chunk)) (data self)).
  { unfold slice_cols. apply map_ext_in. intros row Hrow.
    rewrite <- (Hrect row Hrow). apply slice_suffix. exact Hchunk. }
  exists (slice_cols (data self) 0 chunk).
  rewrite Hrest, Htemp. repeat split.
  - apply np_append1_firstn_skipn.
  - intros row Hrow. apply in_map_iff in Hrow. destruct Hrow as (row' & <- & Hrow').
    rewrite length_firstn, (Hrect row' Hrow'). reflexivity.
Qed.

(** Three columns asked of a buffer of two. *)
Lemma dumpData_returns_leading_columns_witness :
  0 < 3 /\
  (forall row, In row (data two_column_window) ->
               length row = ncols (data two_column_window)) /\
  exists temp,
    snd (dumpData 3 two_column_window) = Some temp /\
    temp = map (firstn (Z.to_nat 3)) (data two_column_window) /\
    data (fst (dumpData 3 two_column_window))
    = map (skipn (Z.to_nat 3)) (data two_column_window) /\
    np_append1 temp (data (fst (dumpData 3 two_column_window)))
    = data two_column_window /\
    (forall row, In row temp ->
       length row = Nat.min (Z.to_nat 3) (ncols (data two_column_window))) /\
    meas_list (fst (dumpData 3 two_column_window)) = meas_list two_column_window.
Proof.
  assert (H1 : 0 < 3) by lia.
  assert (H2 : forall row, In row (data two_column_window) ->
                           length row = ncols (data two_column_window)).
  { intros row [<-|[<-|[]]]; reflexivity. }
  split; [exact H1|split; [exact H2|]].
  exact (dumpData_returns_leading_columns two_column_window 3 H1 H2).
Defined.

(** C8: [dumpData] with [chunk = 0], which is its default and what the scan
    thread calls, extracts nothing: it replaces the buffer by an empty array
    with one row per measured channel and returns [None], not an empty
    chunk. *)
Theorem dumpData_zero_empties_buffer (self : scanUI) :
  dumpData_default self = dumpData 0 self /\
  snd (dumpData 0 self) = None /\
  snd (dumpData 0 self) <> Some (slice_cols (data self) 0 0) /\
  data (fst (dumpData 0 self)) = np_empty (length (meas_list self)) /\
  length (data (fst (dumpData 0 self))) = length (meas_list self) /\
  np_size (data (fst (dumpData 0 self))) = 0%nat /\
  ncols (data (fst (dumpData 0 self))) = 0%nat /\
  forall drv DEVname sv write_list events served,
    fst (run drv DEVname sv write_list self events served) = fst (dumpData 0 self).
Proof.
  unfold dumpData_default, run, dumpData. change (0 =? 0) with true.
  cbn [fst snd data].
  repeat split; try reflexivity; try discriminate.
  - unfold np_empty. apply repeat_length.
  - apply np_size_np_empty.
  - unfold np_empty. destruct (length (meas_list self)); reflexivity.
Qed.

End ScanClaims.

(** ** The approach *)

Section ApproachCalculus.
Import Py Approach.

(** *** A calculus of postconditions *)

Lemma post_mbind {A B : Type} (c : M A) (k : A -> M B) (s : state)
      (Q : state -> result B -> Prop) :
  post c s (fun s1 r => match r with
                        | Ok a => post (k a) s1 Q
                        | Raise e => Q s1 (Raise e)
                        end) ->
  post (mbind c k) s Q.
Proof. unfold post, mbind. destruct (c s) as [s1 [a|e]]; cbn; auto. Qed.

Lemma post_weaken {A : Type} (c : M A) (s : state)
      (Q Q' : state -> result A -> Prop) :
  post c s Q -> (forall s' r, Q s' r -> Q' s' r) -> post c s Q'.
Proof. unfold post. auto. Qed.

Lemma post_gets {A : Type} (f : state -> A) (s : state)
      (Q : state -> result A -> Prop) :
  Q s (Ok (f s)) -> post (gets f) s Q.
Proof. exact (fun H => H). Qed.

Lemma post_modify (g : state -> state) (s : state)
      (Q : state -> result unit -> Prop) :
  Q (g s) (Ok tt) -> post (modify g) s Q.
Proof. exact (fun H => H). Qed.

Lemma post_emit (e : effect) (s : state) (Q : state -> result unit -> Prop) :
  Q (set_trace (trace s ++ [e]) s) (Ok tt) -> post (emit e) s Q.
Proof. exact (fun H => H). Qed.

Lemma post_ret {A : Type} (a : A) (s : state) (Q : state -> result A -> Prop) :
  Q s (Ok a) -> post (ret a) s Q.
Proof. exact (fun H => H). Qed.

Lemma post_raise {A : Type} (e : exn) (s : state)
      (Q : state -> result A -> Prop) :
  Q s (Raise e) -> post (raise e) s Q.
Proof. exact (fun H => H). Qed.

Lemma post_lift {A : Type} (r : result A) (s : state)
      (Q : state -> result A -> Prop) :
  Q s r -> post (lift r) s Q.
Proof. exact (fun H => H). Qed.

End ApproachCalculus.

(** One step of the calculus: the outermost construct of the method is
    taken apart. *)
Ltac wp_step :=
  lazymatch goal with
  | |- Approach.post (Approach.mbind _ _) _ _ => apply post_mbind
  | |- Approach.post (Approach.gets _) _ _ => apply post_gets; cbv beta iota
  | |- Approach.post (Approach.modify _) _ _ => apply post_modify; cbv beta iota
  | |- Approach.post (Approach.emit _) _ _ => apply post_emit; cbv beta iota
  | |- Approach.post (Approach.ret _) _ _ => apply post_ret; cbv beta iota
  | |- Approach.post (Approach.raise _) _ _ => apply post_raise; cbv beta iota
  | |- Approach.post (Approach.lift ?r) _ _ =>
      apply post_lift; destruct r eqn:?; cbv beta iota
  | |- Approach.post (if ?b then _ else _) _ _ => destruct b eqn:?
  | |- Approach.post (match ?x with _ => _ end) _ _ => destruct x eqn:?
  end.

(** The attributes of an updated object are read off. *)
Ltac simpl_state :=
  cbn [Approach.av Approach.z Approach.daq_dev Approach.chan Approach.data
       Approach.der_arr Approach.consec Approach.stage Approach.steps
       Approach.anc_freq Approach.read_task Approach.timer_active
       Approach.start_enabled Approach.thread Approach.doc Approach.trace
       Approach.set_av Approach.set_data Approach.set_der_arr
       Approach.set_consec Approach.set_stage Approach.set_steps
       Approach.set_anc_freq Approach.set_read_task Approach.set_timer_active
       Approach.set_start_enabled Approach.set_thread Approach.set_doc
       Approach.set_trace fst snd] in *.

Section ApproachFacts.
Import Py NIpci6036E ANC150 Approach.
Local Open Scope approach_scope.

(** *** Indexing *)

Lemma index_in_range {A : Type} (l : list A) (i : Z) :
  - Z.of_nat (length l) <= i < Z.of_nat (length l) ->
  exists x, index l i = Ok x.
Proof.
  intros Hi. unfold index.
  set (j := if i <? 0 then i + Z.of_nat (length l) else i).
  assert (Hj : 0 <= j < Z.of_nat (length l)).
  { unfold j. destruct (i <? 0) eqn:Hneg;
      [apply Z.ltb_lt in Hneg|apply Z.ltb_ge in Hneg]; lia. }
  destruct (j <? 0) eqn:H0; [apply Z.ltb_lt in H0; lia|].
  destruct (Z.of_nat (length l) <=? j) eqn:H1; [apply Z.leb_le in H1; lia|].
  cbn [orb].
  destruct (nth_error l (Z.to_nat j)) as [x|] eqn:Hnth; [eauto|].
  apply nth_error_None in Hnth. lia.
Qed.

(** An assignment through a negative index that does not reach the first
    entry keeps the length and the first entry. *)
Lemma setitem_behind_head {A : Type} (l : list A) (i : Z) (v : A) :
  1 - Z.of_nat (length l) <= i <= -1 ->
  exists l',
    setitem l i v = Ok l' /\ length l' = length l /\
    forall d rest, l = d :: rest -> exists rest', l' = d :: rest'.
Proof.
  intros Hi. unfold setitem.
  destruct (i <? 0) eqn:Hneg; [|apply Z.ltb_ge in Hneg; lia].
  set (j := i + Z.of_nat (length l)).
  assert (Hj : 1 <= j < Z.of_nat (length l)) by (unfold j; lia).
  destruct (j <? 0) eqn:H0; [apply Z.ltb_lt in H0; lia|].
  destruct (Z.of_nat (length l) <=? j) eqn:H1; [apply Z.leb_le in H1; lia|].
  cbn [orb]. eexists. split; [reflexivity|]. split.
  - rewrite length_app. cbn [length]. rewrite length_firstn, length_skipn. lia.
  - intros d rest ->. destruct (Z.to_nat j) as [|m] eqn:Hm; [lia|].
    cbn [firstn app]. eauto.
Qed.

Lemma setitem_head {A : Type} (l : list A) (v : A) (l' : list A) :
  setitem l 0 v = Ok l' -> exists d rest, l = d :: rest /\ l' = v :: rest.
Proof.
  unfold setitem. cbn [Z.ltb Z.compare].
  destruct l as [|d rest]; [discriminate|].
  change (0 <? 0) with false. cbn [orb].
  destruct (Z.of_nat (length (d :: rest)) <=? 0) eqn:H; [discriminate|].
  cbn. intros [= <-]. eauto.
Qed.

Lemma range_backwards (n : nat) (i : Z) :
  In i (range (-1) (- Z.of_nat n) (-1)) -> 1 - Z.of_nat n <= i <= -1.
Proof.
  unfold range. change (0 <? -1) with false. cbv iota.
  rewrite in_map_iff. intros (k & <- & Hk). apply in_seq in Hk.
  replace (-1 - - Z.of_nat n - -1 - 1) with (Z.of_nat n - 1) in Hk by lia.
  change (- -1) with 1 in Hk. rewrite Z.div_1_r in Hk. lia.
Qed.

(** The loop over the derivatives inside a chunk never fails, and leaves the
    entry of the first sample of the chunk as it was. *)
Lemma derivatives_within_ok (data_n time_n der : list Q) :
  length data_n = length der -> length time_n = length der ->
  exists der',
    derivatives_within data_n time_n der = Ok der' /\
    length der' = length der /\
    forall d rest, der = d :: rest -> exists rest', der' = d :: rest'.
Proof.
  intros Hdata Htime. unfold derivatives_within.
  pose proof (range_backwards (length der)) as Hrange.
  revert Hrange. generalize (range (-1) (- Z.of_nat (length der)) (-1)).
  intros indices Hindices.
  assert (Hgen : forall acc,
             length acc = length der ->
             (forall d rest, der = d :: rest -> exists rest', acc = d :: rest') ->
             exists der',
               fold_left
                 (fun acc i =>
                    Py.bind acc (fun der0 =>
                    Py.bind (index data_n i) (fun a =>
                    Py.bind (index data_n (i - 1)) (fun b =>
                    Py.bind (index time_n i) (fun ta =>
                    Py.bind (index time_n (i - 1)) (fun tb =>
                    setitem der0 i ((a - b) / (ta - tb))%Q))))))
                 indices (Ok acc) = Ok der' /\
               length der' = length der /\
               forall d rest, der = d :: rest -> exists rest', der' = d :: rest').
  { induction indices as [|i indices IH]; intros acc Hlen Hhead.
    - exists acc. auto.
    - cbn [fold_left Py.bind].
      assert (Hi : 1 - Z.of_nat (length der) <= i <= -1)
        by (apply Hindices; left; reflexivity).
      destruct (index_in_range data_n i ltac:(lia)) as (a & ->).
      destruct (index_in_range data_n (i - 1) ltac:(lia)) as (b & ->).
      destruct (index_in_range time_n i ltac:(lia)) as (ta & ->).
      destruct (index_in_range time_n (i - 1) ltac:(lia)) as (tb & ->).
      cbn [Py.bind].
      destruct (setitem_behind_head acc i ((a - b) / (ta - tb))%Q ltac:(lia))
        as (acc' & -> & Hlen' & Hhead').
      apply IH.
      + intros i' Hi'. apply Hindices. right. exact Hi'.
      + lia.
      + intros d rest Hder. destruct (Hhead d rest Hder) as (rest' & Hacc).
        exact (Hhead' d rest' Hacc). }
  apply Hgen; [reflexivity|eauto].
Qed.

(** [endApproachStage] when no stage follows or the stop is forced. *)
Lemma endApproachStage_stops (end_all : bool) (s : state) :
  is_axis (z s) = Ok tt ->
  (stage s + 1 <? approach_stages (av s)) && negb end_all = false ->
  endApproachStage end_all s
  = (mkState (av s) (z s) (daq_dev s) (chan s) (data s) (der_arr s) (consec s)
             (stage s) (steps s) (anc_freq s)
             (match read_task s with
              | Some (t, _) => Some (t, false)
              | None => None
              end)
             false true NotRunning
             (if end_all then "Approach stopped" else "Approach complete")
             (trace s ++ [ThreadTerminate; Anc (Stop (z s)); TimerStop]
                ++ match read_task s with
                   | Some (t, true) => [Daq (CloseTask (task_name t))]
                   | _ => []
                   end),
     Ok tt).
Proof.
  intros Haxis Hlast.
  unfold endApproachStage, thread_terminate, stop_axis, query, close_task,
    emit, modify, gets, lift, mbind, ret,
    set_start_enabled, set_doc, set_read_task, set_trace, set_timer_active,
    set_thread.
  cbn. rewrite Haxis. cbn. rewrite Hlast.
  destruct (read_task s) as [[t [|]]|]; destruct end_all; cbn;
    rewrite <- ?app_assoc; reflexivity.
Qed.

Lemma endApproachStage_continues (s : state) :
  is_axis (z s) = Ok tt ->
  (stage s + 1 <? approach_stages (av s)) = true ->
  endApproachStage false s
  = (mkState (av s) (z s) (daq_dev s) (chan s) (data s) (der_arr s) (consec s)
             (stage s) (steps s) (anc_freq s) (read_task s)
             (timer_active s) (start_enabled s) Started (doc s)
             (trace s ++ [ThreadTerminate; Anc (Stop (z s)); ThreadStart]),
     Ok tt).
Proof.
  intros Haxis Hmore.
  unfold endApproachStage, thread_terminate, thread_start, stop_axis, query,
    emit, modify, gets, lift, mbind, ret, set_trace, set_thread.
  cbn. rewrite Haxis. cbn. rewrite Hmore. cbn.
  rewrite <- ?app_assoc. reflexivity.
Qed.

Lemma endApproachStage_bad_axis (end_all : bool) (s : state) (e : exn) :
  is_axis (z s) = Raise e ->
  endApproachStage end_all s
  = (set_thread NotRunning (set_trace (trace s ++ [ThreadTerminate]) s), Raise e).
Proof.
  intros Haxis.
  unfold endApproachStage, thread_terminate, stop_axis, query,
    emit, modify, gets, lift, mbind, ret, set_trace, set_thread.
  cbn. rewrite Haxis. reflexivity.
Qed.

(** *** Acquisition *)

Lemma np_size_zero (ts vs : list Q) :
  np_size [ts; vs] = 0%nat -> ts = [] /\ vs = [].
Proof.
  cbn. destruct ts, vs; cbn; intros H; try discriminate; try lia; auto.
Qed.

Lemma np_zeros_length (n : nat) : length (np_zeros n) = n.
Proof. apply repeat_length. Qed.

(** [__acquireData] touches nothing but the samples and the trace, keeps the
    sample store well formed, and leaves the derivative of the first sample
    of the run at zero; this also when it raises. *)
Lemma acquireData_post (data_n : list Q) (s : state) :
  post (acquireData data_n) s
    (fun s' _ =>
       acquired s s' /\
       (samples_ok s -> first_derivative_zero s ->
        samples_ok s' /\ first_derivative_zero s')).
Proof.
  unfold acquireData.
  repeat wp_step; simpl_state.
  all: (split;
        [ unfold acquired; simpl_state; repeat (split; [reflexivity|]);
          first [ exists []; rewrite app_nil_r; split; [reflexivity|intros ? []]
                | eexists [_]; split; [reflexivity|]; intros ? [<-|[]]; eauto ]
        | ]).
  all: try (intros Hok Hzero; split; [exact Hok|exact Hzero]).
  all: try discriminate.
  all: assert (Hlin : length a = length data_n)
    by (apply Nat2Z.inj; exact (linspace_length _ _ _ _ Heqr)).
  - (* the first chunk of the run *)
    intros (ts & vs & Hdata & Hts & Hvs) Hzero.
    apply Nat.eqb_eq in Heqb0. rewrite Hdata in Heqb0.
    destruct (np_size_zero _ _ Heqb0) as [-> ->]. cbn [length] in Hts.
    destruct (der_arr s) as [|d0 rest0] eqn:Hder; [|discriminate].
    destruct (derivatives_within_ok data_n (map (fun x => (x * a0)%Q) a)
                (np_zeros (length data_n)))
      as (der' & Hd & Hlen & Hhead);
      [now rewrite np_zeros_length|now rewrite length_map, np_zeros_length|].
    rewrite Heqr1 in Hd. injection Hd as <-. rewrite np_zeros_length in Hlen.
    split.
    + exists (map (fun x => (x * a0)%Q) a), data_n. simpl_state.
      rewrite Hdata. cbn [np_append1 app]. rewrite length_map.
      repeat split; congruence.
    + intros d rest. simpl_state. cbn [app]. intros Ha1.
      destruct data_n as [|x data_n]; [subst a1; discriminate|].
      destruct (Hhead 0%Q (repeat 0%Q (length data_n)) eq_refl) as (rest' & E).
      congruence.
  - exfalso.
    destruct (derivatives_within_ok data_n (map (fun x => (x * a0)%Q) a)
                (np_zeros (length data_n)))
      as (der' & Hd & _);
      [now rewrite np_zeros_length|now rewrite length_map, np_zeros_length|].
    congruence.
  - (* a later chunk *)
    intros (ts & vs & Hdata & Hts & Hvs) Hzero.
    apply Nat.eqb_neq in Heqb0. rewrite Hdata in Heqb0. cbn in Heqb0.
    destruct (der_arr s) as [|d0 rest0] eqn:Hder; [cbn in Hts, Hvs; lia|].
    destruct (setitem_head _ _ _ Heqr6) as (z0 & rest & Hzeros & ->).
    assert (Hlen6 : length (((a2 - a3) / (a4 - a1))%Q :: rest) = length data_n).
    { cbn [length]. rewrite <- (np_zeros_length (length data_n)), Hzeros.
      reflexivity. }
    destruct (derivatives_within_ok data_n (map (fun x => (x * a0 + a1)%Q) a)
                (((a2 - a3) / (a4 - a1))%Q :: rest))
      as (der' & Hd & Hlen & _);
      [now rewrite Hlen6|now rewrite length_map, Hlen6|].
    rewrite Heqr7 in Hd. injection Hd as <-. rewrite Hlen6 in Hlen.
    split.
    + exists (ts ++ map (fun x => (x * a0 + a1)%Q) a), (vs ++ data_n). simpl_state.
      rewrite Hdata. cbn [np_append1]. rewrite !length_app, length_map.
      cbn [length] in *. repeat split; lia.
    + intros d rest'. simpl_state. cbn [app]. intros [= <- _].
      exact (Hzero d0 rest0 Hder).
  - exfalso.
    destruct (setitem_head _ _ _ Heqr6) as (z0 & rest & Hzeros & ->).
    assert (Hlen6 : length (((a2 - a3) / (a4 - a1))%Q :: rest) = length data_n).
    { cbn [length]. rewrite <- (np_zeros_length (length data_n)), Hzeros.
      reflexivity. }
    destruct (derivatives_within_ok data_n (map (fun x => (x * a0 + a1)%Q) a)
                (((a2 - a3) / (a4 - a1))%Q :: rest))
      as (der' & Hd & _);
      [now rewrite Hlen6|now rewrite length_map, Hlen6|].
    congruence.
Qed.

(** *** Stage changes *)

Lemma endApproachStage_post (end_all : bool) (s : state) :
  post (endApproachStage end_all) s
    (fun s' _ =>
       kept s s' /\ consec s' = consec s /\ stage s' = stage s /\
       ((thread s' = NotRunning /\ start_enabled s' = start_enabled s /\
         timer_active s' = timer_active s) \/
        (thread s' = Started /\ end_all = false /\
         start_enabled s' = start_enabled s /\
         timer_active s' = timer_active s) \/
        (thread s' = NotRunning /\ timer_active s' = false))).
Proof.
  unfold endApproachStage, thread_terminate, thread_start, stop_axis, query,
    close_task.
  repeat wp_step; unfold kept; simpl_state.
  all: try (destruct end_all; [rewrite andb_false_r in *; discriminate|]).
  all: repeat split; auto.
  all: tauto.
Qed.


Lemma post_thread_step (s : state) (Q : state -> result unit -> Prop) :
  post run_phase s
    (fun s' r => match r with
                 | Ok a => Q s' (Ok a)
                 | Raise e => Q (set_thread NotRunning s') (Raise e)
                 end) ->
  post thread_step s Q.
Proof.
  unfold post, thread_step. destruct (run_phase s) as [s' [[]|e]]; auto.
Qed.

Lemma thread_step_post (s : state) :
  post thread_step s
    (fun s' _ =>
       kept s s' /\ start_enabled s' = start_enabled s /\
       timer_active s' = timer_active s /\
       (thread s = NotRunning -> s' = s) /\
       (preparing s' -> preparing s /\ consec s' = consec s)).
Proof.
  apply post_thread_step.
  unfold run_phase, run_settle, nextStage, step_down_and_wait, step_down,
    writeSteps, step_up, write_volt, write_freq, query.
  repeat wp_step; unfold kept, preparing in *; simpl_state.
  all: repeat split; auto; try discriminate; try contradiction.
  all: try (rewrite Heqt; exact I).
Qed.

Lemma checkThreshold_post (s : state) :
  gated s -> timer_active s = true ->
  consec s <> consec_req (av s) ->
  post checkThreshold s (fun s' _ => kept s s' /\ gated s').
Proof.
  intros [HJ HK] Htimer Hne.
  assert (Hdisabled : start_enabled s = false).
  { destruct (start_enabled s); [|reflexivity].
    destruct (HK eq_refl) as [_ H]. congruence. }
  assert (Hidle : ~ preparing s) by (intros H; exact (Hne (HJ H))).
  assert (Hpc : thread s = NotRunning \/ thread s = Resuming).
  { unfold preparing in Hidle. destruct (thread s); auto; contradiction. }
  unfold checkThreshold.
  repeat wp_step.
  2: { eapply post_weaken; [apply endApproachStage_post|].
       cbv beta. unfold kept, gated, preparing. simpl_state.
       intros s' _ ((Hav & Hz & Hdata & Hder) & Hc & Hst & Hcases).
       apply Z.eqb_eq in Heqb.
       split; [repeat split; congruence|]. split.
       - destruct Hcases as [(Ht & _)|[(Ht & _)|(Ht & _)]]; rewrite Ht;
           intros; try contradiction. congruence.
       - intros He'.
         destruct Hcases as [(Ht & He & Htm)|[(Ht & _ & He & Htm)|(Ht & Htm)]];
           try congruence. auto. }
  all: unfold kept, gated, preparing in *; simpl_state.
  all: repeat split; auto; try congruence.
  all: destruct Hpc as [-> | ->]; try contradiction; try discriminate.
Qed.

Lemma dataLoop_post (data_n : list Q) (s : state) :
  gated s -> timer_active s = true ->
  post (dataLoop data_n) s
    (fun s' _ =>
       gated s' /\
       (samples_ok s -> first_derivative_zero s ->
        samples_ok s' /\ first_derivative_zero s')).
Proof.
  intros Hg Htimer. unfold dataLoop, updateApproachPlots.
  apply post_mbind. eapply post_weaken; [apply acquireData_post|].
  cbv beta. intros s1 r (Hacq & Hsamples).
  assert (Hg1 : gated s1 /\ timer_active s1 = true).
  { destruct Hacq as (Hav & _ & Hc & _ & Ht & Htm & He & _).
    unfold gated, preparing in *. rewrite Hav, Hc, Ht, Htm, He. auto. }
  destruct Hg1 as [Hg1 Htimer1].
  destruct r as [[]|e]; [|auto].
  repeat wp_step; auto.
  eapply post_weaken; [apply checkThreshold_post; auto|].
  - apply negb_true_iff, Z.eqb_neq in Heqb. exact Heqb.
  - cbv beta. intros s' _ ((Hav & Hz & Hdata & Hder) & Hg').
    split; [exact Hg'|]. intros Hok Hzero.
    destruct (Hsamples Hok Hzero) as [Hok1 Hzero1].
    unfold samples_ok, first_derivative_zero in *. rewrite Hdata, Hder. auto.
Qed.

Lemma post_daq_do {A : Type} (c : Hw A) (s : state)
      (Q : state -> result A -> Prop) :
  (forall served r, Q (set_trace (trace s ++ map Daq served) s) r) ->
  post (daq_do c) s Q.
Proof.
  intros H. unfold post, daq_do. destruct (c []) as [served r]. apply H.
Qed.

Lemma startApproach_post (w : widgets) (s : state) :
  thread s = NotRunning ->
  post (startApproach w) s
    (fun s' _ =>
       gated s' /\
       (samples_ok s -> first_derivative_zero s ->
        samples_ok s' /\ first_derivative_zero s')).
Proof.
  intros Hidle.
  unfold startApproach, snapshot, write_mode, query, dumpData, thread_start.
  repeat first [ wp_step | apply post_daq_do; intros ? [?|?]; cbv beta iota ].
  all: unfold gated, preparing, samples_ok, first_derivative_zero in *;
    simpl_state.
  all: try rewrite Hidle.
  all: split; [split; [try contradiction; auto|discriminate]|].
  all: try (intros Hok Hzero; split; [exact Hok|exact Hzero]).
  all: intros _ _; split; [exists [], []; auto|intros ? ? [=]].
Qed.

(** Every event keeps the check gated and the sample store well formed. *)
Lemma deliver_invariant (ev : event) (s : state) :
  gated s -> samples_ok s -> first_derivative_zero s ->
  gated (deliver s ev) /\ samples_ok (deliver s ev) /\
  first_derivative_zero (deliver s ev).
Proof.
  intros Hg Hok Hzero. unfold deliver.
  assert (Hpost : post (handle ev) s
            (fun s' _ => gated s' /\ samples_ok s' /\ first_derivative_zero s'));
    [|exact Hpost].
  destruct ev as [data_n| | |w]; unfold handle.
  - repeat wp_step; auto.
    eapply post_weaken; [apply dataLoop_post; auto|].
    cbv beta. intros s' _ (Hg' & Hs). destruct (Hs Hok Hzero). auto.
  - eapply post_weaken; [apply thread_step_post|].
    cbv beta.
    intros s' _ ((Hav & Hz & Hdata & Hder) & He & Htm & Hsame & Hprep).
    unfold gated, samples_ok, first_derivative_zero in *.
    rewrite Hdata, Hder, Hav, He, Htm.
    destruct Hg as [HJ HK]. repeat split; auto.
    + intros Hp. destruct (Hprep Hp) as [Hp0 ->]. auto.
    + destruct (HK H) as [Ht _]. rewrite (Hsame Ht). exact Ht.
    + destruct (HK H) as [_ Ht]. exact Ht.
  - eapply post_weaken; [apply endApproachStage_post|].
    cbv beta.
    intros s' _ ((Hav & Hz & Hdata & Hder) & Hc & Hst & Hcases).
    unfold gated, preparing, samples_ok, first_derivative_zero in *.
    rewrite Hdata, Hder. repeat split; auto.
    + destruct Hcases as [(Ht & _)|[(Ht & Hb & _)|(Ht & _)]];
        try discriminate; rewrite Ht; contradiction.
    + destruct Hcases as [(Ht & _)|[(Ht & Hb & _)|(Ht & _)]];
        try discriminate; exact Ht.
    + destruct Hg as [_ HK].
      destruct Hcases as [(Ht & He & Htm)|[(Ht & Hb & _)|(Ht & Htm)]];
        try discriminate; [|exact Htm].
      rewrite Htm. apply HK. congruence.
  - repeat wp_step; auto.
    eapply post_weaken; [apply startApproach_post|].
    + destruct Hg as [_ HK]. apply HK. exact Heqb.
    + cbv beta. intros s' _ (Hg' & Hs). destruct (Hs Hok Hzero). auto.
Qed.

Lemma run_events_invariant (evs : list event) (s : state) :
  gated s -> samples_ok s -> first_derivative_zero s ->
  gated (run_events evs s) /\ samples_ok (run_events evs s) /\
  first_derivative_zero (run_events evs s).
Proof.
  revert s. induction evs as [|ev evs IH]; intros s Hg Hok Hzero;
    cbn [run_events fold_left]; [auto|].
  destruct (deliver_invariant ev s Hg Hok Hzero) as (Hg' & Hok' & Hzero').
  apply IH; assumption.
Qed.

Lemma init_invariant (axis : Z) (dev : string) (channels : list string) :
  gated (init axis dev channels) /\ samples_ok (init axis dev channels) /\
  first_derivative_zero (init axis dev channels).
Proof.
  unfold gated, preparing, samples_ok, first_derivative_zero, init. cbn.
  repeat split; auto; try contradiction.
  - exists [], []. auto.
  - intros ? ? [=].
Qed.

End ApproachFacts.

(** ** The approach: the claims *)

Section ApproachClaims.
Import Py NIpci6036E ANC150 Approach Samples SpecWords.
Local Open Scope approach_scope.

Lemma effects_since_app (s s' : state) (ext : list effect) :
  trace s' = trace s ++ ext -> effects_since s s' = ext.
Proof.
  intros H. unfold effects_since. rewrite H, skipn_app, skipn_all, Nat.sub_diag.
  reflexivity.
Qed.

Lemma post_result {A : Type} (c : M A) (s s' : state) (r : result A)
      (Q : state -> result A -> Prop) :
  post c s Q -> c s = (s', r) -> Q s' r.
Proof. unfold post. intros H E. rewrite E in H. exact H. Qed.

(** A stage end that succeeds stops the axis and leaves the counter. *)
Lemma endApproachStage_effects (end_all : bool) (s : state) :
  post (endApproachStage end_all) s
    (fun s' r =>
       r = Ok tt ->
       kept s s' /\ consec s' = consec s /\ stage s' = stage s /\
       exists rest, trace s' = trace s ++ ThreadTerminate :: Anc (Stop (z s)) :: rest).
Proof.
  unfold endApproachStage, thread_terminate, thread_start, stop_axis, query,
    close_task.
  repeat wp_step; unfold kept; simpl_state.
  all: intros Hr; try discriminate.
  all: repeat split; auto.
  all: rewrite <- ?app_assoc; cbn [app]; eauto.
Qed.

Lemma checkThreshold_effects (s : state) :
  0 < consec_req (av s) ->
  post checkThreshold s
    (fun s' r =>
       r = Ok tt ->
       kept s s' /\
       exists d thr,
         index (der_arr s) (-1) = Ok d /\
         index (threshold (av s)) (stage s) = Ok thr /\
         ((d < thr)%Q /\ consec s' = consec s + 1 \/
          ~ (d < thr)%Q /\ consec s' = 0) /\
         (trace s' = trace s /\ consec s' <> consec_req (av s) \/
          (exists rest,
             trace s' = trace s ++ ThreadTerminate :: Anc (Stop (z s)) :: rest) /\
          consec s' = consec_req (av s))).
Proof.
  intros Hreq. unfold checkThreshold.
  repeat wp_step.
  2: { eapply post_weaken; [apply endApproachStage_effects|].
       cbv beta. unfold kept. simpl_state.
       intros s' r H Hr. destruct (H Hr) as ((Hav & Hz & Hdata & Hder) & Hc & Hst & Htr).
       apply Z.eqb_eq in Heqb. apply Qlt_alt in Heqc.
       split; [auto|]. exists a, a0. repeat split; auto.
       right. split; [exact Htr|congruence]. }
  all: unfold kept; simpl_state; intros Hr; try discriminate.
  all: split; [auto|]; exists a, a0;
    split; [reflexivity|split; [reflexivity|split]].
  all: try (apply Z.eqb_neq in Heqb).
  all: first
         [ left; split; [apply Qlt_alt; assumption|reflexivity]
         | right; split; [rewrite Qlt_alt; congruence|reflexivity]
         | left; split; [reflexivity|first [assumption|lia]] ].
Qed.

(** While the counter stands at [consec_req], the data loop only
    acquires. *)
Lemma dataLoop_gated_off (data_n : list Q) (s : state) :
  consec s = consec_req (av s) -> dataLoop data_n s = acquireData data_n s.
Proof.
  intros Hc. unfold dataLoop, updateApproachPlots, mbind.
  pose proof (acquireData_post data_n s) as H. unfold post in H.
  destruct (acquireData data_n s) as [s1 [[]|e]]; [|reflexivity].
  destruct H as ((Hav & _ & Hc1 & _) & _). cbn [fst] in *.
  unfold gets. rewrite Hc1, Hav, Hc, Z.eqb_refl. reflexivity.
Qed.

(** C1 (as stated, refuted): stage 1 runs with a threshold of -0.5 and three
    hits required.  Three ticks deliver five samples whose derivatives are
    0, -50, 0, -50, -50: no three qualifying samples in a row, and a counter
    kept per sample never passes 2.  The code counts the last sample of each
    tick only, reaches 3 and ends the stage. *)
Lemma counter_follows_ticks_not_samples :
  map Qred (der_arr (run_events [Tick [0; -1]; Tick [-1; -2]; Tick [-3]]%Q
                       stage1_running))
  = [0; -50; 0; -50; -50]%Q /\
  index (threshold (av stage1_running)) (stage stage1_running) = Ok (-1 # 2)%Q /\
  consec_req (av stage1_running) = 3 /\
  consec stage1_running = 0 /\
  forallb
    (fun k =>
       counter_per_sample (-1 # 2) 0
         (firstn k (der_arr (run_events [Tick [0; -1]; Tick [-1; -2]; Tick [-3]]%Q
                              stage1_running))) <? 3)
    (seq 0 6) = true /\
  consec (run_events [Tick [0; -1]; Tick [-1; -2]; Tick [-3]]%Q stage1_running) = 3 /\
  effects_since stage1_running
    (run_events [Tick [0; -1]; Tick [-1; -2]; Tick [-3]]%Q stage1_running)
  = [Daq (ReadAllAvailable "read"); Daq (ReadAllAvailable "read");
     Daq (ReadAllAvailable "read"); ThreadTerminate; Anc (Stop 3); ThreadStart].
Proof. vm_compute. repeat split; reflexivity. Qed.

(** C1 (amended): on every tick of the data loop on which the check runs,
    the counter is updated once, from the latest derivative entry alone: up
    by one if that entry is below the threshold of the stage, back to zero
    if not; and the stage is ended (the axis is stopped) on that tick if and
    only if the counter has then reached [consec_req].  Samples that are not
    the last of what a tick acquires have no influence on the counter. *)
Theorem counter_updated_once_per_tick (data_n : list Q) (s s' : state) :
  0 < consec_req (av s) ->
  consec s <> consec_req (av s) ->
  dataLoop data_n s = (s', Ok tt) ->
  exists d thr,
    index (der_arr s') (-1) = Ok d /\
    index (threshold (av s)) (stage s) = Ok thr /\
    ((d < thr)%Q /\ consec s' = consec s + 1 \/
     ~ (d < thr)%Q /\ consec s' = 0) /\
    (In (Anc (Stop (z s))) (effects_since s s') <->
     consec s' = consec_req (av s)).
Proof.
  intros Hreq Hne Hloop. unfold dataLoop, updateApproachPlots, mbind in Hloop.
  pose proof (acquireData_post data_n s) as Hacq. unfold post in Hacq.
  destruct (acquireData data_n s) as [s1 [[]|e]]; [|discriminate].
  cbn [fst snd] in Hacq.
  destruct Hacq as ((Hav & Hz & Hc & Hst & _ & _ & _ & _ & _ & reads & Htr & Hreads) & _).
  unfold gets in Hloop.
  destruct (negb (consec s1 =? consec_req (av s1))) eqn:Hcheck.
  2: { apply negb_false_iff, Z.eqb_eq in Hcheck. congruence. }
  pose proof (post_result _ _ _ _ _ (checkThreshold_effects s1 ltac:(congruence)) Hloop eq_refl)
    as ((_ & _ & _ & Hder) & d & thr & Hd & Hthr & Hcount & Hfire).
  exists d, thr. rewrite Hder, <- Hav, <- Hst, <- Hc, <- Hz.
  repeat split; auto.
  - intros Hin. destruct Hfire as [[Htr' Hne']|[_ Heq]]; [|exact Heq].
    rewrite (effects_since_app s s' reads) in Hin by congruence.
    destruct (Hreads _ Hin) as (t & Ht). discriminate.
  - intros Heq. destruct Hfire as [[_ Hne']|[(rest & Htr') _]]; [contradiction|].
    rewrite (effects_since_app s s' (reads ++ ThreadTerminate :: Anc (Stop (z s1)) :: rest)).
    + apply in_or_app. right. right. left. reflexivity.
    + rewrite Htr', Htr, <- app_assoc. reflexivity.
Qed.

Lemma counter_updated_once_per_tick_witness :
  0 < consec_req (av stage1_running) /\
  consec stage1_running <> consec_req (av stage1_running) /\
  dataLoop [0; -1]%Q stage1_running
  = (fst (dataLoop [0; -1]%Q stage1_running), Ok tt) /\
  exists d thr,
    index (der_arr (fst (dataLoop [0; -1]%Q stage1_running))) (-1) = Ok d /\
    index (threshold (av stage1_running)) (stage stage1_running) = Ok thr /\
    ((d < thr)%Q /\
     consec (fst (dataLoop [0; -1]%Q stage1_running)) = consec stage1_running + 1 \/
     ~ (d < thr)%Q /\ consec (fst (dataLoop [0; -1]%Q stage1_running)) = 0) /\
    (In (Anc (Stop (z stage1_running)))
        (effects_since stage1_running (fst (dataLoop [0; -1]%Q stage1_running))) <->
     consec (fst (dataLoop [0; -1]%Q stage1_running))
     = consec_req (av stage1_running)).
Proof.
  assert (H1 : 0 < consec_req (av stage1_running)) by (vm_compute; reflexivity).
  assert (H2 : consec stage1_running <> consec_req (av stage1_running))
    by (vm_compute; discriminate).
  assert (H3 : dataLoop [0; -1]%Q stage1_running
               = (fst (dataLoop [0; -1]%Q stage1_running), Ok tt))
    by (vm_compute; reflexivity).
  split; [exact H1|split; [exact H2|split; [exact H3|]]].
  exact (counter_updated_once_per_tick [0; -1]%Q stage1_running
           (fst (dataLoop [0; -1]%Q stage1_running)) H1 H2 H3).
Defined.

(** *** C9 *)

Lemma startApproach_sets_counter (w : widgets) (s : state) :
  post (startApproach w) s
    (fun s' r => r = Ok tt ->
                 consec s' = consec_req (av s') /\ stage s' = -1).
Proof.
  unfold startApproach, snapshot, write_mode, query, dumpData, thread_start.
  repeat first [ wp_step | apply post_daq_do; intros ? [?|?]; cbv beta iota ].
  all: simpl_state; intros Hr; try discriminate; auto.
Qed.

(** The thread gets to its stabilised state only by the step that writes
    the settings of the next stage and sleeps. *)
Lemma thread_step_stabilising (s : state) :
  post thread_step s
    (fun s' r =>
       thread s' = Stabilising ->
       r = Ok tt /\
       ((thread s = Started /\ stage s = -1) \/ thread s = BackingOff) /\
       exists v f,
         index (voltages (av s)) (stage s + 1) = Ok v /\
         index (frequencies (av s)) (stage s + 1) = Ok f /\
         effects_since s s'
         = [Anc (Setv (z s) v); Anc (Setf (z s) f); Sleep 5] /\
         consec s' = consec s /\ stage s' = stage s + 1).
Proof.
  apply post_thread_step.
  unfold run_phase, run_settle, nextStage, step_down_and_wait, step_down,
    writeSteps, step_up, write_volt, write_freq, query.
  repeat wp_step; simpl_state; intros Hth; try discriminate; try congruence.
  all: split; [reflexivity|].
  all: split;
    [first [right; reflexivity
           |left; split; [reflexivity|];
            match goal with
            | H : negb (_ =? -1) = false |- _ =>
                apply negb_false_iff, Z.eqb_eq in H; exact H
            end]|].
  all: do 2 eexists; repeat split; try eassumption.
  all: apply effects_since_app; simpl_state; rewrite <- !app_assoc; reflexivity.
Qed.

(** The step after the sleep sets the counter to zero and does nothing
    else; no other step of the thread changes the counter. *)
Lemma thread_step_resets (s : state) :
  (thread s = Stabilising ->
   thread_step s = (set_thread Resuming (set_consec 0 s), Ok tt)) /\
  (thread s <> Stabilising -> consec (fst (thread_step s)) = consec s).
Proof.
  split.
  - intros H. unfold thread_step, run_phase, mbind, gets, modify.
    rewrite H. reflexivity.
  - intros H.
    assert (Hpost : post thread_step s (fun s' _ => consec s' = consec s));
      [|exact Hpost].
    apply post_thread_step.
    unfold run_phase, run_settle, nextStage, step_down_and_wait, step_down,
      writeSteps, step_up, write_volt, write_freq, query.
    repeat wp_step; simpl_state; congruence.
Qed.

(** C9: a successful [__startApproach] leaves the counter at [consec_req].
    The stage thread gets to its stabilised state only by a step that has
    written the voltage and the frequency of the next stage and then slept
    for five seconds, the counter untouched; the step after that sleep sets
    the counter to zero and does nothing else, and no other step of the
    thread changes the counter.  In every state that events can lead to from
    a new object, while the thread is started, backing off or stabilising,
    the counter equals [consec_req], so that a tick of the data timer
    acquires data and does nothing else: no stage is ended. *)
Theorem threshold_check_gated_while_preparing :
  (forall w s s',
     startApproach w s = (s', Ok tt) ->
     consec s' = consec_req (av s') /\ stage s' = -1) /\
  (forall s,
     thread (fst (thread_step s)) = Stabilising ->
     snd (thread_step s) = Ok tt /\
     ((thread s = Started /\ stage s = -1) \/ thread s = BackingOff) /\
     exists v f,
       index (voltages (av s)) (stage s + 1) = Ok v /\
       index (frequencies (av s)) (stage s + 1) = Ok f /\
       effects_since s (fst (thread_step s))
       = [Anc (Setv (z s) v); Anc (Setf (z s) f); Sleep 5] /\
       consec (fst (thread_step s)) = consec s /\
       stage (fst (thread_step s)) = stage s + 1) /\
  (forall s,
     (thread s = Stabilising ->
      thread_step s = (set_thread Resuming (set_consec 0 s), Ok tt)) /\
     (thread s <> Stabilising ->
      consec (fst (thread_step s)) = consec s)) /\
  (forall evs axis dev channels data_n,
     preparing (run_events evs (init axis dev channels)) ->
     consec (run_events evs (init axis dev channels))
     = consec_req (av (run_events evs (init axis dev channels))) /\
     handle (Tick data_n) (run_events evs (init axis dev channels))
     = (if timer_active (run_events evs (init axis dev channels))
        then acquireData data_n (run_events evs (init axis dev channels))
        else (run_events evs (init axis dev channels), Ok tt)) /\
     thread (deliver (run_events evs (init axis dev channels)) (Tick data_n))
     = thread (run_events evs (init axis dev channels)) /\
     stage (deliver (run_events evs (init axis dev channels)) (Tick data_n))
     = stage (run_events evs (init axis dev channels)) /\
     forall e,
       In e (effects_since (run_events evs (init axis dev channels))
               (deliver (run_events evs (init axis dev channels)) (Tick data_n))) ->
       exists t, e = Daq (ReadAllAvailable t)).
Proof.
  split; [|split; [|split]].
  - intros w s s' H.
    exact (post_result _ _ _ _ _ (startApproach_sets_counter w s) H eq_refl).
  - intros s. exact (thread_step_stabilising s).
  - intros s. exact (thread_step_resets s).
  - intros evs axis dev channels data_n.
    set (s := run_events evs (init axis dev channels)). intros Hprep.
    destruct (init_invariant axis dev channels) as (Hg0 & Hok0 & Hz0).
    destruct (run_events_invariant evs _ Hg0 Hok0 Hz0) as ((HJ & _) & _ & _).
    fold s in HJ. pose proof (HJ Hprep) as Hc.
    assert (Hhandle : handle (Tick data_n) s
                      = (if timer_active s then acquireData data_n s else (s, Ok tt))).
    { unfold handle, mbind, gets. destruct (timer_active s); [|reflexivity].
      apply dataLoop_gated_off. exact Hc. }
    split; [exact Hc|]. split; [exact Hhandle|].
    unfold deliver. rewrite Hhandle.
    destruct (timer_active s).
    + pose proof (acquireData_post data_n s) as Hacq. unfold post in Hacq.
      destruct Hacq as ((_ & _ & _ & Hst & Ht & _ & _ & _ & _ & reads & Htr & Hreads) & _).
      split; [exact Ht|]. split; [exact Hst|].
      intros e He. rewrite (effects_since_app _ _ _ Htr) in He. auto.
    + cbn [fst]. split; [reflexivity|]. split; [reflexivity|].
      intros e He. rewrite (effects_since_app s s []) in He
        by (now rewrite app_nil_r). destruct He.
Qed.

(** The start button was released and the thread runs once: it writes
    12 V and 200 Hz for stage 1 and is in its stabilisation sleep, the
    counter still at [consec_req]; a tick then brings three samples. *)
Lemma threshold_check_gated_while_preparing_witness :
  thread (fst (thread_step
                 (run_events [StartButton two_stage_widgets]
                    (init 3 "Dev1" ["ai0"%string]))))
  = Stabilising /\
  snd (thread_step
         (run_events [StartButton two_stage_widgets]
            (init 3 "Dev1" ["ai0"%string])))
  = Ok tt /\
  effects_since
    (run_events [StartButton two_stage_widgets] (init 3 "Dev1" ["ai0"%string]))
    (fst (thread_step
            (run_events [StartButton two_stage_widgets]
               (init 3 "Dev1" ["ai0"%string]))))
  = [Anc (Setv 3 12); Anc (Setf 3 200); Sleep 5] /\
  preparing (run_events [StartButton two_stage_widgets; ThreadRuns]
               (init 3 "Dev1" ["ai0"%string])) /\
  consec (run_events [StartButton two_stage_widgets; ThreadRuns]
            (init 3 "Dev1" ["ai0"%string]))
  = consec_req (av (run_events [StartButton two_stage_widgets; ThreadRuns]
                      (init 3 "Dev1" ["ai0"%string]))) /\
  thread (deliver (run_events [StartButton two_stage_widgets; ThreadRuns]
                     (init 3 "Dev1" ["ai0"%string]))
            (Tick [1; 2; 3]%Q))
  = thread (run_events [StartButton two_stage_widgets; ThreadRuns]
              (init 3 "Dev1" ["ai0"%string])).
Proof.
  assert (Hs : thread (fst (thread_step
                              (run_events [StartButton two_stage_widgets]
                                 (init 3 "Dev1" ["ai0"%string]))))
               = Stabilising) by (vm_compute; reflexivity).
  destruct (proj1 (proj2 threshold_check_gated_while_preparing) _ Hs)
    as (Hok & _).
  assert (H : preparing (run_events [StartButton two_stage_widgets; ThreadRuns]
                           (init 3 "Dev1" ["ai0"%string])))
    by (vm_compute; exact I).
  pose proof (proj2 (proj2 (proj2 threshold_check_gated_while_preparing))
                [StartButton two_stage_widgets; ThreadRuns] 3 "Dev1"%string
                ["ai0"%string] [1; 2; 3]%Q H) as (Hc & _ & Ht & _).
  split; [exact Hs|split; [exact Hok|split; [vm_compute; reflexivity|]]].
  split; [exact H|split; [exact Hc|exact Ht]].
Defined.

(** *** C10 *)

(** C10: in every state that events can lead to from a new object, the
    derivative entry of the first sample of the run is the [0] it was
    allocated with; it is therefore not below any negative threshold, and a
    check made while the first sample is the latest one resets the counter
    instead of counting a hit. *)
Theorem first_sample_is_never_a_hit
  (evs : list event) (axis : Z) (dev : string) (channels : list string) :
  (forall d rest,
     der_arr (run_events evs (init axis dev channels)) = d :: rest -> d = 0%Q) /\
  (forall thr d rest,
     (thr < 0)%Q ->
     der_arr (run_events evs (init axis dev channels)) = d :: rest ->
     ~ (d < thr)%Q) /\
  (forall thr,
     (thr < 0)%Q ->
     length (der_arr (run_events evs (init axis dev channels))) = 1%nat ->
     index (threshold (av (run_events evs (init axis dev channels))))
           (stage (run_events evs (init axis dev channels))) = Ok thr ->
     checkThreshold (run_events evs (init axis dev channels))
     = (set_consec 0 (run_events evs (init axis dev channels)), Ok tt)).
Proof.
  destruct (init_invariant axis dev channels) as (Hg0 & Hok0 & Hz0).
  destruct (run_events_invariant evs _ Hg0 Hok0 Hz0) as (_ & _ & Hzero).
  set (s := run_events evs (init axis dev channels)) in *.
  split; [exact Hzero|]. split.
  - intros thr d rest Hthr Hder. rewrite (Hzero d rest Hder).
    apply Qle_not_lt, Qlt_le_weak. exact Hthr.
  - intros thr Hthr Hlen Hidx.
    destruct (der_arr s) as [|d [|d' rest]] eqn:Hder; try discriminate.
    pose proof (Hzero d [] Hder) as ->.
    assert (Hcmp : (0 ?= thr)%Q = Gt) by (apply Qgt_alt; exact Hthr).
    unfold checkThreshold, mbind, gets, lift, modify. cbv beta iota.
    rewrite Hder. change (index [0%Q] (-1)) with (@Ok Q 0%Q). cbv beta iota.
    rewrite Hidx. cbv beta iota. rewrite Hcmp. reflexivity.
Qed.

(** Stage 1 runs and the first tick brings a single sample. *)
Lemma first_sample_is_never_a_hit_witness :
  ((-1 # 2) < 0)%Q /\
  der_arr (run_events [StartButton two_stage_widgets; ThreadRuns; ThreadRuns;
                       ThreadRuns; Tick [5]%Q]
             (init 3 "Dev1" ["ai0"%string])) = [0%Q] /\
  ~ (0 < -1 # 2)%Q.
Proof.
  assert (H1 : ((-1 # 2) < 0)%Q) by reflexivity.
  assert (H2 : der_arr (run_events [StartButton two_stage_widgets; ThreadRuns;
                                    ThreadRuns; ThreadRuns; Tick [5]%Q]
                          (init 3 "Dev1" ["ai0"%string])) = [0%Q])
    by (vm_compute; reflexivity).
  split; [exact H1|split; [exact H2|]].
  exact (proj1 (proj2 (first_sample_is_never_a_hit
                         [StartButton two_stage_widgets; ThreadRuns; ThreadRuns;
                          ThreadRuns; Tick [5]%Q] 3 "Dev1"%string ["ai0"%string]))
           (-1 # 2)%Q 0%Q [] H1 H2).
Defined.

(** *** C2 *)

Lemma deliver_stopped (ev : event) (s : state) :
  stopped s -> is_axis (z s) = Ok tt ->
  (forall w, ev <> StartButton w) ->
  stopped (deliver s ev) /\ z (deliver s ev) = z s /\
  stage (deliver s ev) = stage s /\
  (doc s = "Approach stopped"%string -> doc (deliver s ev) = "Approach stopped"%string) /\
  exists ext,
    trace (deliver s ev) = trace s ++ ext /\ Forall (stop_effect (z s)) ext.
Proof.
  intros (Htimer & Hthread & Hclosed) Haxis Hev.
  assert (Hsame : stopped s /\ z s = z s /\ stage s = stage s /\
                  (doc s = "Approach stopped"%string -> doc s = "Approach stopped"%string) /\
                  exists ext, trace s = trace s ++ ext /\ Forall (stop_effect (z s)) ext).
  { split; [unfold stopped; auto|]. split; [reflexivity|].
    split; [reflexivity|]. split; [auto|].
    exists []. rewrite app_nil_r. auto. }
  destruct ev as [data_n| | |w]; unfold deliver.
  - unfold handle, mbind, gets. rewrite Htimer. exact Hsame.
  - unfold handle, thread_step, run_phase, mbind, gets. rewrite Hthread. exact Hsame.
  - unfold handle. rewrite (endApproachStage_stops true s Haxis)
      by (now rewrite andb_false_r).
    unfold stopped. simpl_state.
    split; [split; [reflexivity|split; [reflexivity|]]|].
    { intros t o. destruct (read_task s) as [[t' o']|]; [|discriminate].
      now intros [= _ <-]. }
    split; [reflexivity|]. split; [reflexivity|]. split; [reflexivity|].
    eexists. split; [reflexivity|].
    assert (Hnone : match read_task s with
                    | Some (t, true) => [Daq (CloseTask (task_name t))]
                    | _ => []
                    end = []).
    { destruct (read_task s) as [[t [|]]|] eqn:Hrt; try reflexivity.
      discriminate (Hclosed t true eq_refl). }
    rewrite Hnone. unfold stop_effect. cbn [app].
    repeat (apply Forall_cons; [tauto|]). apply Forall_nil.
  - destruct (Hev w eq_refl).
Qed.

Lemma run_events_stopped (evs : list event) (s : state) :
  stopped s -> is_axis (z s) = Ok tt ->
  (forall w, ~ In (StartButton w) evs) ->
  stopped (run_events evs s) /\ stage (run_events evs s) = stage s /\
  (doc s = "Approach stopped"%string ->
   doc (run_events evs s) = "Approach stopped"%string) /\
  exists ext,
    trace (run_events evs s) = trace s ++ ext /\ Forall (stop_effect (z s)) ext.
Proof.
  revert s. induction evs as [|ev evs IH]; intros s Hs Haxis Hev;
    cbn [run_events fold_left].
  - split; [exact Hs|]. split; [reflexivity|]. split; [auto|].
    exists []. rewrite app_nil_r. auto.
  - destruct (deliver_stopped ev s Hs Haxis) as (Hs1 & Hz1 & Hst1 & Hdoc1 & ext1 & Htr1 & Hext1).
    { intros w ->. apply (Hev w). left. reflexivity. }
    destruct (IH (deliver s ev) Hs1) as (Hs2 & Hst2 & Hdoc2 & ext2 & Htr2 & Hext2).
    { rewrite Hz1. exact Haxis. }
    { intros w Hin. apply (Hev w). right. exact Hin. }
    fold (run_events evs (deliver s ev)).
    split; [exact Hs2|]. split; [congruence|]. split; [auto|].
    exists (ext1 ++ ext2). rewrite Htr2, Htr1, app_assoc. split; [reflexivity|].
    apply Forall_app. rewrite Hz1 in Hext2. auto.
Qed.

(** C2: a forced stop during stage 1 of an approach in two stages, whatever
    the stage thread and the counter are doing, stops the axis at once,
    stops the data timer, closes the read task if it is open, reports
    'Approach stopped' (a normal end reports 'Approach complete') and starts
    no thread; and whatever events follow, short of a new start, the stage
    index stays at stage 1 and nothing is sent but further stops: no
    backoff steps and no settings of a second stage. *)
Theorem forced_stop_skips_remaining_stages (s : state) :
  stage s = 0 -> approach_stages (av s) = 2 -> 1 <= z s <= 3 ->
  snd (endApproachStage true s) = Ok tt /\
  effects_since s (fst (endApproachStage true s))
  = [ThreadTerminate; Anc (Stop (z s)); TimerStop]
      ++ match read_task s with
         | Some (t, true) => [Daq (CloseTask (task_name t))]
         | _ => []
         end /\
  thread (fst (endApproachStage true s)) = NotRunning /\
  timer_active (fst (endApproachStage true s)) = false /\
  (forall t o, read_task (fst (endApproachStage true s)) = Some (t, o) -> o = false) /\
  doc (fst (endApproachStage true s)) = "Approach stopped"%string /\
  (forall s2, 1 <= z s2 <= 3 ->
     (stage s2 + 1 <? approach_stages (av s2)) = false ->
     doc (fst (endApproachStage false s2)) = "Approach complete"%string) /\
  (forall evs,
     (forall w, ~ In (StartButton w) evs) ->
     stage (run_events evs (fst (endApproachStage true s))) = 0 /\
     thread (run_events evs (fst (endApproachStage true s))) = NotRunning /\
     timer_active (run_events evs (fst (endApproachStage true s))) = false /\
     doc (run_events evs (fst (endApproachStage true s))) = "Approach stopped"%string /\
     forall e,
       In e (effects_since (fst (endApproachStage true s))
               (run_events evs (fst (endApproachStage true s)))) ->
       e = ThreadTerminate \/ e = Anc (Stop (z s)) \/ e = TimerStop).
Proof.
  intros Hstage Hstages Hz.
  assert (Haxis : is_axis (z s) = Ok tt).
  { unfold is_axis, check.
    destruct (1 <=? z s) eqn:H1; [|apply Z.leb_gt in H1; lia].
    destruct (z s <=? 3) eqn:H2; [|apply Z.leb_gt in H2; lia]. reflexivity. }
  rewrite (endApproachStage_stops true s Haxis) by (now rewrite andb_false_r).
  cbn [fst snd]. simpl_state.
  split; [reflexivity|].
  split; [apply effects_since_app; reflexivity|].
  split; [reflexivity|]. split; [reflexivity|].
  assert (Hclosed : forall t o,
             match read_task s with
             | Some (t0, _) => Some (t0, false)
             | None => None
             end = Some (t, o) -> o = false).
  { intros t o. destruct (read_task s) as [[t' o']|]; [|discriminate].
    now intros [= _ <-]. }
  split; [exact Hclosed|]. split; [reflexivity|]. split.
  - intros s2 Hz2 Hlast.
    assert (Haxis2 : is_axis (z s2) = Ok tt).
    { unfold is_axis, check.
      destruct (1 <=? z s2) eqn:H1; [|apply Z.leb_gt in H1; lia].
      destruct (z s2 <=? 3) eqn:H2; [|apply Z.leb_gt in H2; lia]. reflexivity. }
    rewrite (endApproachStage_stops false s2 Haxis2) by (now rewrite Hlast).
    reflexivity.
  - intros evs Hevs.
    match goal with |- context [run_events evs ?st] => set (s' := st) end.
    destruct (run_events_stopped evs s') as ((Htm & Hth & _) & Hst & Hdoc & ext & Htr & Hext).
    + unfold stopped, s'. simpl_state. auto.
    + exact Haxis.
    + exact Hevs.
    + split; [rewrite Hst; exact Hstage|]. split; [exact Hth|].
      split; [exact Htm|]. split; [apply Hdoc; reflexivity|].
      intros e He. rewrite (effects_since_app _ _ _ Htr) in He.
      rewrite Forall_forall in Hext. exact (Hext e He).
Qed.

(** The stop button during stage 1 of the sample approach, then a tick,
    the thread and a second stop. *)
Lemma forced_stop_skips_remaining_stages_witness :
  stage stage1_running = 0 /\ approach_stages (av stage1_running) = 2 /\
  1 <= z stage1_running <= 3 /\
  snd (endApproachStage true stage1_running) = Ok tt /\
  doc (fst (endApproachStage true stage1_running)) = "Approach stopped"%string /\
  stage (run_events [Tick [1]%Q; ThreadRuns; StopButton]
           (fst (endApproachStage true stage1_running))) = 0.
Proof.
  assert (H1 : stage stage1_running = 0) by (vm_compute; reflexivity).
  assert (H2 : approach_stages (av stage1_running) = 2) by (vm_compute; reflexivity).
  assert (H3 : 1 <= z stage1_running <= 3) by (vm_compute; split; discriminate).
  assert (H4 : forall w, ~ In (StartButton w) [Tick [1]%Q; ThreadRuns; StopButton]).
  { intros w [H|[H|[H|[]]]]; discriminate. }
  pose proof (forced_stop_skips_remaining_stages stage1_running H1 H2 H3)
    as (Hok & _ & _ & _ & _ & Hdoc & _ & Hafter).
  destruct (Hafter _ H4) as (Hst & _).
  split; [exact H1|split; [exact H2|split; [exact H3|]]].
  split; [exact Hok|split; [exact Hdoc|exact Hst]].
Defined.

End ApproachClaims.

(** * Further properties of the code *)

(** ** The waveform stays in its region *)

Section RegionFacts.
Import Py Utils.

(** A fraction of a span lies within the span. *)
Lemma fraction_of_span (d : Q) (i m : Z) :
  0 <= i <= m -> 0 < m ->
  (Qmin 0 d <= inject_Z i * (d / inject_Z m) <= Qmax 0 d)%Q.
Proof.
  intros Hi Hm.
  assert (Hm' : (0 < inject_Z m)%Q)
    by (change 0%Q with (inject_Z 0); rewrite <- Zlt_Qlt; exact Hm).
  assert (Hi0 : (0 <= inject_Z i)%Q)
    by (change 0%Q with (inject_Z 0); rewrite <- Zle_Qle; lia).
  assert (Him : (inject_Z i <= inject_Z m)%Q) by (rewrite <- Zle_Qle; lia).
  set (t := (inject_Z i / inject_Z m)%Q).
  assert (Ht0 : (0 <= t)%Q).
  { unfold t. apply Qle_shift_div_l; [exact Hm'|]. lra. }
  assert (Ht1 : (t <= 1)%Q).
  { unfold t. apply Qle_shift_div_r; [exact Hm'|]. lra. }
  assert (E : (inject_Z i * (d / inject_Z m) == t * d)%Q).
  { unfold t. field. intros H. rewrite H in Hm'. lra. }
  rewrite E.
  destruct (Qlt_le_dec d 0) as [Hd|Hd].
  - rewrite (Q.min_r 0 d), (Q.max_l 0 d) by lra. nra.
  - rewrite (Q.min_l 0 d), (Q.max_r 0 d) by lra. nra.
Qed.

(** Every sample of a [linspace] lies between its two ends. *)
Lemma linspace_between (a b : Q) (num : Z) (l : list Q) :
  linspace a b num = Ok l ->
  forall y, In y l -> (Qmin a b <= y <= Qmax a b)%Q.
Proof.
  intros H y Hy.
  assert (Ha : (Qmin a b <= a <= Qmax a b)%Q)
    by (split; [apply Q.le_min_l|apply Q.le_max_l]).
  assert (Hb : (Qmin a b <= b <= Qmax a b)%Q)
    by (split; [apply Q.le_min_r|apply Q.le_max_r]).
  destruct (linspace_cases _ _ _ _ H) as [[_ ->]|[[_ ->]|[Hn ->]]].
  - destruct Hy.
  - destruct Hy as [<-|[]]. exact Ha.
  - apply in_app_or in Hy. destruct Hy as [Hy|[<-|[]]]; [|exact Hb].
    apply in_map_iff in Hy. destruct Hy as (i & <- & Hi).
    apply in_seq in Hi.
    pose proof (fraction_of_span (b - a) (Z.of_nat i) (num - 1)
                  ltac:(lia) ltac:(lia)) as [Hlo Hhi].
    destruct (Qlt_le_dec (b - a) 0) as [Hd|Hd].
    + rewrite (Q.min_r 0 (b - a)) in Hlo by lra.
      rewrite (Q.max_l 0 (b - a)) in Hhi by lra.
      rewrite (Q.min_r a b), (Q.max_l a b) by lra. lra.
    + rewrite (Q.min_l 0 (b - a)) in Hlo by lra.
      rewrite (Q.max_r 0 (b - a)) in Hhi by lra.
      rewrite (Q.min_l a b), (Q.max_r a b) by lra. lra.
Qed.

Lemma In_repeat_each {A : Type} (k : nat) (lin : list A) (y : A) :
  In y (flat_map (fun x => repeat x k) lin) -> In y lin.
Proof.
  intros H. apply in_flat_map in H. destruct H as (x & Hx & Hy).
  apply repeat_spec in Hy. now subst.
Qed.

Lemma stepData_between
  (lowervx uppervx : Q) (xsteps : Z) (lowervy uppervy : Q) (ysteps : Z)
  (settle data_rate : Q) (linx liny : list Q) :
  stepData lowervx uppervx xsteps lowervy uppervy ysteps settle data_rate
  = Ok (linx, liny) ->
  (forall v, In v linx -> (Qmin lowervx uppervx <= v <= Qmax lowervx uppervx)%Q) /\
  (forall v, In v liny -> (Qmin lowervy uppervy <= v <= Qmax lowervy uppervy)%Q).
Proof.
  intros H.
  destruct (stepData_value _ _ _ _ _ _ _ _ _ _ H) as (lin & Hlin & Hliny & _ & ->).
  split.
  - intros v Hv. apply (linspace_between _ _ _ _ Hlin).
    cbv zeta in Hv. apply in_app_or in Hv.
    destruct Hv as [Hv|Hv]; [|apply in_rev in Hv];
      exact (In_repeat_each _ _ _ Hv).
  - exact (linspace_between _ _ _ _ Hliny).
Qed.

End RegionFacts.

Section StepDataExtras.
Import Py Utils.

(** X1: whatever the region and the timing, every entry of the x waveform
    lies between [lowervx] and [uppervx] and every y value between
    [lowervy] and [uppervy]: the planned voltages never leave the region. *)
Theorem stepData_stays_in_region
  (lowervx uppervx : Q) (xsteps : Z) (lowervy uppervy : Q) (ysteps : Z)
  (settle data_rate : Q) (linx liny : list Q) :
  stepData lowervx uppervx xsteps lowervy uppervy ysteps settle data_rate
  = Ok (linx, liny) ->
  (forall v, In v linx -> (Qmin lowervx uppervx <= v <= Qmax lowervx uppervx)%Q) /\
  (forall v, In v liny -> (Qmin lowervy uppervy <= v <= Qmax lowervy uppervy)%Q).
Proof. exact (stepData_between _ _ _ _ _ _ _ _ linx liny). Qed.

Lemma stepData_stays_in_region_witness :
  stepData 0 1 2 0 1 2 1 1 = Ok ([0; 1; 1; 0], [0; 1])%Q /\
  forall v, In v [0; 1; 1; 0]%Q -> (Qmin 0 1 <= v <= Qmax 0 1)%Q.
Proof.
  assert (H : stepData 0 1 2 0 1 2 1 1 = Ok ([0; 1; 1; 0], [0; 1])%Q)
    by (vm_compute; reflexivity).
  split; [exact H|].
  exact (proj1 (stepData_stays_in_region 0 1 2 0 1 2 1 1 _ _ H)).
Defined.

Lemma div_last_block (n k : nat) :
  (0 < n)%nat -> (0 < k)%nat -> ((n * k - 1) / k = n - 1)%nat.
Proof.
  intros Hn Hk. symmetry. apply (Nat.div_unique _ _ _ (k - 1)); nia.
Qed.

(** X2: with at least two x steps and a repeat count
    [int(settle * data_rate)], the float product cut to a whole number, of at
    least one, a row is its own reverse: it starts at [lowervx], reaches
    [uppervx] at the end of its first half, starts the second half there and
    ends at [lowervx] again; a half has [xsteps] times the repeat count
    entries. *)
Theorem stepData_row_returns_to_start
  (lowervx uppervx : Q) (xsteps : Z) (lowervy uppervy : Q) (ysteps : Z)
  (settle data_rate : Q) (linx liny : list Q) :
  2 <= xsteps -> 1 <= repeat_count settle data_rate ->
  stepData lowervx uppervx xsteps lowervy uppervy ysteps settle data_rate
  = Ok (linx, liny) ->
  let half := (Z.to_nat xsteps * Z.to_nat (repeat_count settle data_rate))%nat in
  rev linx = linx /\
  length linx = (2 * half)%nat /\
  (nth 0 linx 0 == lowervx)%Q /\
  (nth (half - 1) linx 0 == uppervx)%Q /\
  (nth half linx 0 == uppervx)%Q /\
  (nth (2 * half - 1) linx 0 == lowervx)%Q.
Proof.
  intros Hx Hk H half.
  destruct (stepData_value _ _ _ _ _ _ _ _ _ _ H) as (lin & Hlin & _ & _ & ->).
  cbv zeta.
  set (k := Z.to_nat (repeat_count settle data_rate)) in *.
  set (fwd := flat_map (fun x => repeat x k) lin).
  pose proof (linspace_length _ _ _ _ Hlin) as Hlen.
  assert (Hn : length lin = Z.to_nat xsteps) by lia.
  assert (Hk0 : (0 < k)%nat) by (unfold k; lia).
  assert (Hfwd : length fwd = half).
  { unfold fwd. rewrite length_repeat_each, Hn. reflexivity. }
  assert (Hhalf : (0 < half)%nat) by (unfold half; fold k; nia).
  assert (Hfirst : (nth 0 fwd 0 == lowervx)%Q).
  { unfold fwd. rewrite nth_repeat_each by (rewrite Hn; fold half; lia).
    rewrite Nat.Div0.div_0_l.
    rewrite (linspace_nth _ _ _ _ 0 Hx Hlin) by lia.
    cbn [Z.of_nat]. ring. }
  assert (Hlast : (nth (half - 1) fwd 0 == uppervx)%Q).
  { unfold fwd. rewrite nth_repeat_each by (rewrite Hn; fold half; lia).
    unfold half. fold k. rewrite div_last_block by lia.
    rewrite (linspace_nth _ _ _ _ _ Hx Hlin) by lia.
    replace (Z.of_nat (Z.to_nat xsteps - 1)) with (xsteps - 1) by lia.
    field. intros E.
    assert (Hq : (0 < inject_Z (xsteps - 1))%Q)
      by (change 0%Q with (inject_Z 0); rewrite <- Zlt_Qlt; lia).
    rewrite E in Hq. lra. }
  split; [|split; [|split; [|split; [|split]]]].
  - rewrite rev_app_distr, rev_involutive. reflexivity.
  - rewrite length_app, length_rev, Hfwd. lia.
  - rewrite app_nth1 by lia. exact Hfirst.
  - rewrite app_nth1 by lia. exact Hlast.
  - rewrite app_nth2 by lia. rewrite Hfwd, Nat.sub_diag.
    rewrite rev_nth by lia. rewrite Hfwd.
    exact Hlast.
  - rewrite app_nth2 by lia. rewrite Hfwd.
    replace (2 * half - 1 - half)%nat with (half - 1)%nat by lia.
    rewrite rev_nth by lia. rewrite Hfwd.
    replace (half - S (half - 1))%nat with 0%nat by lia. exact Hfirst.
Qed.

Lemma stepData_row_returns_to_start_witness :
  2 <= 2 /\ 1 <= repeat_count 1 1 /\
  stepData 0 1 2 0 1 2 1 1 = Ok ([0; 1; 1; 0], [0; 1])%Q /\
  (nth 1 [0; 1; 1; 0] 0 == 1)%Q /\ (nth 3 [0; 1; 1; 0] 0 == 0)%Q.
Proof.
  assert (H1 : 2 <= 2) by lia.
  assert (H2 : 1 <= repeat_count 1 1) by (vm_compute; discriminate).
  assert (H : stepData 0 1 2 0 1 2 1 1 = Ok ([0; 1; 1; 0], [0; 1])%Q)
    by (vm_compute; reflexivity).
  pose proof (stepData_row_returns_to_start 0 1 2 0 1 2 1 1 _ _ H1 H2 H)
    as (_ & _ & _ & Hmid & _ & Hend).
  split; [exact H1|split; [exact H2|split; [exact H|split; [exact Hmid|exact Hend]]]].
Defined.

End StepDataExtras.

(** ** What a line scan writes *)

Section EmitsOnly.
Import Py NIpci6036E ScanTrace.
Local Open Scope hw_scope.

Variable P : daq_call -> Prop.

Lemma only_hret {A : Type} (a : A) : emits_only P (hret a).
Proof. intros tr. exists []. rewrite app_nil_r. auto. Qed.

Lemma only_hraise {A : Type} (e : exn) : emits_only P (@hraise A e).
Proof. intros tr. exists []. rewrite app_nil_r. auto. Qed.

Lemma only_lift {A : Type} (r : result A) : emits_only P (lift r).
Proof. intros tr. exists []. rewrite app_nil_r. auto. Qed.

Lemma only_request (drv : driver) (c : daq_call) :
  P c -> emits_only P (request drv c).
Proof.
  intros Hc tr. unfold request. destruct (drv tr c).
  - exists [c]. auto.
  - exists []. rewrite app_nil_r. auto.
Qed.

Lemma only_hbind {A B : Type} (c : Hw A) (k : A -> Hw B) :
  emits_only P c ->
  (forall a tr tr', c tr = (tr', Ok a) -> emits_only P (k a)) ->
  emits_only P (hbind c k).
Proof.
  intros Hc Hk tr. unfold hbind.
  destruct (Hc tr) as (ext1 & E1 & F1).
  destruct (c tr) as [tr1 [a|e]] eqn:Hrun; cbn [fst] in E1; subst tr1.
  - destruct (Hk a _ _ Hrun (tr ++ ext1)) as (ext2 & E2 & F2).
    exists (ext1 ++ ext2). rewrite app_assoc, <- E2. split; [reflexivity|].
    apply Forall_app; auto.
  - exists ext1. auto.
Qed.

Lemma only_for_each {A : Type} (l : list A) (body : A -> Hw unit) :
  (forall x, emits_only P (body x)) -> emits_only P (Daq.for_each l body).
Proof.
  intros Hbody. induction l as [|x l IH]; cbn [Daq.for_each].
  - apply only_hret.
  - apply only_hbind; [apply Hbody|intros _ _ _ _; exact IH].
Qed.

Lemma only_with_task {A : Type} (drv : driver) (t : task) (body : Hw (option A)) :
  P (CloseTask (task_name t)) ->
  emits_only P body -> emits_only P (Daq.with_task drv t body).
Proof.
  intros Hclose Hb tr. unfold Daq.with_task.
  destruct (Hb tr) as (ext1 & E1 & F1).
  destruct (body tr) as [tr1 r]; cbn [fst] in E1; subst tr1.
  assert (Hc : exists ext,
             fst (let (tr2, rc) := request drv (CloseTask (task_name t)) (tr ++ ext1) in
                  (tr2, match rc with Raise e => Raise e | Ok _ => r end))
             = tr ++ ext /\ Forall P ext).
  { destruct (only_request drv (CloseTask (task_name t)) Hclose (tr ++ ext1))
      as (ext2 & E2 & F2).
    destruct (request drv (CloseTask (task_name t)) (tr ++ ext1)) as [tr2 rc].
    cbn [fst] in *. subst tr2. exists (ext1 ++ ext2).
    rewrite app_assoc. split; [reflexivity|apply Forall_app; auto]. }
  destruct r as [[a|]|e]; try exact Hc.
  exists ext1. auto.
Qed.

End EmitsOnly.

Section ScanWrites.
Import Py NIpci6036E Scan ScanTrace.
Local Open Scope hw_scope.

Variable drv : driver.
Variable DEVname : string.

Lemma index_In {A : Type} (l : list A) (i : Z) (x : A) :
  index l i = Ok x -> In x l.
Proof.
  unfold index. destruct (_ || _); [discriminate|].
  destruct (nth_error l _) as [y|] eqn:Hn; [|discriminate].
  intros [= <-]. exact (nth_error_In _ _ Hn).
Qed.

Lemma index_nth {A : Type} (l : list A) (i : nat) (d : A) :
  (i < length l)%nat -> index l (Z.of_nat i) = Ok (nth i l d).
Proof.
  intros Hi. unfold index.
  assert (Hneg : (Z.of_nat i <? 0) = false) by (apply Z.ltb_ge; lia).
  assert (Hge : (Z.of_nat (length l) <=? Z.of_nat i) = false)
    by (apply Z.leb_gt; lia).
  rewrite Hneg, Hge. cbn [orb]. rewrite Hneg, Nat2Z.id.
  rewrite (nth_error_nth' l d Hi). reflexivity.
Qed.

Lemma stepdata_planned (sv sv' : scanVars) :
  stepdata sv = Ok sv' ->
  planned sv' /\ Z.of_nat (length (liny sv')) = ysteps sv.
Proof.
  unfold stepdata.
  destruct (Utils.stepData _ _ _ _ _ _ _ _) as [[lx ly]|e] eqn:H; [|discriminate].
  cbn [bind]. intros [= <-]. unfold planned. cbn [lowervx uppervx lowervy uppervy linx liny].
  destruct (stepData_between _ _ _ _ _ _ _ _ _ _ H) as [Hx Hy].
  destruct (stepData_value _ _ _ _ _ _ _ _ _ _ H) as (_ & _ & Hliny & _).
  split; [split; apply Forall_forall; assumption|].
  exact (linspace_length _ _ _ _ Hliny).
Qed.

Lemma generateInput_in_region (sv : scanVars) (i : Z) (rows : list (list Q))
      (name : string) :
  planned sv -> generateInput (linx sv) (liny sv) i = Ok rows ->
  exists ys,
    rows = [ys; linx sv] /\ Forall (between (lowervy sv) (uppervy sv)) ys.
Proof.
  intros [Hx Hy] H. unfold generateInput in H.
  destruct (index (liny sv) i) as [y|e] eqn:Hidx; [|discriminate].
  cbn [bind] in H. injection H as <-.
  eexists. split; [reflexivity|].
  apply Forall_forall. intros v Hv. apply in_map_iff in Hv.
  destruct Hv as (one & <- & Hone). apply repeat_spec in Hone. subst one.
  rewrite Forall_forall in Hy. specialize (Hy y (index_In _ _ _ Hidx)).
  unfold between in *. rewrite Qmult_1_l. exact Hy.
Qed.

Lemma only_write (sv : scanVars) (write_task : task) (i : Z) :
  planned sv -> emits_only (in_region sv) (write drv sv write_task i).
Proof.
  intros Hsv. unfold write. destruct (i =? _).
  - apply only_hbind; [apply only_request; reflexivity|intros; apply only_hret].
  - apply only_hbind; [apply only_lift|intros row tr tr' Hrow].
    injection Hrow as _ Hrow.
    destruct (generateInput_in_region sv i row "" Hsv Hrow) as (ys & -> & Hys).
    apply only_hbind; [|intros; apply only_hret].
    apply only_request. exists ys, (linx sv). destruct Hsv. auto.
Qed.

Lemma only_exec (sv : scanVars) (write_task : task) (events : list loop_event) :
  planned sv ->
  forall i write_timer,
    emits_only (in_region sv) (exec drv sv write_task events i write_timer).
Proof.
  intros Hsv.
  induction events as [|ev rest IH]; intros i write_timer; cbn [exec].
  - apply only_hret.
  - destruct ev as [|task_done|code].
    + destruct write_timer; [|apply IH].
      apply only_hbind; [apply only_write; exact Hsv|intros; apply IH].
    + apply only_hbind; [apply only_request; exact I|intros].
      destruct task_done; [apply only_hret|apply IH].
    + apply only_hret.
Qed.

Lemma only_arm (sv : scanVars) (write_task : task) (read : option task) :
  planned sv -> emits_only (in_region sv) (arm drv sv write_task read).
Proof.
  intros Hsv. unfold arm, Daq.set_finite_hardware_clock, Daq.set_start_trigger.
  apply only_hbind; [apply only_request; exact I|intros].
  apply only_hbind; [destruct read; [apply only_hret|apply only_hraise]|intros].
  apply only_hbind.
  { apply only_hbind; [apply only_lift|intros; apply only_request; exact I]. }
  intros.
  apply only_hbind; [apply only_lift|intros first ? ? Hfirst].
  apply only_hbind; [apply only_lift|intros second ? ? Hsecond].
  injection Hfirst as _ Hfirst. injection Hsecond as _ Hsecond.
  destruct (generateInput_in_region sv 0 first "" Hsv Hfirst) as (ys1 & -> & Hys1).
  destruct (generateInput_in_region sv 1 second "" Hsv Hsecond) as (ys2 & -> & Hys2).
  apply only_request. cbn [np_append1].
  exists (ys1 ++ ys2), (linx sv ++ linx sv). destruct Hsv as [Hx _].
  split; [reflexivity|]. split; apply Forall_app; auto.
Qed.

Lemma only_run_line (sv : scanVars) (write_list : list string)
      (read : option task) (events : list loop_event) :
  planned sv ->
  emits_only (in_region sv) (run_line drv DEVname sv write_list read events).
Proof.
  intros Hsv. unfold run_line.
  apply only_hbind.
  { unfold Daq.make_write_task.
    apply only_hbind; [apply only_request; exact I|intros].
    apply only_hbind;
      [apply only_for_each; intros; apply only_request; exact I|intros].
    apply only_hbind; [apply only_request; exact I|intros; apply only_hret]. }
  intros wt ? ? _.
  apply only_hbind; [|intros; apply only_hret].
  apply only_with_task; [exact I|].
  apply only_hbind; [apply only_arm; exact Hsv|intros].
  apply only_hbind; [apply only_request; exact I|intros].
  apply only_hbind.
  { apply only_hbind; [destruct read; [apply only_hret|apply only_hraise]|intros].
    apply only_request. exact I. }
  intros. apply only_hbind; [apply only_lift|intros].
  apply only_exec. exact Hsv.
Qed.

Lemma stepdata_region (sv sv' : scanVars) (c : daq_call) :
  stepdata sv = Ok sv' -> in_region sv' c -> in_region sv c.
Proof.
  unfold stepdata.
  destruct (Utils.stepData _ _ _ _ _ _ _ _) as [[lx ly]|e]; [|discriminate].
  cbn [bind]. intros [= <-]. exact (fun H => H).
Qed.

Lemma only_prepare (P : daq_call -> Prop) (sv : scanVars) (t : task) :
  (forall c, is_write c = false -> starts_no_task c -> P c) ->
  emits_only P (Daq.set_continuous_hardware_clock drv t (data_rate sv) ;;;
                Daq.commit drv t ;;;
                (if log sv then Daq.set_log drv t else hret tt)).
Proof.
  intros HP.
  unfold Daq.set_continuous_hardware_clock, Daq.commit, Daq.set_log.
  apply only_hbind; [apply only_request, HP; [reflexivity|exact I]|intros].
  apply only_hbind; [apply only_request, HP; [reflexivity|exact I]|intros].
  destruct (log sv); [apply only_request, HP; [reflexivity|exact I]|apply only_hret].
Qed.

Lemma only_make_read_task (P : daq_call -> Prop) (name : string)
      (channels : list string) :
  (forall c, is_write c = false -> starts_no_task c -> P c) ->
  emits_only P (Daq.make_read_task drv DEVname name channels).
Proof.
  intros HP. unfold Daq.make_read_task.
  apply only_hbind; [apply only_request, HP; [reflexivity|exact I]|intros].
  apply only_hbind; [|intros; apply only_hret].
  apply only_for_each. intros. apply only_request, HP; [reflexivity|exact I].
Qed.

(** X3: whatever the driver answers and whenever the timers fire, every
    block of samples that a line scan writes to the outputs has a row for
    the y scanner between [lowervy] and [uppervy] and a row for the x scanner
    between [lowervx] and [uppervx]; the only other write is the final pair
    of zeros. *)
Theorem scan_outputs_stay_in_region
  (sv : scanVars) (write_list : list string) (self : scanUI)
  (events : list loop_event) :
  Forall (in_region sv)
         (fst (snd (startLineScan drv DEVname sv write_list self events))).
Proof.
  unfold startLineScan.
  destruct (stepdata sv) as [sv'|e] eqn:Hstep; [|constructor].
  destruct (stepdata_planned _ _ Hstep) as [Hplanned _].
  apply (Forall_impl _ (fun c => stepdata_region sv sv' c Hstep)).
  assert (Hquiet : forall c, is_write c = false -> starts_no_task c ->
                             in_region sv' c)
    by (intros []; cbn; intros; auto; discriminate).
  destruct (only_make_read_task (in_region sv') "read" (meas_list self) Hquiet [])
    as (ext1 & E1 & F1). cbn [app] in E1.
  destruct (Daq.make_read_task drv DEVname "read" (meas_list self) [])
    as [tr1 [t|e]]; cbn [fst] in E1; subst tr1; [|exact F1].
  destruct (only_prepare (in_region sv') sv' t Hquiet ext1) as (ext2 & E2 & F2).
  match type of E2 with fst (?c _) = _ => destruct (c ext1) as [tr2 [[]|e]] end;
    cbn [fst] in E2; subst tr2; cbn [fst snd];
    [|apply Forall_app; auto].
  unfold run, dumpData_default, dumpData. change (0 =? 0) with true.
  cbn [snd fst read_task].
  destruct (only_run_line sv' write_list (Some t) events Hplanned (ext1 ++ ext2))
    as (ext3 & E3 & F3).
  rewrite E3. apply Forall_app. split; [apply Forall_app; auto|exact F3].
Qed.

Lemma generateInput_fails (xdata ydata : list Q) (i : Z) :
  Z.of_nat (length ydata) <= i ->
  generateInput xdata ydata i = Raise IndexError.
Proof.
  intros Hi. unfold generateInput, index.
  destruct (i <? 0) eqn:Hneg; [apply Z.ltb_lt in Hneg; lia|].
  destruct (Z.of_nat (length ydata) <=? i) eqn:Hge;
    [|apply Z.leb_gt in Hge; lia].
  rewrite Hneg, orb_true_r. reflexivity.
Qed.

(** With fewer than two lines the write task cannot be armed. *)
Lemma arm_fails (sv : scanVars) (write_task : task) (read : option task)
      (tr : list daq_call) :
  (length (liny sv) < 2)%nat ->
  exists e, snd (arm drv sv write_task read tr) = Raise e.
Proof.
  intros Hlen.
  unfold arm, Daq.set_finite_hardware_clock, Daq.set_start_trigger, hbind, lift,
    request.
  destruct (drv tr _); [|eexists; reflexivity].
  destruct read as [origin|]; cbn [the_read_task hret hraise];
    [|eexists; reflexivity].
  destruct (index (devices origin) 0) as [dev|e]; [|eexists; reflexivity].
  match goal with |- context [drv ?t ?c] => destruct (drv t c) end;
    [|eexists; reflexivity].
  destruct (generateInput _ _ 0) as [first|e]; [|eexists; reflexivity].
  rewrite (generateInput_fails (linx sv) (liny sv) 1) by lia.
  eexists; reflexivity.
Qed.

Lemma run_line_short (sv : scanVars) (write_list : list string)
      (read : option task) (events : list loop_event) (served : list daq_call) :
  (length (liny sv) < 2)%nat -> Forall starts_no_task served ->
  exists tr e,
    run_line drv DEVname sv write_list read events served = (tr, Raise e) /\
    Forall starts_no_task tr.
Proof.
  intros Hlen Hserved. unfold run_line, hbind at 1.
  destruct (quiet_make_write_task drv DEVname "write" write_list (lowerV sv) (upperV sv)
              served) as (ext0 & E0 & F0).
  destruct (Daq.make_write_task drv DEVname "write" write_list (lowerV sv) (upperV sv)
              served) as [tr0 [wt|e]]; cbn [fst] in E0; subst tr0;
    [|do 2 eexists; split; [reflexivity|apply Forall_app; auto]].
  unfold hbind at 1, Daq.with_task, hbind at 1.
  destruct (arm_fails sv wt read (served ++ ext0) Hlen) as (e & Harm).
  destruct (quiet_arm drv sv wt read (served ++ ext0)) as (extA & EA & FA).
  destruct (arm drv sv wt read (served ++ ext0)) as [trA r];
    cbn [fst snd] in EA, Harm; subst trA r.
  destruct (quiet_request drv (CloseTask (task_name wt)) I ((served ++ ext0) ++ extA))
    as (extC & EC & FC).
  destruct (request drv (CloseTask (task_name wt)) ((served ++ ext0) ++ extA))
    as [trC [[]|e']]; cbn [fst snd] in *; subst trC;
    (do 2 eexists; split; [reflexivity|repeat (apply Forall_app; split); auto]).
Qed.

(** X4: a scan of fewer than two lines never runs.  The thread makes its
    first buffer from lines 0 and 1, so whatever the driver answers the scan
    ends in an exception and no task is started. *)
Theorem scan_needs_two_lines
  (sv : scanVars) (write_list : list string) (self : scanUI)
  (events : list loop_event) :
  ysteps sv < 2 ->
  (exists e,
     snd (snd (startLineScan drv DEVname sv write_list self events)) = Raise e) /\
  Forall starts_no_task
         (fst (snd (startLineScan drv DEVname sv write_list self events))).
Proof.
  intros Hy. unfold startLineScan.
  destruct (stepdata sv) as [sv'|e] eqn:Hstep;
    [|split; [eexists; reflexivity|constructor]].
  destruct (stepdata_planned _ _ Hstep) as [_ Hlen].
  destruct (quiet_make_read_task drv DEVname "read" (meas_list self) [])
    as (ext1 & E1 & F1). cbn [app] in E1.
  destruct (Daq.make_read_task drv DEVname "read" (meas_list self) [])
    as [tr1 [t|e]]; cbn [fst] in E1; subst tr1;
    [|split; [eexists; reflexivity|exact F1]].
  destruct (only_prepare starts_no_task sv' t ltac:(auto) ext1)
    as (ext2 & E2 & F2).
  match type of E2 with fst (?c _) = _ => destruct (c ext1) as [tr2 [[]|e]] end;
    cbn [fst] in E2; subst tr2; cbn [fst snd];
    [|split; [eexists; reflexivity|apply Forall_app; auto]].
  unfold run, dumpData_default, dumpData. change (0 =? 0) with true.
  cbn [snd fst read_task].
  destruct (run_line_short sv' write_list (Some t) events (ext1 ++ ext2))
    as (tr & e & -> & Htr); [lia|apply Forall_app; auto|].
  split; [eexists; reflexivity|exact Htr].
Qed.

(** *** The order of the writes *)


Lemma filter_quiet (ext : list daq_call) :
  Forall (fun c => is_write c = false) ext -> filter is_write ext = [].
Proof.
  induction 1 as [|c ext Hc _ IH]; [reflexivity|].
  cbn [filter]. rewrite Hc. exact IH.
Qed.

(** A computation that writes nothing. *)
Lemma writes_none (plan : list daq_call) {A : Type} (c : Hw A) :
  emits_only (fun c => is_write c = false) c -> writes_within plan c.
Proof.
  intros H tr. destruct (H tr) as (ext & E & F).
  exists ext, 0%nat. split; [exact E|]. apply filter_quiet. exact F.
Qed.













End ScanWrites.
Lemma scan_needs_two_lines_witness :
  1 < 2 /\
  (exists e,
     snd (snd (Scan.startLineScan (fun _ _ => true) "Dev1"
                 (Scan.mkScanVars 0 1 0 1 2 1 1 1 false 0 7 [] [])
                 ["ao0"; "ao1"]%string
                 (Scan.mkScanUI ["ai0"; "ai1"]%string (Py.np_empty 2) None)
                 [Scan.WriteTimeout]))
     = Py.Raise e) /\
  snd (snd (Scan.startLineScan (fun _ _ => true) "Dev1"
              (Scan.mkScanVars 0 1 0 1 2 1 1 1 false 0 7 [] [])
              ["ao0"; "ao1"]%string
              (Scan.mkScanUI ["ai0"; "ai1"]%string (Py.np_empty 2) None)
              [Scan.WriteTimeout]))
  = Py.Raise Py.IndexError.
Proof.
  assert (H : 1 < 2) by lia.
  split; [exact H|]. split; [|vm_compute; reflexivity].
  exact (proj1 (scan_needs_two_lines (fun _ _ => true) "Dev1"
                  (Scan.mkScanVars 0 1 0 1 2 1 1 1 false 0 7 [] [])
                  ["ao0"; "ao1"]%string
                  (Scan.mkScanUI ["ai0"; "ai1"]%string (Py.np_empty 2) None)
                  [Scan.WriteTimeout] H)).
Defined.



(** ** The plots of a running scan *)

Section PlotFacts.
Import Py NIpci6036E Scan ScanPlots.

Lemma dumpData_value (self : scanUI) (chunk : nat) :
  (0 < chunk)%nat ->
  (forall row, In row (data self) -> length row = ncols (data self)) ->
  dumpData (Z.of_nat chunk) self
  = (mkScanUI (meas_list self) (map (skipn chunk) (data self)) (read_task self),
     Some (map (firstn chunk) (data self))).
Proof.
  intros Hchunk Hrect. unfold dumpData.
  destruct (Z.of_nat chunk =? 0) eqn:H0; [apply Z.eqb_eq in H0; lia|].
  assert (Htemp : slice_cols (data self) 0 (Z.of_nat chunk)
                  = map (firstn chunk) (data self)).
  { unfold slice_cols. apply map_ext. intros row.
    rewrite slice_prefix by lia. rewrite Nat2Z.id. reflexivity. }
  assert (Hrest : slice_cols (data self) (Z.of_nat chunk)
                    (Z.of_nat (ncols (data self)))
                  = map (skipn chunk) (data self)).
  { unfold slice_cols. apply map_ext_in. intros row Hrow.
    rewrite <- (Hrect row Hrow). rewrite slice_suffix by lia.
    rewrite Nat2Z.id. reflexivity. }
  rewrite Htemp, Hrest. reflexivity.
Qed.

Lemma show_surface_keeps (s : list (list fl)) (self : view) :
  win (fst (show_surface s self)) = win self /\
  line (fst (show_surface s self)) = line self.
Proof.
  unfold show_surface.
  destruct (surface_min s); [|split; reflexivity].
  destruct (surface_max s); split; reflexivity.
Qed.

Lemma updateHeatmap_window (sv : scanVars) (make_heatmap : bool) (self : view) :
  win (fst (updateHeatmap sv make_heatmap self))
  = fst (dumpData (Z.of_nat (length (linx sv))) (win self)) /\
  line (fst (updateHeatmap sv make_heatmap self)) = line self + 1.
Proof.
  unfold updateHeatmap.
  destruct (dumpData _ (win self)) as [w chunk]. cbn [fst].
  destruct make_heatmap; [|split; reflexivity].
  destruct (average (linx sv) chunk) as [[vs averages]|e]; [|split; reflexivity].
  cbn [surface].
  destruct (surface_size (surface self) =? 1)%nat.
  - apply show_surface_keeps.
  - destruct (append_columns _ _); [|split; reflexivity].
    apply show_surface_keeps.
Qed.

Lemma draw_curves_keeps (sv : scanVars) (self : view) :
  win (fst (draw_curves sv self)) = win self /\
  line (fst (draw_curves sv self)) = line self.
Proof.
  unfold draw_curves.
  destruct (index (data (win self)) 0); [|split; reflexivity].
  destruct (_ <? _); split; reflexivity.
Qed.

Lemma np_append1_rect (a b : list (list Q)) (c m : nat) :
  length a = length b ->
  (forall row, In row a -> length row = c) ->
  (forall row, In row b -> length row = m) ->
  forall row, In row (np_append1 a b) -> length row = (c + m)%nat.
Proof.
  revert b. induction a as [|ra a IH]; intros [|rb b] Hlen Ha Hb row Hrow;
    try discriminate; cbn [np_append1] in Hrow; [destruct Hrow|].
  destruct Hrow as [<-|Hrow].
  - rewrite length_app, (Ha ra), (Hb rb) by (left; reflexivity). reflexivity.
  - apply (IH b); auto.
    + intros r Hr. apply Ha. right. exact Hr.
    + intros r Hr. apply Hb. right. exact Hr.
Qed.

Lemma ncols_rect (a : list (list Q)) (n : nat) :
  a <> [] -> (forall row, In row a -> length row = n) -> ncols a = n.
Proof.
  destruct a as [|row a]; [congruence|].
  intros _ H. apply H. left. reflexivity.
Qed.

(** X6: a firing of the graph timer takes at most one line out of the
    buffer.  The waveform is not empty, the read task exists, and the
    samples read are one row per row of the buffer, [m] columns after its
    [c].  With them the buffer holds [c + m] columns; if that is more than
    one line of the waveform, exactly the oldest line is removed and the
    line counter goes up by one, whatever is left; otherwise everything is
    kept and the counter stays.  This holds also when the heatmap or the
    curves then fail. *)
Theorem refresh_takes_one_line
  (sv : scanVars) (make_heatmap : bool) (samples : list (list Q)) (self : view)
  (t : task) (c m : nat) :
  read_task (win self) = Some t ->
  samples <> [] ->
  length (data (win self)) = length samples ->
  (forall row, In row (data (win self)) -> length row = c) ->
  (forall row, In row samples -> length row = m) ->
  (0 < length (linx sv))%nat ->
  let after := fst (update_scan_plots sv make_heatmap samples self) in
  let full := np_append1 (data (win self)) samples in
  if (length (linx sv) <? c + m)%nat
  then data (win after) = map (skipn (length (linx sv))) full /\
       line after = line self + 1
  else data (win after) = full /\ line after = line self.
Proof.
  intros Hread Hsamples Hrows Hc Hm Hlinx. cbv zeta.
  set (full := np_append1 (data (win self)) samples).
  set (s1 := mkView (acquire_data samples (win self)) (line self) (doc self)
                    (surface self) (levels self) (curve1 self) (curve2 self)).
  assert (Hacq : acquire samples self = (s1, Ok tt)).
  { unfold acquire. rewrite Hread, Hrows, Nat.eqb_refl.
    destruct samples as [|first others]; [congruence|].
    assert (Heven : forallb (fun row => (length row =? length first)%nat)
                            (first :: others) = true).
    { apply forallb_forall. intros row Hrow. apply Nat.eqb_eq.
      rewrite (Hm row Hrow). symmetry. apply Hm. left. reflexivity. }
    rewrite Heven. reflexivity. }
  assert (Hrect : forall row, In row full -> length row = (c + m)%nat)
    by (apply np_append1_rect; assumption).
  assert (Hfull : full <> []).
  { unfold full. destruct (data (win self)) as [|ra a], samples as [|rb b];
      try discriminate; try congruence. }
  assert (Hncols : ncols (data (win s1)) = (c + m)%nat)
    by exact (ncols_rect full _ Hfull Hrect).
  unfold update_scan_plots. rewrite Hacq, Hncols.
  destruct (length (linx sv) <? c + m)%nat eqn:Hmore.
  - pose proof (updateHeatmap_window sv make_heatmap s1) as [Hw Hl].
    rewrite (dumpData_value (win s1) (length (linx sv)) Hlinx) in Hw
      by (intros row Hrow; rewrite Hncols; exact (Hrect row Hrow)).
    cbn [fst] in Hw.
    destruct (updateHeatmap sv make_heatmap s1) as [s2 [[]|e]]; cbn [fst] in *.
    + destruct (draw_curves_keeps sv s2) as [-> ->]. rewrite Hw, Hl.
      split; reflexivity.
    + rewrite Hw, Hl. split; reflexivity.
  - destruct (draw_curves_keeps sv s1) as [-> ->].
    split; reflexivity.
Qed.

(** *** Averages per target voltage *)

Lemma list_bounded (l : list Q) :
  exists lo hi, forall x, In x l -> (lo <= x <= hi)%Q.
Proof.
  induction l as [|y l (lo & hi & IH)].
  - exists 0%Q, 0%Q. intros x [].
  - exists (Qmin y lo), (Qmax y hi). intros x [<-|Hx].
    + split; [apply Q.le_min_l|apply Q.le_max_l].
    + destruct (IH x Hx) as [Hlo Hhi]. split.
      * apply (Qle_trans _ lo); [apply Q.le_min_r|exact Hlo].
      * apply (Qle_trans _ hi); [exact Hhi|apply Q.le_max_r].
Qed.

Lemma np_sum_bounds (a : list Q) (lo hi : Q) :
  (forall x, In x a -> (lo <= x <= hi)%Q) ->
  (lo * inject_Z (Z.of_nat (length a)) <= np_sum a
   <= hi * inject_Z (Z.of_nat (length a)))%Q.
Proof.
  induction a as [|x a IH]; intros H.
  - cbn [length np_sum fold_right Z.of_nat]. change (inject_Z 0) with 0%Q. lra.
  - cbn [length np_sum fold_right]. fold (np_sum a).
    rewrite Nat2Z.inj_succ. unfold Z.succ. rewrite inject_Z_plus.
    destruct (H x (or_introl eq_refl)) as [Hlo Hhi].
    destruct (IH (fun y Hy => H y (or_intror Hy))) as [IHlo IHhi].
    change (inject_Z 1) with 1%Q. lra.
Qed.

Lemma np_mean_bounds (a : list Q) (lo hi : Q) :
  a <> [] -> (forall x, In x a -> (lo <= x <= hi)%Q) ->
  exists q, np_mean a = Num q /\ (lo <= q <= hi)%Q.
Proof.
  intros Ha H. destruct a as [|x a]; [congruence|].
  eexists. split; [reflexivity|].
  destruct (np_sum_bounds (x :: a) lo hi H) as [Hlo Hhi].
  assert (Hn : (0 < inject_Z (Z.of_nat (length (x :: a))))%Q).
  { change 0%Q with (inject_Z 0). rewrite <- Zlt_Qlt. cbn [length]. lia. }
  split.
  - apply Qle_shift_div_l; assumption.
  - apply Qle_shift_div_r; assumption.
Qed.

Lemma selected_In (row : list Q) (mask : list bool) (x : Q) :
  In x (map fst (filter snd (combine row mask))) -> In x row.
Proof.
  intros H. apply in_map_iff in H. destruct H as ([y b] & <- & Hy).
  apply filter_In in Hy. destruct Hy as [Hy _].
  exact (in_combine_l _ _ _ _ Hy).
Qed.

Lemma selected_nonempty (f : Q -> bool) (linx row : list Q) :
  length row = length linx ->
  (exists x, In x linx /\ f x = true) ->
  map fst (filter snd (combine row (map f linx))) <> [].
Proof.
  revert row. induction linx as [|y linx IH]; intros [|r row] Hlen (x & Hx & Hfx);
    try discriminate; [destruct Hx|].
  cbn [map combine filter snd].
  destruct (f y) eqn:Hfy; [cbn; discriminate|].
  destruct Hx as [->|Hx]; [congruence|].
  apply IH; [now injection Hlen|eauto].
Qed.

(** With a line of as many samples as the waveform has entries, every
    target voltage gets the mean of at least one sample. *)
Lemma average_each_ok (linx row : list Q) (rest : list (list Q))
      (voltages : list Q) (lo hi : Q) :
  length row = length linx ->
  (forall x, In x row -> (lo <= x <= hi)%Q) ->
  (forall v, In v voltages -> InA Qeq v linx) ->
  exists averages,
    average_each linx (Some (row :: rest)) voltages = Ok averages /\
    length averages = length voltages /\
    forall a, In a averages -> exists q, a = Num q /\ (lo <= q <= hi)%Q.
Proof.
  intros Hlen Hrow.
  induction voltages as [|v voltages IH]; intros Hv.
  - exists []. repeat split. intros a [].
  - destruct IH as (others & Hothers & Hlen' & Hbounds).
    { intros w Hw. apply Hv. right. exact Hw. }
    cbn [average_each first_row]. change (index (row :: rest) 0) with (Ok row).
    cbn [bind]. unfold select. rewrite length_map, Hlen, Nat.eqb_refl.
    cbn [bind]. rewrite Hothers. cbn [bind].
    eexists. split; [reflexivity|]. split; [cbn [length]; congruence|].
    intros a [<-|Ha]; [|exact (Hbounds a Ha)].
    apply np_mean_bounds.
    + apply selected_nonempty; [exact Hlen|].
      specialize (Hv v (or_introl eq_refl)). apply InA_alt in Hv.
      destruct Hv as (x & Hvx & Hx). exists x. split; [exact Hx|].
      apply Qeq_bool_iff. symmetry. exact Hvx.
    + intros x Hx. apply Hrow. exact (selected_In _ _ _ Hx).
Qed.

Lemma average_ok (linx row : list Q) (rest : list (list Q)) (lo hi : Q) :
  length row = length linx ->
  (forall x, In x row -> (lo <= x <= hi)%Q) ->
  exists averages,
    average linx (Some (row :: rest)) = Ok (np_unique linx, averages) /\
    length averages = length (np_unique linx) /\
    forall a, In a averages -> exists q, a = Num q /\ (lo <= q <= hi)%Q.
Proof.
  intros Hlen Hrow.
  destruct (average_each_ok linx row rest (np_unique linx) lo hi Hlen Hrow)
    as (averages & Heach & Hn & Hb).
  { intros v Hv. apply np_unique_InA. apply In_InA; [exact Q_Setoid|exact Hv]. }
  exists averages. unfold average. rewrite Heach. auto.
Qed.

(** X7: for a line of as many samples as the waveform has entries,
    [__average] returns the distinct target voltages in ascending order and
    one average for each, and no average is [nan]: every target has samples
    of its own. *)
Theorem averages_one_per_target
  (linx row : list Q) (rest : list (list Q)) :
  length row = length linx ->
  exists averages,
    average linx (Some (row :: rest)) = Ok (np_unique linx, averages) /\
    Sorted Qlt (np_unique linx) /\
    length averages = length (np_unique linx) /\
    forall a, In a averages -> a <> NaN.
Proof.
  intros Hlen.
  destruct (list_bounded row) as (lo & hi & Hrow).
  destruct (average_ok linx row rest lo hi Hlen Hrow) as (averages & H & Hn & Hb).
  exists averages. split; [exact H|]. split; [apply np_unique_Sorted|].
  split; [exact Hn|].
  intros a Ha. destruct (Hb a Ha) as (q & -> & _). discriminate.
Qed.

(** *** The heatmap *)

Lemma np_unique_nonempty (a : list Q) : a <> [] -> np_unique a <> [].
Proof.
  destruct a as [|x a]; [congruence|]. intros _ H.
  assert (Hin : InA Qeq x (np_unique (x :: a)))
    by (apply np_unique_InA; left; reflexivity).
  rewrite H in Hin. inversion Hin.
Qed.

Lemma show_surface_ok (s : list (list fl)) (self : view) :
  concat s <> [] ->
  snd (show_surface s self) = Ok tt /\ surface (fst (show_surface s self)) = s.
Proof.
  intros Hs. unfold show_surface, surface_min, surface_max.
  destruct (concat s) as [|x t]; [congruence|]. split; reflexivity.
Qed.

Lemma append_columns_shape (a : list (list fl)) (averages : list fl) (k : nat) :
  length a = length averages ->
  (forall r, In r a -> length r = k) ->
  exists s,
    append_columns a (column averages) = Ok s /\
    length s = length averages /\
    (forall r, In r s -> length r = S k) /\
    (averages <> [] -> concat s <> []).
Proof.
  intros Hlen Hk. unfold append_columns, column.
  rewrite length_map, Hlen, Nat.eqb_refl.
  eexists. split; [reflexivity|]. split; [|split].
  - rewrite length_map, length_combine, length_map, Hlen. apply Nat.min_id.
  - intros r Hr. apply in_map_iff in Hr. destruct Hr as ([r1 r2] & <- & Hin).
    cbn [fst snd]. rewrite length_app.
    pose proof (in_combine_l _ _ _ _ Hin) as H1.
    pose proof (in_combine_r _ _ _ _ Hin) as H2.
    apply in_map_iff in H2. destruct H2 as (x & <- & _).
    rewrite (Hk r1 H1). cbn [length]. lia.
  - intros Hne. destruct averages as [|x averages]; [congruence|].
    destruct a as [|r a]; [discriminate|].
    cbn [map combine concat fst snd]. intros H.
    apply app_eq_nil in H. destruct H as [H _].
    apply app_eq_nil in H. destruct H as [_ H]. discriminate.
Qed.

(** X8: when the waveform is not empty and every row of the buffer holds
    at least one line of it, [__updateHeatmap] with the heatmap enabled
    succeeds.  While [surface] has a single entry, as the placeholder has,
    it is replaced by one column with an entry per target voltage;
    otherwise a surface of one row per target voltage gets one more column.
    So with a single target voltage the surface has one entry after every
    line and the heatmap never gets a second column. *)
Theorem heatmap_grows_by_one_column (sv : scanVars) (self : view) :
  (0 < length (linx sv))%nat ->
  data (win self) <> [] ->
  (forall row, In row (data (win self)) -> length row = ncols (data (win self))) ->
  (length (linx sv) <= ncols (data (win self)))%nat ->
  let targets := length (np_unique (linx sv)) in
  let after := fst (updateHeatmap sv true self) in
  (1 <= targets)%nat /\
  (surface_size (surface self) = 1%nat ->
   snd (updateHeatmap sv true self) = Ok tt /\
   length (surface after) = targets /\
   (forall r, In r (surface after) -> length r = 1%nat) /\
   surface_size (surface after) = targets) /\
  (forall k,
     surface_size (surface self) <> 1%nat ->
     length (surface self) = targets ->
     (forall r, In r (surface self) -> length r = k) ->
     snd (updateHeatmap sv true self) = Ok tt /\
     length (surface after) = targets /\
     (forall r, In r (surface after) -> length r = S k)).
Proof.
  intros Hlinx Hdata Hrect Hline. cbv zeta.
  assert (Htargets : (1 <= length (np_unique (linx sv)))%nat).
  { assert (H : np_unique (linx sv) <> []).
    { apply np_unique_nonempty. intros E. rewrite E in Hlinx. cbn in Hlinx. lia. }
    destruct (np_unique (linx sv)); [congruence|cbn; lia]. }
  split; [exact Htargets|].
  unfold updateHeatmap.
  rewrite (dumpData_value (win self) (length (linx sv)) Hlinx Hrect).
  destruct (data (win self)) as [|row rest] eqn:Ed; [congruence|].
  cbn [map].
  destruct (list_bounded (firstn (length (linx sv)) row)) as (lo & hi & Hb).
  destruct (average_ok (linx sv) (firstn (length (linx sv)) row)
              (map (firstn (length (linx sv))) rest) lo hi)
    as (averages & -> & Hn & _).
  { rewrite length_firstn. rewrite (Hrect row (or_introl eq_refl)).
    cbn [ncols] in Hline. cbn [ncols]. lia. }
  { exact Hb. }
  cbn [surface].
  assert (Havg : averages <> [])
    by (intros E; rewrite E in Hn; cbn in Hn; lia).
  split.
  - intros Hsize. rewrite Hsize. cbn [Nat.eqb].
    match goal with |- context [show_surface ?s ?v] =>
      destruct (show_surface_ok s v) as [Hok Hs] end.
    { unfold column. destruct averages; [congruence|cbn; discriminate]. }
    rewrite Hok, Hs. split; [reflexivity|]. unfold column.
    split; [rewrite length_map; exact Hn|]. split.
    + intros r Hr. apply in_map_iff in Hr. destruct Hr as (a & <- & _). reflexivity.
    + unfold surface_size. rewrite <- Hn. clear.
      induction averages as [|a l IH]; [reflexivity|]. cbn. rewrite <- IH. reflexivity.
  - intros k Hsize Hrows Hk.
    apply Nat.eqb_neq in Hsize. rewrite Hsize.
    destruct (append_columns_shape (surface self) averages k) as (s & -> & Hl & Hr & Hne);
      [congruence|exact Hk|].
    match goal with |- context [show_surface ?s ?v] =>
      destruct (show_surface_ok s v (Hne Havg)) as [Hok Hs] end.
    rewrite Hok, Hs. split; [reflexivity|]. split; [congruence|exact Hr].
Qed.

Lemma refresh_takes_one_line_witness :
  data (win (fst (update_scan_plots (mkScanVars 0 1 0 1 2 2 1 1 false 0 7 [0; 1; 1; 0] [0; 1])%Q true [[7; 8]; [9; 10]]%Q
                    (mkView (mkScanUI ["ai0"; "ai1"]%string [[1; 2; 3]; [4; 5; 6]]%Q
                        (Some (mkTask "read" ["Dev1"%string])))
              0 "" blank_surface None ([], []) ([], [])))))
  = [[8]; [10]]%Q /\
  line (fst (update_scan_plots (mkScanVars 0 1 0 1 2 2 1 1 false 0 7 [0; 1; 1; 0] [0; 1])%Q true [[7; 8]; [9; 10]]%Q
               (mkView (mkScanUI ["ai0"; "ai1"]%string [[1; 2; 3]; [4; 5; 6]]%Q
                        (Some (mkTask "read" ["Dev1"%string])))
              0 "" blank_surface None ([], []) ([], [])))) = 0 + 1.
Proof.
  exact (refresh_takes_one_line (mkScanVars 0 1 0 1 2 2 1 1 false 0 7 [0; 1; 1; 0] [0; 1])%Q true [[7; 8]; [9; 10]]%Q
           (mkView (mkScanUI ["ai0"; "ai1"]%string [[1; 2; 3]; [4; 5; 6]]%Q
                        (Some (mkTask "read" ["Dev1"%string])))
              0 "" blank_surface None ([], []) ([], []))
           (mkTask "read" ["Dev1"%string]) 3 2 eq_refl
           ltac:(discriminate) eq_refl
           ltac:(intros row [<-|[<-|[]]]; reflexivity)
           ltac:(intros row [<-|[<-|[]]]; reflexivity)
           ltac:(cbn; lia)).
Defined.

Lemma averages_one_per_target_witness :
  exists averages,
    average [0; 1; 1; 0]%Q (Some [[2; 4; 6; 8]%Q])
    = Ok (np_unique [0; 1; 1; 0]%Q, averages) /\
    length averages = length (np_unique [0; 1; 1; 0]%Q) /\
    forall a, In a averages -> a <> NaN.
Proof.
  destruct (averages_one_per_target [0; 1; 1; 0]%Q [2; 4; 6; 8]%Q [])
    as (averages & Hav & _ & Hlen & Hin).
  - reflexivity.
  - exists averages. split; [exact Hav|split; [exact Hlen|exact Hin]].
Defined.

Lemma heatmap_grows_by_one_column_witness :
  snd (updateHeatmap (mkScanVars 0 1 0 1 2 2 1 1 false 0 7 [0; 1; 1; 0] [0; 1])%Q true
         (mkView (mkScanUI ["ai0"; "ai1"]%string [[2; 4; 6; 8]; [1; 1; 1; 1]]%Q
                        (Some (mkTask "read" ["Dev1"%string])))
              0 "" blank_surface None ([], []) ([], []))) = Ok tt /\
  length (surface (fst (updateHeatmap (mkScanVars 0 1 0 1 2 2 1 1 false 0 7 [0; 1; 1; 0] [0; 1])%Q true
                          (mkView (mkScanUI ["ai0"; "ai1"]%string [[2; 4; 6; 8]; [1; 1; 1; 1]]%Q
                        (Some (mkTask "read" ["Dev1"%string])))
              0 "" blank_surface None ([], []) ([], []))))) = 2%nat.
Proof.
  destruct (heatmap_grows_by_one_column (mkScanVars 0 1 0 1 2 2 1 1 false 0 7 [0; 1; 1; 0] [0; 1])%Q
              (mkView (mkScanUI ["ai0"; "ai1"]%string [[2; 4; 6; 8]; [1; 1; 1; 1]]%Q
                        (Some (mkTask "read" ["Dev1"%string])))
              0 "" blank_surface None ([], []) ([], [])))
    as (_ & Hfirst & _).
  - cbn; lia.
  - discriminate.
  - intros row [<-|[<-|[]]]; reflexivity.
  - cbn; lia.
  - destruct (Hfirst eq_refl) as (Hres & Hlen & _).
    split; [exact Hres|exact Hlen].
Defined.

End PlotFacts.

(** ** The approach: what is sent, and when data can be read *)

Section ApproachTraceFacts.
Import Py NIpci6036E ANC150 Approach ApproachTrace.
Local Open Scope approach_scope.

Lemma is_axis_Ok (axis : Z) (u : unit) : is_axis axis = Ok u -> 1 <= axis <= 3.
Proof.
  unfold is_axis, check.
  destruct (1 <=? axis) eqn:H1; destruct (axis <=? 3) eqn:H2; try discriminate.
  apply Z.leb_le in H1, H2. auto.
Qed.

Lemma is_volt_Ok (v : Z) (u : unit) : is_volt v = Ok u -> 0 <= v <= 70.
Proof.
  unfold is_volt, check.
  destruct (0 <=? v) eqn:H1; destruct (v <=? 70) eqn:H2; try discriminate.
  apply Z.leb_le in H1, H2. auto.
Qed.

Lemma is_freq_Ok (f : Z) (u : unit) : is_freq f = Ok u -> 0 <= f <= 8000.
Proof.
  unfold is_freq, check.
  destruct (0 <=? f) eqn:H1; destruct (f <=? 8000) eqn:H2; try discriminate.
  apply Z.leb_le in H1, H2. auto.
Qed.

Lemma is_step_Ok (n : Z) (u : unit) : is_step (Count n) = Ok u -> 0 < n.
Proof.
  unfold is_step, check. destruct (0 <? n) eqn:H; [|discriminate].
  apply Z.ltb_lt in H. auto.
Qed.

Lemma sends_refl (P : effect -> Prop) (s s' : state) :
  trace s' = trace s -> sends P s s'.
Proof. intros H. exists []. rewrite app_nil_r. auto. Qed.

Lemma sends_trans (P : effect -> Prop) (s1 s2 s3 : state) :
  sends P s1 s2 -> sends P s2 s3 -> sends P s1 s3.
Proof.
  intros (e1 & E1 & F1) (e2 & E2 & F2). exists (e1 ++ e2).
  rewrite E2, E1, app_assoc. split; [reflexivity|apply Forall_app; auto].
Qed.

Lemma Forall_Daq (axis : Z) (served : list daq_call) :
  Forall (approach_effect axis) (map Daq served).
Proof. apply Forall_forall. intros e He. apply in_map_iff in He. destruct He as (c & <- & _). exact I. Qed.

End ApproachTraceFacts.

(** The facts that the validators of the step controller have established
    are read off. *)
Ltac validated :=
  repeat match goal with
         | H : ANC150.is_axis _ = Py.Ok _ |- _ => apply is_axis_Ok in H
         | H : ANC150.is_volt _ = Py.Ok _ |- _ => apply is_volt_Ok in H
         | H : ANC150.is_freq _ = Py.Ok _ |- _ => apply is_freq_Ok in H
         | H : ANC150.is_step (ANC150.Count _) = Py.Ok _ |- _ => apply is_step_Ok in H
         end.

(** The effects added to the trace are shown to be the approach's own. *)
Ltac sent :=
  first
    [ apply sends_refl; reflexivity
    | eexists; split;
      [ rewrite <- ?app_assoc; reflexivity
      | repeat first [ apply Forall_nil
                     | apply Forall_cons
                     | apply Forall_Daq
                     | apply Forall_app; split ];
        cbn [ApproachTrace.approach_effect]; eauto 6 ] ].

Section ApproachSends.
Import Py NIpci6036E ANC150 Approach ApproachTrace.
Local Open Scope approach_scope.

Lemma endApproachStage_sends (end_all : bool) (s : state) :
  post (endApproachStage end_all) s
    (fun s' _ => z s' = z s /\ sends (approach_effect (z s)) s s').
Proof.
  unfold endApproachStage, thread_terminate, stop_axis, query, thread_start,
    close_task.
  repeat wp_step; simpl_state; validated.
  all: split; [reflexivity|sent].
Qed.

Lemma checkThreshold_sends (s : state) :
  post checkThreshold s
    (fun s' _ => z s' = z s /\ sends (approach_effect (z s)) s s').
Proof.
  unfold checkThreshold.
  repeat wp_step; simpl_state.
  2: { eapply post_weaken; [apply endApproachStage_sends|].
       cbv beta. simpl_state. auto. }
  all: split; [reflexivity|sent].
Qed.

Lemma dataLoop_sends (data_n : list Q) (s : state) :
  post (dataLoop data_n) s
    (fun s' _ => z s' = z s /\ sends (approach_effect (z s)) s s').
Proof.
  unfold dataLoop, updateApproachPlots.
  apply post_mbind. eapply post_weaken; [apply acquireData_post|].
  cbv beta. intros s1 r ((_ & Hz & _ & _ & _ & _ & _ & _ & _ & reads & Htr & Hreads) & _).
  assert (H1 : z s1 = z s /\ sends (approach_effect (z s)) s s1).
  { split; [exact Hz|]. exists reads. split; [exact Htr|].
    apply Forall_forall. intros e He. destruct (Hreads e He) as (t & ->). exact I. }
  destruct r as [[]|e]; [|exact H1].
  repeat wp_step; [|exact H1].
  eapply post_weaken; [apply checkThreshold_sends|].
  cbv beta. intros s' _ [Hz' Hs']. destruct H1 as [_ H1].
  split; [congruence|]. rewrite Hz in Hs'. exact (sends_trans _ _ _ _ H1 Hs').
Qed.

Lemma thread_step_sends (s : state) :
  post thread_step s
    (fun s' _ => z s' = z s /\ sends (approach_effect (z s)) s s').
Proof.
  apply post_thread_step.
  unfold run_phase, run_settle, nextStage, step_down_and_wait, step_down,
    writeSteps, step_up, write_volt, write_freq, query.
  repeat wp_step; simpl_state; validated.
  all: try discriminate.
  all: split; [reflexivity|sent].
Qed.

Lemma startApproach_sends (w : widgets) (s : state) :
  post (startApproach w) s
    (fun s' _ => z s' = z s /\ sends (approach_effect (z s)) s s').
Proof.
  unfold startApproach, snapshot, write_mode, query, dumpData, thread_start.
  repeat first [ wp_step | apply post_daq_do; intros ? [?|?]; cbv beta iota ].
  all: simpl_state; validated.
  all: split; [reflexivity|sent].
Qed.

Lemma deliver_sends (ev : event) (s : state) :
  z (deliver s ev) = z s /\ sends (approach_effect (z s)) s (deliver s ev).
Proof.
  unfold deliver.
  assert (Hpost : post (handle ev) s
            (fun s' _ => z s' = z s /\ sends (approach_effect (z s)) s s'));
    [|exact Hpost].
  destruct ev as [data_n| | |w]; unfold handle.
  - repeat wp_step; [apply dataLoop_sends|split; [reflexivity|sent]].
  - apply thread_step_sends.
  - apply endApproachStage_sends.
  - repeat wp_step; [apply startApproach_sends|split; [reflexivity|sent]].
Qed.

Lemma run_events_sends (evs : list event) (s : state) :
  z (run_events evs s) = z s /\
  sends (approach_effect (z s)) s (run_events evs s).
Proof.
  revert s. induction evs as [|ev evs IH]; intros s; cbn [run_events fold_left].
  - split; [reflexivity|apply sends_refl; reflexivity].
  - destruct (deliver_sends ev s) as [Hz Hs].
    destruct (IH (deliver s ev)) as [Hz' Hs']. fold (run_events evs (deliver s ev)).
    split; [congruence|]. rewrite Hz in Hs'. exact (sends_trans _ _ _ _ Hs Hs').
Qed.

(** X9: whatever the events, an approach sends to the step controller only
    commands for its own axis, which is one of the three axes: step mode
    (never ground), a voltage of 0 to 70 V, a frequency of 0 to 8000 Hz,
    stops, continuous steps up and a positive number of steps down.  With an
    axis that does not exist nothing is sent at all. *)
Theorem approach_commands_are_its_own
  (evs : list event) (axis : Z) (dev : string) (channels : list string) :
  Forall (approach_effect axis) (trace (run_events evs (init axis dev channels))).
Proof.
  destruct (run_events_sends evs (init axis dev channels)) as [_ (ext & E & F)].
  rewrite E. exact F.
Qed.

End ApproachSends.

Section ApproachReading.
Import Py NIpci6036E ANC150 Approach ApproachTrace.
Local Open Scope approach_scope.

Lemma endApproachStage_reading (end_all : bool) (s : state) :
  post (endApproachStage end_all) s
    (fun s' _ =>
       (timer_active s' = timer_active s /\ read_task s' = read_task s) \/
       timer_active s' = false).
Proof.
  unfold endApproachStage, thread_terminate, stop_axis, query, thread_start,
    close_task.
  repeat wp_step; simpl_state; auto.
Qed.

Lemma checkThreshold_reading (s : state) :
  post checkThreshold s
    (fun s' _ =>
       (timer_active s' = timer_active s /\ read_task s' = read_task s) \/
       timer_active s' = false).
Proof.
  unfold checkThreshold.
  repeat wp_step; simpl_state; auto.
  eapply post_weaken; [apply endApproachStage_reading|].
  cbv beta. simpl_state. auto.
Qed.

Lemma dataLoop_reading (data_n : list Q) (s : state) :
  post (dataLoop data_n) s
    (fun s' _ =>
       (timer_active s' = timer_active s /\ read_task s' = read_task s) \/
       timer_active s' = false).
Proof.
  unfold dataLoop, updateApproachPlots.
  apply post_mbind. eapply post_weaken; [apply acquireData_post|].
  cbv beta. intros s1 r ((_ & _ & _ & _ & _ & Htm & _ & Hrt & _) & _).
  destruct r as [[]|e]; [|auto].
  repeat wp_step; [|auto].
  eapply post_weaken; [apply checkThreshold_reading|].
  cbv beta. intros s' _ [[H1 H2]|H]; [left; split; congruence|auto].
Qed.

Lemma thread_step_reading (s : state) :
  post thread_step s
    (fun s' _ => timer_active s' = timer_active s /\ read_task s' = read_task s).
Proof.
  apply post_thread_step.
  unfold run_phase, run_settle, nextStage, step_down_and_wait, step_down,
    writeSteps, step_up, write_volt, write_freq, query.
  repeat wp_step; simpl_state; auto.
Qed.

Lemma startApproach_reading (w : widgets) (s : state) :
  timer_active s = false ->
  post (startApproach w) s
    (fun s' _ =>
       timer_active s' = false \/ exists t, read_task s' = Some (t, true)).
Proof.
  intros Hoff.
  unfold startApproach, snapshot, write_mode, query, dumpData, thread_start.
  repeat first [ wp_step | apply post_daq_do; intros ? [?|?]; cbv beta iota ].
  all: simpl_state; eauto.
Qed.

Lemma reading_kept (s s' : state) :
  reading_ok s ->
  (timer_active s' = timer_active s /\ read_task s' = read_task s) \/
  timer_active s' = false ->
  reading_ok s'.
Proof.
  unfold reading_ok. intros Hread [[H1 H2]|H] Hon; [|congruence].
  rewrite H2. apply Hread. congruence.
Qed.

Lemma deliver_reading (ev : event) (s : state) :
  gated s -> reading_ok s -> reading_ok (deliver s ev).
Proof.
  intros [_ HK] Hread. unfold deliver.
  assert (Hpost : post (handle ev) s (fun s' _ => reading_ok s'));
    [|exact Hpost].
  destruct ev as [data_n| | |w]; unfold handle.
  - repeat wp_step; [|exact Hread].
    eapply post_weaken; [apply dataLoop_reading|].
    cbv beta. intros s' _ H. exact (reading_kept s s' Hread H).
  - eapply post_weaken; [apply thread_step_reading|].
    cbv beta. intros s' _ H. exact (reading_kept s s' Hread (or_introl H)).
  - eapply post_weaken; [apply endApproachStage_reading|].
    cbv beta. intros s' _ H. exact (reading_kept s s' Hread H).
  - repeat wp_step; [|exact Hread].
    eapply post_weaken; [apply startApproach_reading|].
    + destruct (HK eq_refl) as [_ H]. exact H.
    + cbv beta. unfold reading_ok. intros s' _ [H|H] Hon; [congruence|exact H].
Qed.

Lemma run_events_reading (evs : list event) (s : state) :
  gated s -> samples_ok s -> first_derivative_zero s -> reading_ok s ->
  reading_ok (run_events evs s).
Proof.
  revert s. induction evs as [|ev evs IH]; intros s Hg Hok Hzero Hread;
    cbn [run_events fold_left]; [exact Hread|].
  destruct (deliver_invariant ev s Hg Hok Hzero) as (Hg' & Hok' & Hzero').
  apply IH; try assumption. apply deliver_reading; assumption.
Qed.

(** The read comes first in whatever [__acquireData] does. *)
Lemma acquireData_reads (data_n : list Q) (s : state) (t : task) :
  read_task s = Some (t, true) ->
  post (acquireData data_n) s
    (fun s' _ =>
       exists rest,
         trace s' = trace s ++ Daq (ReadAllAvailable (task_name t)) :: rest).
Proof.
  intros Hrt. unfold acquireData.
  apply post_mbind, post_gets. cbv beta iota. rewrite Hrt. cbn [snd fst].
  apply post_mbind, post_emit. cbv beta iota.
  repeat wp_step; simpl_state; exists []; reflexivity.
Qed.

(** X10: in every state that events can lead to from a new object, the data
    timer only runs while there is an open read task; a tick of the running
    timer therefore starts by reading that task (it cannot fail on a missing
    or closed task), and a tick while the timer is stopped does nothing. *)
Theorem ticks_read_an_open_task
  (evs : list event) (axis : Z) (dev : string) (channels : list string)
  (data_n : list Q) :
  (timer_active (run_events evs (init axis dev channels)) = true ->
   exists t rest,
     read_task (run_events evs (init axis dev channels)) = Some (t, true) /\
     effects_since (run_events evs (init axis dev channels))
       (deliver (run_events evs (init axis dev channels)) (Tick data_n))
     = Daq (ReadAllAvailable (task_name t)) :: rest) /\
  (timer_active (run_events evs (init axis dev channels)) = false ->
   deliver (run_events evs (init axis dev channels)) (Tick data_n)
   = run_events evs (init axis dev channels)).
Proof.
  destruct (init_invariant axis dev channels) as (Hg0 & Hok0 & Hz0).
  assert (Hread : reading_ok (run_events evs (init axis dev channels))).
  { apply run_events_reading; try assumption.
    unfold reading_ok, init. cbn. discriminate. }
  set (s := run_events evs (init axis dev channels)) in *.
  split.
  - intros Hon. destruct (Hread Hon) as (t & Hrt). exists t.
    unfold deliver, handle, mbind at 1, gets. rewrite Hon.
    unfold dataLoop, updateApproachPlots, mbind at 1.
    pose proof (acquireData_reads data_n s t Hrt) as Hacq. unfold post in Hacq.
    destruct (acquireData data_n s) as [s1 [[]|e]]; cbn [fst snd] in Hacq;
      destruct Hacq as (rest1 & Htr1).
      assert (Hrest : exists ext, trace (fst ((c <- gets consec ;;
                        req <- gets (fun s0 => consec_req (av s0)) ;;
                        (if negb (c =? req) then checkThreshold else ret tt)) s1))
                      = trace s1 ++ ext).
      { unfold mbind, gets.
        destruct (negb (consec s1 =? consec_req (av s1))).
        - pose proof (checkThreshold_sends s1) as Hc. unfold post in Hc.
          destruct Hc as [_ (ext & E & _)]. exists ext. exact E.
        - exists []. rewrite app_nil_r. reflexivity. }
      destruct Hrest as (ext & E). eexists. split; [exact Hrt|].
      apply effects_since_app. rewrite E, Htr1, <- app_assoc. reflexivity.
    + exists rest1. split; [exact Hrt|].
      cbn [fst]. apply effects_since_app. exact Htr1.
  - intros Hoff. unfold deliver, handle, mbind, gets. rewrite Hoff. reflexivity.
Qed.

Lemma ticks_read_an_open_task_witness :
  timer_active
    (run_events [StartButton (mkWidgets true (-1) (-1) 10 10 12 12 200 50 10 3)]
                (init 1 "Dev1" ["ai0"%string])) = true /\
  exists t rest,
    read_task
      (run_events [StartButton (mkWidgets true (-1) (-1) 10 10 12 12 200 50 10 3)]
                  (init 1 "Dev1" ["ai0"%string])) = Some (t, true) /\
    effects_since
      (run_events [StartButton (mkWidgets true (-1) (-1) 10 10 12 12 200 50 10 3)]
                  (init 1 "Dev1" ["ai0"%string]))
      (deliver
         (run_events [StartButton (mkWidgets true (-1) (-1) 10 10 12 12 200 50 10 3)]
                     (init 1 "Dev1" ["ai0"%string]))
         (Tick [1; 2]%Q))
    = Daq (ReadAllAvailable (task_name t)) :: rest.
Proof.
  assert (H : timer_active
                (run_events
                   [StartButton (mkWidgets true (-1) (-1) 10 10 12 12 200 50 10 3)]
                   (init 1 "Dev1" ["ai0"%string])) = true)
    by (vm_compute; reflexivity).
  split; [exact H|].
  exact (proj1 (ticks_read_an_open_task
                  [StartButton (mkWidgets true (-1) (-1) 10 10 12 12 200 50 10 3)]
                  1 "Dev1" ["ai0"%string] [1; 2]%Q) H).
Defined.

End ApproachReading.

Section ApproachAcquire.
Import Py NIpci6036E ANC150 Approach ApproachTrace.
Local Open Scope approach_scope.

Lemma setitem_length {A : Type} (l l' : list A) (i : Z) (v : A) :
  setitem l i v = Ok l' -> length l' = length l.
Proof.
  unfold setitem.
  set (j := if i <? 0 then i + Z.of_nat (length l) else i).
  destruct (j <? 0) eqn:H0; [discriminate|].
  destruct (Z.of_nat (length l) <=? j) eqn:H1; [discriminate|].
  apply Z.ltb_ge in H0. apply Z.leb_gt in H1.
  cbn [orb]. intros H.
  assert (E : l' = firstn (Z.to_nat j) l ++ v :: skipn (S (Z.to_nat j)) l)
    by congruence.
  rewrite E, length_app, length_firstn.
  change (length (v :: skipn (S (Z.to_nat j)) l))
    with (S (length (skipn (S (Z.to_nat j)) l))).
  rewrite length_skipn. lia.
Qed.

(** [__acquireData] either appends the whole chunk, with a time and a
    derivative for every sample, or leaves the samples as they were. *)
Lemma acquireData_all_or_nothing (data_n : list Q) (s : state) (ts vs : list Q) :
  data s = [ts; vs] ->
  post (acquireData data_n) s
    (fun s' r =>
       match r with
       | Ok _ =>
           exists ts_n der_n,
             length ts_n = length data_n /\ length der_n = length data_n /\
             data s' = [ts ++ ts_n; vs ++ data_n] /\
             der_arr s' = der_arr s ++ der_n
       | Raise _ => data s' = data s /\ der_arr s' = der_arr s
       end).
Proof.
  intros Hdata. unfold acquireData.
  repeat wp_step; simpl_state.
  all: try (split; reflexivity).
  all: match goal with
       | H : linspace _ _ (Z.of_nat (length ?d)) = Ok ?a |- _ =>
           assert (Hlin : length a = length d)
             by (apply Nat2Z.inj; exact (linspace_length _ _ _ _ H))
       end.
  all: try match goal with
           | H : setitem (np_zeros (length ?d)) 0 _ = Ok ?der |- _ =>
               assert (Hset : length der = length d)
                 by (rewrite (setitem_length _ _ _ _ H); apply np_zeros_length)
           end.
  all: match goal with
       | H : derivatives_within ?d ?time ?der = _ |- _ =>
           destruct (derivatives_within_ok d time der) as (der' & Hd & Hlen & _);
             [ first [ now rewrite np_zeros_length | now rewrite Hset ]
             | first [ now rewrite length_map, np_zeros_length
                     | now rewrite length_map, Hset ]
             | rewrite Hd in H ]
       end.
  all: try discriminate.
  all: match goal with H : Ok _ = Ok _ |- _ => injection H as <- end.
  all: rewrite Hdata; cbn [np_append1].
  all: eexists _, der'; split; [|split; [|split; reflexivity]];
    first [ now rewrite length_map
          | rewrite Hlen; first [ apply np_zeros_length | exact Hset ] ].
Qed.

(** X11: [__acquireData] is all or nothing on a well-formed store.  When it
    returns, the value row has grown by exactly the samples read, in order,
    and the time row and the derivatives by one entry for each; when it
    raises, the three are as they were. *)
Theorem acquisition_is_all_or_nothing
  (data_n : list Q) (s : state) (ts vs : list Q) :
  data s = [ts; vs] ->
  match snd (acquireData data_n s) with
  | Ok _ =>
      exists ts_n der_n,
        length ts_n = length data_n /\ length der_n = length data_n /\
        data (fst (acquireData data_n s)) = [ts ++ ts_n; vs ++ data_n] /\
        der_arr (fst (acquireData data_n s)) = der_arr s ++ der_n
  | Raise _ =>
      data (fst (acquireData data_n s)) = data s /\
      der_arr (fst (acquireData data_n s)) = der_arr s
  end.
Proof. exact (acquireData_all_or_nothing data_n s ts vs). Qed.

Lemma acquisition_is_all_or_nothing_witness :
  snd (acquireData [1; 2]%Q
         (mkState default_approachVars 1 "Dev1" ["ai0"%string] [[]; []] [] 0 0 None
              [None; None; None] (Some (mkTask "read" ["Dev1"%string], true))
              true false NotRunning "" [])) = Ok tt /\
  exists ts_n der_n,
    length ts_n = 2%nat /\ length der_n = 2%nat /\
    data (fst (acquireData [1; 2]%Q
                 (mkState default_approachVars 1 "Dev1" ["ai0"%string] [[]; []] [] 0 0 None
              [None; None; None] (Some (mkTask "read" ["Dev1"%string], true))
              true false NotRunning "" [])))
    = [[] ++ ts_n; [] ++ [1; 2]%Q] /\
    der_arr (fst (acquireData [1; 2]%Q
                    (mkState default_approachVars 1 "Dev1" ["ai0"%string] [[]; []] [] 0 0 None
              [None; None; None] (Some (mkTask "read" ["Dev1"%string], true))
              true false NotRunning "" [])))
    = [] ++ der_n.
Proof.
  pose proof (acquisition_is_all_or_nothing [1; 2]%Q
                (mkState default_approachVars 1 "Dev1" ["ai0"%string] [[]; []] [] 0 0 None
              [None; None; None] (Some (mkTask "read" ["Dev1"%string], true))
              true false NotRunning "" []) [] [] eq_refl) as H.
  assert (E : snd (acquireData [1; 2]%Q
                     (mkState default_approachVars 1 "Dev1" ["ai0"%string] [[]; []] [] 0 0 None
              [None; None; None] (Some (mkTask "read" ["Dev1"%string], true))
              true false NotRunning "" [])) = Ok tt)
    by (vm_compute; reflexivity).
  rewrite E in H. split; [exact E|exact H].
Defined.

End ApproachAcquire.

Section ApproachEmptyChunk.
Import Py NIpci6036E ANC150 Approach ApproachTrace.
Local Open Scope approach_scope.

Lemma sample_period_Ok (r : Q) :
  ~ (r == 0)%Q -> sample_period r = Ok ((2 # 10) / r)%Q.
Proof.
  intros Hr. unfold sample_period.
  destruct (Qeq_bool r 0) eqn:E; [|reflexivity].
  apply Qeq_bool_iff in E. contradiction.
Qed.

Lemma acquire_nothing_later (s : state) (t : task) (x : Q) (ts vs : list Q) :
  read_task s = Some (t, true) ->
  ~ (rate (av s) == 0)%Q ->
  data s = [x :: ts; vs] ->
  acquireData [] s
  = (set_trace (trace s ++ [Daq (ReadAllAvailable (task_name t))]) s,
     Raise IndexError).
Proof.
  intros Hrt Hrate Hdata.
  unfold acquireData, mbind, gets, lift, emit, modify, raise, ret.
  rewrite Hrt. cbn [snd fst]. simpl_state. rewrite Hdata.
  change (np_size [x :: ts; vs] =? 0)%nat with false. cbv iota.
  change (linspace 1 (inject_Z (Z.of_nat (length (@nil Q)))) (Z.of_nat (length (@nil Q))))
    with (@Ok (list Q) []).
  cbv iota beta.
  rewrite (sample_period_Ok _ Hrate).
  unfold index2. change (index [x :: ts; vs] 0) with (Ok (x :: ts)). cbn [bind].
  destruct (index_in_range (x :: ts) (-1)) as (last & ->); [cbn [length]; lia|].
  reflexivity.
Qed.

Lemma acquire_nothing_first (s : state) (t : task) :
  read_task s = Some (t, true) ->
  ~ (rate (av s) == 0)%Q ->
  data s = [[]; []] ->
  acquireData [] s
  = (set_der_arr (der_arr s ++ [])
       (set_data [[]; []]
          (set_trace (trace s ++ [Daq (ReadAllAvailable (task_name t))]) s)),
     Ok tt).
Proof.
  intros Hrt Hrate Hdata.
  unfold acquireData, mbind, gets, lift, emit, modify, raise, ret.
  rewrite Hrt. cbn [snd fst]. simpl_state. rewrite Hdata.
  change (np_size [[]; []] =? 0)%nat with true. cbv iota.
  change (linspace 0 (inject_Z (Z.of_nat (length (@nil Q)) - 1))
            (Z.of_nat (length (@nil Q))))
    with (@Ok (list Q) []).
  cbv iota beta.
  rewrite (sample_period_Ok _ Hrate). reflexivity.
Qed.

(** X12: a tick that finds no new sample.  On the empty store of a run that
    has just started it is accepted and changes nothing; once a sample is
    stored, [__acquireData] raises IndexError on the missing first sample of
    the chunk, so [__dataLoop] ends there: samples, counter and stage stay
    as they were and the threshold is not checked on that tick. *)
Theorem tick_without_samples
  (s : state) (t : task) :
  read_task s = Some (t, true) ->
  ~ (rate (av s) == 0)%Q ->
  (data s = [[]; []] ->
   snd (acquireData [] s) = Ok tt /\
   data (fst (acquireData [] s)) = data s) /\
  (forall x ts vs,
     data s = [x :: ts; vs] ->
     snd (dataLoop [] s) = Raise IndexError /\
     data (fst (dataLoop [] s)) = data s /\
     der_arr (fst (dataLoop [] s)) = der_arr s /\
     consec (fst (dataLoop [] s)) = consec s /\
     stage (fst (dataLoop [] s)) = stage s /\
     effects_since s (fst (dataLoop [] s))
     = [Daq (ReadAllAvailable (task_name t))]).
Proof.
  intros Hrt Hrate. split.
  - intros Hdata. rewrite (acquire_nothing_first s t Hrt Hrate Hdata).
    simpl_state. rewrite Hdata. split; reflexivity.
  - intros x ts vs Hdata. unfold dataLoop, updateApproachPlots, mbind.
    rewrite (acquire_nothing_later s t x ts vs Hrt Hrate Hdata).
    simpl_state. repeat split.
    apply effects_since_app. reflexivity.
Qed.

Lemma tick_without_samples_witness :
  snd (dataLoop []
         (mkState default_approachVars 1 "Dev1" ["ai0"%string] [[0]; [5]]%Q [0]%Q
              0 0 None [None; None; None]
              (Some (mkTask "read" ["Dev1"%string], true))
              true false NotRunning "" [])) = Raise IndexError /\
  effects_since
    (mkState default_approachVars 1 "Dev1" ["ai0"%string] [[0]; [5]]%Q [0]%Q
              0 0 None [None; None; None]
              (Some (mkTask "read" ["Dev1"%string], true))
              true false NotRunning "" [])
    (fst (dataLoop []
            (mkState default_approachVars 1 "Dev1" ["ai0"%string] [[0]; [5]]%Q [0]%Q
              0 0 None [None; None; None]
              (Some (mkTask "read" ["Dev1"%string], true))
              true false NotRunning "" [])))
  = [Daq (ReadAllAvailable "read")].
Proof.
  assert (Hrate : ~ (rate (av (mkState default_approachVars 1 "Dev1" ["ai0"%string] [[0]; [5]]%Q [0]%Q
              0 0 None [None; None; None]
              (Some (mkTask "read" ["Dev1"%string], true))
              true false NotRunning "" [])) == 0)%Q)
    by (intros H; vm_compute in H; discriminate).
  destruct (proj2 (tick_without_samples
                     (mkState default_approachVars 1 "Dev1" ["ai0"%string] [[0]; [5]]%Q [0]%Q
              0 0 None [None; None; None]
              (Some (mkTask "read" ["Dev1"%string], true))
              true false NotRunning "" [])
                     (mkTask "read" ["Dev1"%string]) eq_refl Hrate)
                  0%Q [] [5]%Q eq_refl)
    as (Hres & _ & _ & _ & _ & Heff).
  split; [exact Hres|exact Heff].
Defined.

End ApproachEmptyChunk.

Section ApproachStages.
Import Py NIpci6036E ANC150 Approach ApproachTrace.
Local Open Scope approach_scope.

Lemma is_axis_valid (axis : Z) : 1 <= axis <= 3 -> is_axis axis = Ok tt.
Proof.
  intros H. unfold is_axis, check.
  destruct (1 <=? axis) eqn:H1; [|apply Z.leb_gt in H1; lia].
  destruct (axis <=? 3) eqn:H2; [|apply Z.leb_gt in H2; lia]. reflexivity.
Qed.

(** The check that ends the last stage. *)
Lemma checkThreshold_completes (s : state) (d thr : Q) :
  1 <= z s <= 3 ->
  (stage s + 1 <? approach_stages (av s)) = false ->
  consec s + 1 = consec_req (av s) ->
  index (der_arr s) (-1) = Ok d ->
  index (threshold (av s)) (stage s) = Ok thr ->
  (d < thr)%Q ->
  checkThreshold s
  = (mkState (av s) (z s) (daq_dev s) (chan s) (data s) (der_arr s)
             (consec s + 1) (stage s) (steps s) (anc_freq s)
             (match read_task s with
              | Some (t, _) => Some (t, false)
              | None => None
              end)
             false true NotRunning "Approach complete"
             (trace s ++ [ThreadTerminate; Anc (Stop (z s)); TimerStop]
                ++ match read_task s with
                   | Some (t, true) => [Daq (CloseTask (task_name t))]
                   | _ => []
                   end),
     Ok tt).
Proof.
  intros Hz Hlast Hc Hd Hthr Hlt.
  unfold checkThreshold, mbind at 1, gets at 1.
  unfold mbind at 1, lift at 1. rewrite Hd.
  unfold mbind at 1, gets at 1.
  unfold mbind at 1, gets at 1.
  unfold mbind at 1, lift at 1. rewrite Hthr.
  assert (Hcmp : (d ?= thr)%Q = Lt) by (apply Qlt_alt; exact Hlt).
  rewrite Hcmp.
  unfold mbind at 1, modify at 1.
  unfold mbind at 1, gets at 1.
  unfold mbind at 1, gets at 1.
  simpl_state. rewrite Hc, Z.eqb_refl.
  rewrite endApproachStage_stops;
    [|simpl_state; apply is_axis_valid; exact Hz
     |simpl_state; rewrite Hlast; reflexivity].
  simpl_state. reflexivity.
Qed.

(** X13: the approach completes.  On the last stage, when the counter is one
    short of [consec_req] and the latest derivative after the acquisition is
    below the threshold, the tick stops the axis and the data timer, closes
    the read task, leaves no thread running, reports 'Approach complete' and
    enables the start button again. *)
Theorem last_hit_completes_the_approach
  (data_n : list Q) (s : state) (d thr : Q) :
  1 <= z s <= 3 ->
  (stage s + 1 <? approach_stages (av s)) = false ->
  consec s + 1 = consec_req (av s) ->
  snd (acquireData data_n s) = Ok tt ->
  index (der_arr (fst (acquireData data_n s))) (-1) = Ok d ->
  index (threshold (av s)) (stage s) = Ok thr ->
  (d < thr)%Q ->
  snd (dataLoop data_n s) = Ok tt /\
  timer_active (fst (dataLoop data_n s)) = false /\
  thread (fst (dataLoop data_n s)) = NotRunning /\
  start_enabled (fst (dataLoop data_n s)) = true /\
  doc (fst (dataLoop data_n s)) = "Approach complete"%string /\
  stage (fst (dataLoop data_n s)) = stage s /\
  (forall t o, read_task (fst (dataLoop data_n s)) = Some (t, o) -> o = false) /\
  exists reads closes,
    effects_since s (fst (dataLoop data_n s))
    = reads ++ [ThreadTerminate; Anc (Stop (z s)); TimerStop] ++ closes /\
    (forall e, In e reads -> exists t, e = Daq (ReadAllAvailable t)) /\
    (forall e, In e closes -> exists t, e = Daq (CloseTask t)).
Proof.
  intros Hz Hlast Hc Hok Hd Hthr Hlt.
  pose proof (acquireData_post data_n s) as Hacq. unfold post in Hacq.
  assert (Hrun : dataLoop data_n s = checkThreshold (fst (acquireData data_n s))).
  { unfold dataLoop, updateApproachPlots, mbind, gets.
    destruct (acquireData data_n s) as [s1 r]. cbn [fst snd] in *. subst r.
    destruct Hacq as ((Hav & _ & Hc1 & _) & _).
    replace (consec s1 =? consec_req (av s1)) with false; [reflexivity|].
    symmetry. apply Z.eqb_neq. rewrite Hc1, Hav. lia. }
  rewrite Hrun. clear Hrun.
  destruct (acquireData data_n s) as [s1 r]. cbn [fst snd] in *. subst r.
  destruct Hacq as ((Hav & Hz1 & Hc1 & Hst1 & _ & _ & _ & Hrt & _ & reads & Htr & Hreads) & _).
  rewrite (checkThreshold_completes s1 d thr)
    by (rewrite ?Hz1, ?Hav, ?Hst1, ?Hc1; assumption).
  simpl_state.
  split; [reflexivity|]. split; [reflexivity|]. split; [reflexivity|].
  split; [reflexivity|]. split; [reflexivity|]. split; [exact Hst1|].
  split.
  { intros t o. destruct (read_task s1) as [[t' o']|]; [|discriminate].
    now intros [= _ <-]. }
  exists reads.
  exists (match read_task s1 with
          | Some (t, true) => [Daq (CloseTask (task_name t))]
          | _ => []
          end).
  split; [|split].
  - apply effects_since_app. rewrite Htr, Hz1, <- app_assoc. reflexivity.
  - exact Hreads.
  - intros e. destruct (read_task s1) as [[t [|]]|]; intros [];
      [subst e; eauto|contradiction].
Qed.

(** X14: how a stage change begins.  When the thread is started after a
    stage, it first steps the axis down by the step count of that stage and
    sleeps for steps / frequency seconds, before any setting of the next
    stage is written.  A frequency of 0 Hz, which [write_freq] accepts, makes
    that sleep a division by zero: the steps have been sent, the thread ends
    there, and stage and counter stay as they were. *)
Theorem stage_change_backs_off_first (s : state) (n f : Z) :
  thread s = Started -> stage s <> -1 ->
  steps s = Some n -> 0 < n -> 1 <= z s <= 3 ->
  index (anc_freq s) (z s - 1) = Ok (Some f) ->
  effects_since s (fst (thread_step s))
  = Anc (Stepd (z s) (Count n))
    :: (if f =? 0 then [] else [Sleep (inject_Z n / inject_Z f)]) /\
  snd (thread_step s)
  = (if f =? 0 then Raise ZeroDivisionError else Ok tt) /\
  thread (fst (thread_step s)) = (if f =? 0 then NotRunning else BackingOff) /\
  stage (fst (thread_step s)) = stage s /\
  consec (fst (thread_step s)) = consec s.
Proof.
  intros Ht Hst Hn Hpos Hz Hf.
  assert (Hstage : negb (stage s =? -1) = true)
    by (apply negb_true_iff, Z.eqb_neq; exact Hst).
  assert (Hstep : is_step (Count n) = Ok tt).
  { unfold is_step, check. destruct (0 <? n) eqn:E; [reflexivity|].
    apply Z.ltb_ge in E. lia. }
  pose proof (is_axis_valid _ Hz) as Haxis.
  assert (Hpost : post thread_step s
            (fun s' r =>
               effects_since s s'
               = Anc (Stepd (z s) (Count n))
                 :: (if f =? 0 then [] else [Sleep (inject_Z n / inject_Z f)]) /\
               r = (if f =? 0 then Raise ZeroDivisionError else Ok tt) /\
               thread s' = (if f =? 0 then NotRunning else BackingOff) /\
               stage s' = stage s /\ consec s' = consec s));
    [|exact Hpost].
  apply post_thread_step.
  unfold run_phase, step_down_and_wait, step_down, query.
  repeat wp_step; simpl_state; try congruence;
    match goal with
    | H : steps s = Some ?m |- _ => assert (m = n) by congruence; subst m
    end;
    try congruence;
    match goal with
    | H : index (anc_freq s) _ = Ok (Some ?g) |- _ =>
        assert (g = f) by congruence; subst g
    end;
    match goal with H : (f =? 0) = _ |- _ => rewrite H end;
    repeat split;
    apply effects_since_app; rewrite <- ?app_assoc; reflexivity.
Qed.

Lemma last_hit_completes_the_approach_witness :
  snd (dataLoop [4; 1]%Q
         (mkState (mkVars [(-1 # 2)%Q] [10] 1 [12] [200] 10 1) 1 "Dev1"
              ["ai0"%string] [[0]; [5]]%Q [0]%Q 0 0 None
              [Some 200; None; None]
              (Some (mkTask "read" ["Dev1"%string], true))
              true false NotRunning "" [])) = Ok tt /\
  timer_active
    (fst (dataLoop [4; 1]%Q
            (mkState (mkVars [(-1 # 2)%Q] [10] 1 [12] [200] 10 1) 1 "Dev1"
              ["ai0"%string] [[0]; [5]]%Q [0]%Q 0 0 None
              [Some 200; None; None]
              (Some (mkTask "read" ["Dev1"%string], true))
              true false NotRunning "" []))) = false /\
  doc (fst (dataLoop [4; 1]%Q
              (mkState (mkVars [(-1 # 2)%Q] [10] 1 [12] [200] 10 1) 1 "Dev1"
              ["ai0"%string] [[0]; [5]]%Q [0]%Q 0 0 None
              [Some 200; None; None]
              (Some (mkTask "read" ["Dev1"%string], true))
              true false NotRunning "" []))) = "Approach complete"%string.
Proof.
  destruct (last_hit_completes_the_approach [4; 1]%Q
              (mkState (mkVars [(-1 # 2)%Q] [10] 1 [12] [200] 10 1) 1 "Dev1"
              ["ai0"%string] [[0]; [5]]%Q [0]%Q 0 0 None
              [Some 200; None; None]
              (Some (mkTask "read" ["Dev1"%string], true))
              true false NotRunning "" [])
              (-30000 # 200) (-1 # 2))
    as (Hres & Htimer & _ & _ & Hdoc & _).
  - cbn; lia.
  - reflexivity.
  - reflexivity.
  - vm_compute; reflexivity.
  - vm_compute; reflexivity.
  - reflexivity.
  - reflexivity.
  - split; [exact Hres|split; [exact Htimer|exact Hdoc]].
Defined.

Lemma stage_change_backs_off_first_witness :
  effects_since
    (mkState default_approachVars 1 "Dev1" ["ai0"%string] [[]; []] [] 3 0
              (Some 10) [Some 0; None; None]
              (Some (mkTask "read" ["Dev1"%string], true))
              true false Started "" [])
    (fst (thread_step
            (mkState default_approachVars 1 "Dev1" ["ai0"%string] [[]; []] [] 3 0
              (Some 10) [Some 0; None; None]
              (Some (mkTask "read" ["Dev1"%string], true))
              true false Started "" [])))
  = [Anc (Stepd 1 (Count 10))] /\
  snd (thread_step
         (mkState default_approachVars 1 "Dev1" ["ai0"%string] [[]; []] [] 3 0
              (Some 10) [Some 0; None; None]
              (Some (mkTask "read" ["Dev1"%string], true))
              true false Started "" [])) = Raise ZeroDivisionError.
Proof.
  destruct (stage_change_backs_off_first
              (mkState default_approachVars 1 "Dev1" ["ai0"%string] [[]; []] [] 3 0
              (Some 10) [Some 0; None; None]
              (Some (mkTask "read" ["Dev1"%string], true))
              true false Started "" []) 10 0)
    as (Heff & Hres & _).
  - reflexivity.
  - cbn; lia.
  - reflexivity.
  - lia.
  - cbn; lia.
  - reflexivity.
  - split; [exact Heff|exact Hres].
Defined.

End ApproachStages.

(** ** Single steps and the live strain plot *)

Section StepFacts.
Import Py NIpci6036E ANC150 Approach StepUI.
Local Open Scope approach_scope.

Lemma is_volt_valid (v : Z) : 0 <= v <= 70 -> is_volt v = Ok tt.
Proof.
  intros H. unfold is_volt, check.
  destruct (0 <=? v) eqn:H1; [|apply Z.leb_gt in H1; lia].
  destruct (v <=? 70) eqn:H2; [|apply Z.leb_gt in H2; lia]. reflexivity.
Qed.

Lemma is_freq_valid (f : Z) : 0 <= f <= 8000 -> is_freq f = Ok tt.
Proof.
  intros H. unfold is_freq, check.
  destruct (0 <=? f) eqn:H1; [|apply Z.leb_gt in H1; lia].
  destruct (f <=? 8000) eqn:H2; [|apply Z.leb_gt in H2; lia]. reflexivity.
Qed.

Lemma is_step_valid (n : Z) : 0 < n -> is_step (Count n) = Ok tt.
Proof.
  intros H. unfold is_step, check.
  destruct (0 <? n) eqn:E; [reflexivity|apply Z.ltb_ge in E; lia].
Qed.

Lemma setitem_in_range {A : Type} (l : list A) (i : Z) (v : A) :
  0 <= i < Z.of_nat (length l) -> exists l', setitem l i v = Ok l'.
Proof.
  intros Hi. unfold setitem.
  destruct (i <? 0) eqn:Hneg; [apply Z.ltb_lt in Hneg; lia|].
  destruct (i <? 0) eqn:H0; [discriminate|].
  destruct (Z.of_nat (length l) <=? i) eqn:H1; [apply Z.leb_le in H1; lia|].
  cbn [orb]. eauto.
Qed.

(** X15: [StepManager.step] on an existing axis, with a voltage of 0 to
    70 V and a frequency of 0 to 8000 Hz, never fails.  It sets step mode,
    the voltage and the frequency, in this order, and then moves: up by
    [steps] if that is positive, down by [-steps] if it is negative, and not
    at all if it is zero. *)
Theorem step_moves_by_sign (axes : list Z) (axis steps volt freq a : Z) (s : state) :
  length (anc_freq s) = 3%nat ->
  index axes axis = Ok a -> 1 <= a <= 3 ->
  0 <= volt <= 70 -> 0 <= freq <= 8000 ->
  snd (step axes axis steps volt freq s) = Ok tt /\
  effects_since s (fst (step axes axis steps volt freq s))
  = [Anc (Setm a "stp"); Anc (Setv a volt); Anc (Setf a freq)]
    ++ (if 0 <? steps then [Anc (Stepu a (Count steps))]
        else if steps <? 0 then [Anc (Stepd a (Count (- steps)))]
        else []).
Proof.
  intros Hmemo Ha Haxis Hvolt Hfreq.
  pose proof (is_axis_valid _ Haxis) as Hax.
  pose proof (is_volt_valid _ Hvolt) as Hv.
  pose proof (is_freq_valid _ Hfreq) as Hf.
  assert (Hmode : is_mode "stp" = Ok tt) by reflexivity.
  destruct (setitem_in_range (anc_freq s) (a - 1) (Some freq)) as (memo & Hset);
    [rewrite Hmemo; lia|].
  assert (Hpost : post (step axes axis steps volt freq) s
            (fun s' r =>
               r = Ok tt /\
               effects_since s s'
               = [Anc (Setm a "stp"); Anc (Setv a volt); Anc (Setf a freq)]
                 ++ (if 0 <? steps then [Anc (Stepu a (Count steps))]
                     else if steps <? 0 then [Anc (Stepd a (Count (- steps)))]
                     else [])));
    [|destruct Hpost; auto].
  unfold step, write_mode, write_volt, write_freq, step_up, step_down, query.
  repeat wp_step; simpl_state; try congruence;
    repeat match goal with
           | H : Ok _ = Ok _ |- _ => injection H as H; try subst
           end;
    try congruence.
  all: try match goal with
           | H : is_step (Count ?k) = Raise _ |- _ =>
               rewrite is_step_valid in H; [discriminate|]
           end.
  all: try match goal with
           | H : (0 <? _) = true |- 0 < _ => apply Z.ltb_lt in H; lia
           | H : (_ <? 0) = true |- 0 < _ => apply Z.ltb_lt in H; lia
           end.
  all: split; [reflexivity|];
    apply effects_since_app; simpl_state; rewrite <- ?app_assoc; reflexivity.
Qed.

Lemma write_mode_gnd (a : Z) (s : state) :
  1 <= a <= 3 ->
  write_mode a "gnd" s = (set_trace (trace s ++ [Anc (Setm a "gnd")]) s, Ok tt).
Proof.
  intros Ha. unfold write_mode, query, mbind, lift, emit, modify.
  rewrite (is_axis_valid _ Ha). reflexivity.
Qed.

Lemma write_mode_bad_axis (a : Z) (m : string) (s : state) :
  ~ 1 <= a <= 3 -> write_mode a m s = (s, Raise ValueError).
Proof.
  intros Ha. unfold write_mode, mbind, lift.
  assert (E : is_axis a = Raise ValueError).
  { unfold is_axis, check.
    destruct (1 <=? a) eqn:H1; [|reflexivity].
    destruct (a <=? 3) eqn:H2; [|reflexivity].
    apply Z.leb_le in H1, H2. lia. }
  rewrite E. reflexivity.
Qed.

Lemma ground_each (good : list Z) (s : state) :
  Forall (fun a => 1 <= a <= 3) good ->
  forall rest,
    for_each (good ++ rest) (fun i => write_mode i "gnd") s
    = for_each rest (fun i => write_mode i "gnd")
        (set_trace (trace s ++ map (fun a => Anc (Setm a "gnd")) good) s).
Proof.
  intros Hgood. revert s.
  induction Hgood as [|a good Ha _ IH]; intros s rest.
  - cbn [app map]. destruct s. cbn. rewrite app_nil_r. reflexivity.
  - cbn [app for_each map]. unfold mbind at 1. rewrite (write_mode_gnd a s Ha).
    rewrite IH. unfold set_trace at 1 3. simpl_state.
    rewrite <- app_assoc. reflexivity.
Qed.

Lemma stop_axes_value (s : state) :
  stop_axes s
  = (set_trace (trace s ++ [Anc (Stop 1); Anc (Stop 2); Anc (Stop 3)]) s, Ok tt).
Proof.
  unfold stop_axes. change (range 1 4 1) with [1; 2; 3].
  cbn [for_each]. unfold stop_axis, query, mbind, lift, emit, modify, ret.
  change (is_axis 1) with (Ok tt). change (is_axis 2) with (Ok tt).
  change (is_axis 3) with (Ok tt). cbv beta iota.
  unfold set_trace. simpl_state. rewrite <- !app_assoc. reflexivity.
Qed.

(** X16: [StepManager.stopAll] stops all three axes of the controller,
    whatever axes it was given, and then grounds its own axes in order.  If
    one of them does not exist, the ones before it have been grounded, the
    call ends in ValueError and the axes after it keep their mode. *)
Theorem stopAll_stops_then_grounds (good : list Z) (s : state) :
  Forall (fun a => 1 <= a <= 3) good ->
  (snd (stopAll good s) = Ok tt /\
   effects_since s (fst (stopAll good s))
   = [Anc (Stop 1); Anc (Stop 2); Anc (Stop 3)]
     ++ map (fun a => Anc (Setm a "gnd")) good) /\
  (forall bad rest,
     ~ 1 <= bad <= 3 ->
     snd (stopAll (good ++ bad :: rest) s) = Raise ValueError /\
     effects_since s (fst (stopAll (good ++ bad :: rest) s))
     = [Anc (Stop 1); Anc (Stop 2); Anc (Stop 3)]
       ++ map (fun a => Anc (Setm a "gnd")) good).
Proof.
  intros Hgood. split.
  - unfold stopAll, mbind. rewrite stop_axes_value.
    rewrite <- (app_nil_r good) at 1 2. rewrite (ground_each good _ Hgood []).
    cbn [for_each ret fst snd]. simpl_state. split; [reflexivity|].
    apply effects_since_app. rewrite <- app_assoc. reflexivity.
  - intros bad rest Hbad. unfold stopAll, mbind.
    rewrite stop_axes_value.
    rewrite (ground_each good _ Hgood (bad :: rest)).
    cbn [for_each]. unfold mbind. rewrite (write_mode_bad_axis bad _ _ Hbad).
    cbn [fst snd]. simpl_state. split; [reflexivity|].
    apply effects_since_app. rewrite <- app_assoc. reflexivity.
Qed.

(** *** The memory of the live plot *)

Lemma forget_never_ends (fuel : nat) (bound : Z) (data : list Q) :
  bound < 0 -> forget fuel bound data = None.
Proof.
  intros Hb. revert data. induction fuel as [|fuel IH]; intros data;
    cbn [forget]; [reflexivity|].
  destruct (bound <? Z.of_nat (length data)) eqn:E;
    [apply IH|apply Z.ltb_ge in E; lia].
Qed.

Lemma forget_latest (fuel : nat) (bound : Z) (data : list Q) :
  0 <= bound -> (2 <= fuel)%nat ->
  forget fuel bound data
  = Some (skipn (length data - Z.to_nat bound) data).
Proof.
  intros Hb Hfuel. destruct fuel as [|[|fuel]]; try lia.
  cbn [forget].
  destruct (bound <? Z.of_nat (length data)) eqn:E.
  - apply Z.ltb_lt in E.
    rewrite slice_suffix by lia.
    replace (Z.to_nat (Z.of_nat (length data) - bound))
      with (length data - Z.to_nat bound)%nat by lia.
    rewrite length_skipn.
    destruct (bound <? Z.of_nat (length data - (length data - Z.to_nat bound)))
      eqn:E'; [apply Z.ltb_lt in E'; lia|reflexivity].
  - apply Z.ltb_ge in E.
    replace (length data - Z.to_nat bound)%nat with 0%nat by lia. reflexivity.
Qed.

(** X17: the live strain plot keeps the latest [memory * 10 * rate] samples:
    after an acquisition the buffer is what it held followed by the new
    samples, cut to that many of the latest.  For a negative bound the loop
    that cuts the buffer never ends. *)
Theorem live_plot_keeps_the_latest
  (fuel : nat) (memory rate : Z) (data_n data : list Q) :
  (0 <= memory * (10 * rate) -> (2 <= fuel)%nat ->
   exists kept,
     acquireData fuel memory rate data_n data = Some kept /\
     kept = skipn (length (data ++ data_n) - Z.to_nat (memory * (10 * rate)))
              (data ++ data_n) /\
     Z.of_nat (length kept)
     = Z.min (Z.of_nat (length data + length data_n)) (memory * (10 * rate))) /\
  (memory * (10 * rate) < 0 ->
   acquireData fuel memory rate data_n data = None).
Proof.
  split.
  - intros Hb Hfuel. eexists. split; [apply forget_latest; assumption|].
    split; [reflexivity|]. rewrite length_skipn, length_app. lia.
  - intros Hb. apply forget_never_ends. exact Hb.
Qed.

Lemma step_moves_by_sign_witness :
  snd (step [1; 2; 3] 0 (-5) 12 200 (init 1 "Dev1" ["ai0"%string])) = Ok tt /\
  effects_since (init 1 "Dev1" ["ai0"%string])
    (fst (step [1; 2; 3] 0 (-5) 12 200 (init 1 "Dev1" ["ai0"%string])))
  = [Anc (Setm 1 "stp"); Anc (Setv 1 12); Anc (Setf 1 200);
     Anc (Stepd 1 (Count 5))].
Proof.
  apply (step_moves_by_sign [1; 2; 3] 0 (-5) 12 200 1
           (init 1 "Dev1" ["ai0"%string]));
    solve [reflexivity | lia].
Defined.

Lemma stopAll_stops_then_grounds_witness :
  snd (stopAll [1; 2] (init 1 "Dev1" ["ai0"%string])) = Ok tt /\
  effects_since (init 1 "Dev1" ["ai0"%string])
    (fst (stopAll [1; 2] (init 1 "Dev1" ["ai0"%string])))
  = [Anc (Stop 1); Anc (Stop 2); Anc (Stop 3);
     Anc (Setm 1 "gnd"); Anc (Setm 2 "gnd")].
Proof.
  apply (stopAll_stops_then_grounds [1; 2] (init 1 "Dev1" ["ai0"%string])).
  repeat constructor; lia.
Defined.

Lemma live_plot_keeps_the_latest_witness :
  acquireData 2 1 1 [10; 11; 12]%Q [1; 2; 3; 4; 5; 6; 7; 8; 9]%Q
  = Some [3; 4; 5; 6; 7; 8; 9; 10; 11; 12]%Q.
Proof.
  destruct (proj1 (live_plot_keeps_the_latest 2 1 1 [10; 11; 12]%Q
                     [1; 2; 3; 4; 5; 6; 7; 8; 9]%Q)
                  ltac:(lia) ltac:(lia))
    as (kept & E & K & _).
  rewrite E, K. reflexivity.
Defined.

End StepFacts.

(** ** Group names and time spans *)

Section GroupNames.
Import Py TDMS.
Local Open Scope string_scope.

Lemma split_nonempty (sep : ascii) (s : string) : split sep s <> [].
Proof.
  destruct s as [|c rest]; cbn [split]; [discriminate|].
  destruct (Ascii.eqb c sep); [discriminate|].
  destruct (split sep rest); discriminate.
Qed.

(** A prefix without the separator stays in front of the first piece. *)
Lemma split_prepend (sep : ascii) (a rest : string) :
  lacks sep a ->
  split sep (a ++ rest)
  = match split sep rest with
    | [] => []
    | piece :: pieces => (a ++ piece) :: pieces
    end.
Proof.
  induction a as [|c a IH]; intros Ha; cbn [append].
  - destruct (split sep rest); reflexivity.
  - destruct Ha as [Hc Ha]. cbn [split]. rewrite Hc, (IH Ha).
    destruct (split sep rest) as [|piece pieces] eqn:E;
      [destruct (split_nonempty _ _ E)|reflexivity].
Qed.

Lemma split_at (sep : ascii) (rest : string) :
  split sep (String sep rest) = "" :: split sep rest.
Proof. cbn [split]. rewrite Ascii.eqb_refl. reflexivity. Qed.

Lemma split_whole (sep : ascii) (a : string) :
  lacks sep a -> split sep a = [a].
Proof.
  induction a as [|c a IH]; intros Ha; [reflexivity|].
  destruct Ha as [Hc Ha]. cbn [split]. rewrite Hc, (IH Ha). reflexivity.
Qed.

Lemma append_empty (a : string) : a ++ "" = a.
Proof. induction a as [|c a IH]; [reflexivity|]. cbn. rewrite IH. reflexivity. Qed.

Lemma lacks_append (c : ascii) (a b : string) :
  lacks c a -> lacks c b -> lacks c (a ++ b).
Proof.
  induction a as [|d a IH]; intros Ha Hb; [exact Hb|].
  destruct Ha as [Hd Ha]. split; [exact Hd|exact (IH Ha Hb)].
Qed.

(** The three numbers of one axis, written after a two-letter tag and
    divided by hyphens, are read back as they were written. *)
Lemma split_axis (tag lo hi n : string) :
  lacks "-" tag -> lacks "-" lo -> lacks "-" hi -> lacks "-" n ->
  split "-" (tag ++ lo ++ "-" ++ hi ++ "-" ++ n) = [tag ++ lo; hi; n].
Proof.
  intros Htag Hlo Hhi Hn.
  rewrite (split_prepend _ tag) by exact Htag.
  rewrite (split_prepend _ lo) by exact Hlo.
  change ("-" ++ hi ++ "-" ++ n) with (String "-" (hi ++ String "-" n)).
  rewrite split_at, (split_prepend _ hi) by exact Hhi.
  rewrite split_at, (split_whole _ n Hn).
  rewrite !append_empty. reflexivity.
Qed.

Lemma append_assoc (a b c : string) : (a ++ b) ++ c = a ++ b ++ c.
Proof. induction a as [|d a IH]; [reflexivity|]. cbn. rewrite IH. reflexivity. Qed.

(** The three parts of a group name that the analysis reads. *)
Lemma split_groups (p0 p1 p2 g : string) :
  lacks "_" p0 -> lacks "_" p1 -> lacks "_" p2 ->
  split "_" (p0 ++ "_" ++ p1 ++ "_" ++ p2 ++ "_" ++ g)
  = p0 :: p1 :: p2 :: split "_" g.
Proof.
  intros H0 H1 H2.
  rewrite (split_prepend _ p0) by exact H0.
  change ("_" ++ p1 ++ "_" ++ p2 ++ "_" ++ g)
    with (String "_" (p1 ++ String "_" (p2 ++ String "_" g))).
  rewrite split_at, (split_prepend _ p1) by exact H1.
  rewrite split_at, (split_prepend _ p2) by exact H2.
  rewrite split_at, !append_empty. reflexivity.
Qed.

Lemma createGroupName_parts (t : texts) (g : string) :
  createGroupName t g
  = ("vx" ++ t_lowervx t ++ "-" ++ t_uppervx t ++ "-" ++ t_xsteps t)
    ++ "_" ++ ("vy" ++ t_lowervy t ++ "-" ++ t_uppervy t ++ "-" ++ t_ysteps t)
    ++ "_" ++ ("settle-" ++ t_settle t) ++ "_" ++ g.
Proof. unfold createGroupName. rewrite !append_assoc. reflexivity. Qed.

Lemma index_first {A : Type} (x : A) (l : list A) : index (x :: l) 0 = Ok x.
Proof. exact (index_nth (x :: l) 0 x ltac:(cbn; lia)). Qed.

Lemma index_second {A : Type} (x y : A) (l : list A) :
  index (x :: y :: l) 1 = Ok y.
Proof. exact (index_nth (x :: y :: l) 1 x ltac:(cbn; lia)). Qed.

Lemma index_third {A : Type} (x y z : A) (l : list A) :
  index (x :: y :: z :: l) 2 = Ok z.
Proof. exact (index_nth (x :: y :: z :: l) 2 x ltac:(cbn; lia)). Qed.

(** X18: a group name is read back as it was written.  When none of the
    seven numbers is written with a hyphen or an underscore (no negative
    number and no negative exponent), the analysis takes out of the name
    made by [createGroupName] exactly the texts that went in, whatever the
    user's group name is. *)
Theorem group_name_read_back (t : texts) (groupname : string) :
  plain t -> read_group_name (createGroupName t groupname) = Ok t.
Proof.
  intros ((Hlx & Hlx') & (Hux & Hux') & (Hxs & Hxs') & (Hly & Hly') &
          (Huy & Huy') & (Hys & Hys') & (Hst & Hst')).
  assert (Hdash : lacks "_" "-") by (cbn; auto).
  unfold read_group_name. rewrite createGroupName_parts.
  rewrite split_groups.
  2: { apply (lacks_append _ "vx"); [cbn; auto|].
       repeat (apply lacks_append; try assumption). }
  2: { apply (lacks_append _ "vy"); [cbn; auto|].
       repeat (apply lacks_append; try assumption). }
  2: { apply (lacks_append _ "settle-"); [cbn; tauto|assumption]. }
  cbv zeta. rewrite index_first, index_second, index_third. cbn [bind].
  rewrite (split_axis "vx") by (cbn; auto).
  rewrite (split_axis "vy") by (cbn; auto).
  rewrite index_first, index_second, index_third. cbn [bind].
  change ("settle-" ++ t_settle t) with ("settle" ++ String "-" (t_settle t)).
  rewrite (split_prepend _ "settle") by (cbn; tauto).
  rewrite split_at, (split_whole _ _ Hst), index_second. cbn [bind].
  destruct t; reflexivity.
Qed.

(** X19: a group name written for a negative lower x bound cannot be
    analysed.  The sign is taken for a separator, so the text handed to
    [float] for the lower x bound is empty; [float] refuses it, and the
    analysis ends in [ValueError] before anything else is read. *)
Theorem negative_lower_bound_is_refused
  (to_float : string -> result Q) (to_int : string -> result Z)
  (t : texts) (digits groupname : string) :
  to_float "" = Raise ValueError ->
  t_lowervx t = String "-" digits ->
  read_measurement to_float to_int (createGroupName t groupname)
  = Raise ValueError.
Proof.
  intros Hfloat Hneg. unfold read_measurement, createGroupName.
  rewrite Hneg. cbn [append split Ascii.eqb Bool.eqb].
  set (rest := (digits ++ _)%string).
  pose proof (split_nonempty "_" rest) as Hrest.
  destruct (split "_" rest) as [|p ps]; [congruence|].
  cbv zeta. rewrite index_first. cbn [bind split Ascii.eqb Bool.eqb].
  pose proof (split_nonempty "-" p) as Hp.
  destruct (split "-" p) as [|q qs]; [congruence|].
  rewrite index_first. cbn [bind drop2]. rewrite Hfloat. reflexivity.
Qed.

Lemma group_name_read_back_witness :
  read_group_name
    (createGroupName (mkTexts "0.0" "1.5" "20" "0.5" "2.0" "10" "0.01") "run_1")
  = Ok (mkTexts "0.0" "1.5" "20" "0.5" "2.0" "10" "0.01").
Proof.
  apply (group_name_read_back
           (mkTexts "0.0" "1.5" "20" "0.5" "2.0" "10" "0.01") "run_1").
  unfold plain; cbn; repeat split.
Defined.

Lemma negative_lower_bound_is_refused_witness :
  read_measurement
    (fun text => match text with
                 | EmptyString => Raise ValueError
                 | _ => Ok 1%Q
                 end)
    (fun _ => Ok 1)
    (createGroupName (mkTexts "-1.0" "1.5" "20" "0.5" "2.0" "10" "0.01") "run")
  = Raise ValueError.
Proof.
  exact (negative_lower_bound_is_refused
           (fun text => match text with
                        | EmptyString => Raise ValueError
                        | _ => Ok 1%Q
                        end)
           (fun _ => Ok 1)
           (mkTexts "-1.0" "1.5" "20" "0.5" "2.0" "10" "0.01") "1.0" "run"
           eq_refl eq_refl).
Defined.

End GroupNames.

Section TimeSpans.
Import TDMS.

(** X20: the run time of a measurement is printed in proper parts.  For a
    span that is not negative the four numbers are the days, the hours
    below 24, the minutes below 60 and the seconds below 60 of the span,
    and together they give the span back. *)
Theorem timedelta64_parts_decompose (t d h m s : Z) :
  0 <= t ->
  timedelta64_parts t = (d, h, m, s) ->
  0 <= d /\ 0 <= h < 24 /\ 0 <= m < 60 /\ 0 <= s < 60 /\
  ((d * 24 + h) * 60 + m) * 60 + s = t.
Proof.
  intros Ht H. unfold timedelta64_parts in H. cbv zeta in H.
  apply pair_equal_spec in H. destruct H as [H Hs].
  apply pair_equal_spec in H. destruct H as [H Hm].
  apply pair_equal_spec in H. destruct H as [Hd Hh].
  pose proof (Z.div_mod t 86400 ltac:(lia)) as E1.
  pose proof (Z.mod_pos_bound t 86400 ltac:(lia)) as B1.
  pose proof (Z.div_mod t 3600 ltac:(lia)) as E2.
  pose proof (Z.mod_pos_bound t 3600 ltac:(lia)) as B2.
  pose proof (Z.div_mod t 60 ltac:(lia)) as E3.
  pose proof (Z.mod_pos_bound t 60 ltac:(lia)) as B3.
  lia.
Qed.


Lemma timedelta64_parts_decompose_witness :
  timedelta64_parts 93784 = (1, 2, 3, 4) /\
  ((1 * 24 + 2) * 60 + 3) * 60 + 4 = 93784.
Proof.
  assert (H : timedelta64_parts 93784 = (1, 2, 3, 4))
    by (vm_compute; reflexivity).
  split; [exact H|].
  exact (proj2 (proj2 (proj2 (proj2
    (timedelta64_parts_decompose 93784 1 2 3 4 ltac:(lia) H))))).
Defined.

End TimeSpans.
